(** * Organization lookup and insights: the search, filter, aggregation and
      pagination logic of [individual_search.py] and [app.py]

    The two Streamlit scripts share their helpers ([is_int], [similarity],
    [with_all], [apply_dropdown_filters]); [individual_search.py] holds the
    candidate search and the pagination block, [app.py] the year-to-date
    aggregation inside [render_org_insights].

    Conventions of the embedding.
    - A Python [str] is a [string]; every character stands for one code point
      below 256 (the Latin-1 range), so [length] is Python's [len].
    - Python integers are [Z]; list positions inside the matcher are [nat].
    - A call that may raise returns an [outcome]; [st.stop()] is the outcome
      [Stopped].
    - The data store, pandas' text parsers and the clock are not part of the
      scripts: store answers are fields of a [Store] record, the parsers are
      section variables and [date.today()] is an argument. *)

From Stdlib Require Import ZArith QArith Qround List Bool Arith Lia Lqa.
From Stdlib Require Import Ascii String.
From Stdlib Require Import Permutation Sorted.
Import ListNotations.

Set Implicit Arguments.

Close Scope Q_scope.

(** ** Outcomes of a call *)

Inductive exn : Type :=
| ValueError
| StoreError
| TypeError.

Inductive outcome (A : Type) : Type :=
| Ok (a : A)
| Stopped
| Raised (e : exn).

Arguments Ok {A} a.
Arguments Stopped {A}.
Arguments Raised {A} e.

Definition bind {A B : Type} (m : outcome A) (k : A -> outcome B) : outcome B :=
  match m with
  | Ok a => k a
  | Stopped => Stopped
  | Raised e => Raised e
  end.

Notation "x <- m ;; k" := (bind m (fun x => k))
  (at level 61, m at next level, right associativity).

(** ** Python strings *)

Module PyStr.

Local Open Scope nat_scope.

Definition code (c : ascii) : nat := nat_of_ascii c.

(** [str.isspace] on one code point below 256. *)
Definition isspace (c : ascii) : bool :=
  let n := code c in
  ((9 <=? n) && (n <=? 13)) || ((28 <=? n) && (n <=? 32))
  || (n =? 133) || (n =? 160).

Definition isdigit (c : ascii) : bool :=
  let n := code c in (48 <=? n) && (n <=? 57).

Definition digit_value (c : ascii) : Z := Z.of_nat (code c - 48).

(** [str.lower] on one code point below 256: A-Z and the accented capitals
    0xC0-0xDE (the multiplication sign 0xD7 apart) move up by 32. *)
Definition lower_char (c : ascii) : ascii :=
  let n := code c in
  if ((65 <=? n) && (n <=? 90))
     || ((192 <=? n) && (n <=? 222) && negb (n =? 215))
  then ascii_of_nat (n + 32) else c.

Fixpoint lower (s : string) : string :=
  match s with
  | EmptyString => EmptyString
  | String c s' => String (lower_char c) (lower s')
  end.

Fixpoint lstrip (s : string) : string :=
  match s with
  | EmptyString => EmptyString
  | String c s' => if isspace c then lstrip s' else s
  end.

Fixpoint rstrip (s : string) : string :=
  match s with
  | EmptyString => EmptyString
  | String c s' =>
      match rstrip s' with
      | EmptyString => if isspace c then EmptyString else String c EmptyString
      | r => String c r
      end
  end.

(** [s.strip()] *)
Definition strip (s : string) : string := rstrip (lstrip s).

(** Truth value of a string: [not query] is [negb (truthy query)]. *)
Definition truthy (s : string) : bool :=
  match s with EmptyString => false | _ => true end.

(** [x or ""] for an optional string. *)
Definition or_empty (x : option string) : string :=
  match x with Some s => s | None => EmptyString end.

(** The digit part of an integer literal: digits, with single underscores
    allowed between two digits. [prev] tells whether the previous character
    was a digit. *)
Fixpoint int_digits (acc : Z) (prev : bool) (s : string) : option Z :=
  match s with
  | EmptyString => if prev then Some acc else None
  | String c s' =>
      if isdigit c then int_digits (10 * acc + digit_value c) true s'
      else if Ascii.eqb c "_"%char then
             (if prev then int_digits acc false s' else None)
           else None
  end.

(** [int(s)] for a [str]: surrounding white space is dropped, one sign is
    allowed, the rest is a decimal literal. [None] is [ValueError].
    (CPython from 3.11 on also refuses literals of more than 4300 digits; the
    limit is a run-time setting and is left out. [int] itself does not drop
    the separators U+001C to U+001F, which [strip] drops: the scripts call
    it on stripped text only, where the two agree.) *)
Definition int (s : string) : option Z :=
  match strip s with
  | String "+"%char r => int_digits 0 false r
  | String "-"%char r => option_map Z.opp (int_digits 0 false r)
  | r => int_digits 0 false r
  end.

(** Code-point order, the order of [sorted] on strings. *)
Fixpoint ltb (s t : string) : bool :=
  match s, t with
  | EmptyString, EmptyString => false
  | EmptyString, String _ _ => true
  | String _ _, EmptyString => false
  | String a s', String b t' =>
      if code a <? code b then true
      else if code b <? code a then false
      else ltb s' t'
  end.

End PyStr.

(** ** Python list slicing *)

Module PyList.

Local Open Scope Z_scope.

Section Slice.
Context {T : Type}.

Definition len (l : list T) : Z := Z.of_nat (List.length l).

(** The bound adjustment of [l[lo:hi]]: a negative bound counts from the
    end, and every bound is clamped into [0, len]. *)
Definition adjust (n i : Z) : Z :=
  if i <? 0 then Z.max 0 (i + n) else Z.min i n.

Definition slice (l : list T) (lo hi : Z) : list T :=
  let n := len l in
  let lo' := adjust n lo in
  let hi' := adjust n hi in
  firstn (Z.to_nat (hi' - lo')) (skipn (Z.to_nat lo') l).

End Slice.

End PyList.

(** ** The pagination block of [individual_search.py] *)

Module Pagination.

Import PyList.
Local Open Scope Z_scope.

Definition PAGE_SIZE : Z := 10.

Record page_view (T : Type) : Type := {
  total : Z;
  total_pages : Z;
  page : Z;
  start : Z;
  end_ : Z;
  page_rows : list T
}.

(** Lines 240-247, for a page size [page_size] and the page index found in
    the session state. *)
Definition paginate {T : Type} (page_size : Z) (results : list T) (page0 : Z)
  : page_view T :=
  let total := len results in
  let total_pages := Z.max 1 ((total + page_size - 1) / page_size) in
  let page := Z.max 0 (Z.min page0 (total_pages - 1)) in
  let start := page * page_size in
  let end_ := Z.min (start + page_size) total in
  {| total := total; total_pages := total_pages; page := page;
     start := start; end_ := end_;
     page_rows := slice results start end_ |}.

(** The block as the script runs it. *)
Definition search_page {T : Type} (results : list T) (page0 : Z) : page_view T :=
  paginate PAGE_SIZE results page0.

(** What the specification writes: the ceiling of a quotient. *)
Definition ceil_quot (n d : Z) : Z := Qceiling (inject_Z n / inject_Z d)%Q.

End Pagination.

(** ** Sorting

    [list.sort] and [sorted] are stable and look at the elements through [<]
    only. The result of a stable sort is determined by the input (see
    [stable_sort_unique]), so the insertion sort below returns the list
    Python returns. *)

Module PySort.

Section Sort.
Variable A : Type.
Variable ltb : A -> A -> bool.

(** [x] came before every element of [l] in the input: it goes in front of
    the first element that is not smaller than it. *)
Fixpoint insert (x : A) (l : list A) : list A :=
  match l with
  | [] => [x]
  | y :: l' => if ltb y x then y :: insert x l' else x :: l
  end.

Fixpoint sort (l : list A) : list A :=
  match l with
  | [] => []
  | x :: l' => insert x (sort l')
  end.

(** [x] is not after [y] in the order of [ltb]. *)
Definition not_after (x y : A) : Prop := ltb y x = false.

(** [x] and [y] tie. *)
Definition tie (x y : A) : bool := negb (ltb x y) && negb (ltb y x).

End Sort.

End PySort.

(** ** [difflib.SequenceMatcher(None, a, b).ratio()]

    The matcher of the Python standard library, with its default
    [autojunk=True] and no junk predicate (the scripts pass [None]). *)

Module Difflib.

Local Open Scope nat_scope.

Record Match : Type := { m_a : nat; m_b : nat; m_size : nat }.

(** Tuple order on [Match], used by [matching_blocks.sort()]. *)
Definition match_ltb (x y : Match) : bool :=
  if negb (m_a x =? m_a y) then m_a x <? m_a y
  else if negb (m_b x =? m_b y) then m_b x <? m_b y
  else m_size x <? m_size y.

Section Matcher.
Variables a b : list ascii.

(** [a[i]]; every position read below is inside the sequence. *)
Definition at_ (s : list ascii) (i : nat) : ascii := nth i s Ascii.zero.

(** The positions of [c] in [l], counted from [j], in increasing order. *)
Fixpoint indices_from (c : ascii) (j : nat) (l : list ascii) : list nat :=
  match l with
  | [] => []
  | x :: l' =>
      if Ascii.eqb x c then j :: indices_from c (S j) l'
      else indices_from c (S j) l'
  end.

(** [__chain_b]: with 200 elements or more, an element that takes more than
    1% of [b] (plus one) is popular and loses its entry of [b2j]. *)
Definition popular (c : ascii) : bool :=
  let n := List.length b in
  (200 <=? n) && (n / 100 + 1 <? List.length (indices_from c 0 b)).

(** [b2j.get(c, nothing)] *)
Definition b2j (c : ascii) : list nat :=
  if popular c then [] else indices_from c 0 b.

(** No junk predicate: [bjunk] is empty. *)
Definition isbjunk (c : ascii) : bool := false.

(** [j2len.get(j, 0)] on a dictionary kept as an association list. *)
Fixpoint j2len_get (j2len : list (nat * nat)) (j : nat) : nat :=
  match j2len with
  | [] => 0
  | (j', k) :: r => if j' =? j then k else j2len_get r j
  end.

(** [j2len.get(j-1, 0)]: the key [-1] is never present. *)
Definition j2len_prev (j2len : list (nat * nat)) (j : nat) : nat :=
  match j with
  | 0 => 0
  | S j' => j2len_get j2len j'
  end.

(** The inner loop of [find_longest_match] over [b2j.get(a[i], nothing)]. *)
Fixpoint scan_row (blo bhi i : nat) (j2len : list (nat * nat))
    (js : list nat) (newj2len : list (nat * nat)) (best : Match)
  : list (nat * nat) * Match :=
  match js with
  | [] => (newj2len, best)
  | j :: js' =>
      if j <? blo then scan_row blo bhi i j2len js' newj2len best
      else if bhi <=? j then (newj2len, best)
      else
        let k := j2len_prev j2len j + 1 in
        let best' :=
          if m_size best <? k
          then {| m_a := i + 1 - k; m_b := j + 1 - k; m_size := k |}
          else best in
        scan_row blo bhi i j2len js' ((j, k) :: newj2len) best'
  end.

(** The outer loop, over [range(alo, ahi)]. *)
Fixpoint scan_rows (blo bhi : nat) (rows : list nat)
    (j2len : list (nat * nat)) (best : Match) : Match :=
  match rows with
  | [] => best
  | i :: rows' =>
      let '(newj2len, best') :=
        scan_row blo bhi i j2len (b2j (at_ a i)) [] best in
      scan_rows blo bhi rows' newj2len best'
  end.

(** First [while]: grow the match to the left over equal, non-junk
    elements. *)
Fixpoint extend_left (alo blo besti bestj bestsize : nat) : Match :=
  match besti, bestj with
  | S i', S j' =>
      if (alo <? besti) && (blo <? bestj)
         && negb (isbjunk (at_ b j'))
         && Ascii.eqb (at_ a i') (at_ b j')
      then extend_left alo blo i' j' (S bestsize)
      else {| m_a := besti; m_b := bestj; m_size := bestsize |}
  | _, _ => {| m_a := besti; m_b := bestj; m_size := bestsize |}
  end.

(** Second [while]: grow it to the right. [fuel] counts the positions left
    before [ahi]. *)
Fixpoint extend_right (ahi bhi besti bestj fuel bestsize : nat) : nat :=
  match fuel with
  | 0 => bestsize
  | S fuel' =>
      if (besti + bestsize <? ahi) && (bestj + bestsize <? bhi)
         && negb (isbjunk (at_ b (bestj + bestsize)))
         && Ascii.eqb (at_ a (besti + bestsize)) (at_ b (bestj + bestsize))
      then extend_right ahi bhi besti bestj fuel' (S bestsize)
      else bestsize
  end.

(** [find_longest_match(alo, ahi, blo, bhi)]. The last two [while] loops of
    the source only run over junk elements, and there are none. *)
Definition find_longest_match (alo ahi blo bhi : nat) : Match :=
  let best0 := {| m_a := alo; m_b := blo; m_size := 0 |} in
  let best1 := scan_rows blo bhi (seq alo (ahi - alo)) [] best0 in
  let best2 := extend_left alo blo (m_a best1) (m_b best1) (m_size best1) in
  let size :=
    extend_right ahi bhi (m_a best2) (m_b best2)
      (ahi - (m_a best2 + m_size best2)) (m_size best2) in
  {| m_a := m_a best2; m_b := m_b best2; m_size := size |}.

Definition range : Type := (nat * nat * nat * nat)%type.

(** The [while queue:] loop of [get_matching_blocks]. The head of [queue] is
    the entry [queue.pop()] takes. [None]: the fuel ran out. *)
Fixpoint run_queue (fuel : nat) (queue : list range)
    (matching_blocks : list Match) : option (list Match) :=
  match queue with
  | [] => Some matching_blocks
  | (alo, ahi, blo, bhi) :: queue' =>
      match fuel with
      | 0 => None
      | S fuel' =>
          let x := find_longest_match alo ahi blo bhi in
          let i := m_a x in
          let j := m_b x in
          let k := m_size x in
          if k =? 0 then run_queue fuel' queue' matching_blocks
          else
            let q1 :=
              if (alo <? i) && (blo <? j)
              then (alo, i, blo, j) :: queue' else queue' in
            let q2 :=
              if (i + k <? ahi) && (j + k <? bhi)
              then (i + k, ahi, j + k, bhi) :: q1 else q1 in
            run_queue fuel' q2 (matching_blocks ++ [x])
      end
  end.

(** The pass that merges adjacent blocks: the loop state is [(i1, j1, k1)]
    and [non_adjacent]. *)
Fixpoint collapse (i1 j1 k1 : nat) (blocks non_adjacent : list Match)
  : list Match :=
  match blocks with
  | [] =>
      if k1 =? 0 then non_adjacent
      else non_adjacent ++ [{| m_a := i1; m_b := j1; m_size := k1 |}]
  | x :: blocks' =>
      if (i1 + k1 =? m_a x) && (j1 + k1 =? m_b x)
      then collapse i1 j1 (k1 + m_size x) blocks' non_adjacent
      else
        collapse (m_a x) (m_b x) (m_size x) blocks'
          (if k1 =? 0 then non_adjacent
           else non_adjacent ++ [{| m_a := i1; m_b := j1; m_size := k1 |}])
  end.

(** Every pass of the loop takes a range off the queue and puts back ranges
    that are shorter in total, so [2 * len(a) + 1] passes are enough. *)
Definition get_matching_blocks : option (list Match) :=
  let la := List.length a in
  let lb := List.length b in
  match run_queue (2 * la + 1) [(0, la, 0, lb)] [] with
  | None => None
  | Some matching_blocks =>
      let sorted := PySort.sort match_ltb matching_blocks in
      Some (collapse 0 0 0 sorted []
              ++ [{| m_a := la; m_b := lb; m_size := 0 |}])
  end.

Definition sum_sizes (blocks : list Match) : nat :=
  fold_right (fun x s => m_size x + s) 0 blocks.

(** [_calculate_ratio(matches, length)]. The quotient is kept exact; a float
    division of two integers rounds monotonically, and rounds two different
    quotients of denominators below [2^26] to different floats. *)
Definition calculate_ratio (matches length : nat) : Q :=
  match length with
  | 0 => 1%Q
  | _ => Qmake (Z.of_nat (2 * matches)) (Pos.of_nat length)
  end.

Definition ratio : option Q :=
  match get_matching_blocks with
  | None => None
  | Some blocks => Some (calculate_ratio (sum_sizes blocks) (List.length a + List.length b))
  end.

(** The number of consecutive elements of [a] just before position [i] that
    are not popular: the longest run the table of lengths can record there. *)
Fixpoint run_before (i : nat) : nat :=
  match i with
  | 0 => 0
  | S i' => if popular (at_ a i') then 0 else S (run_before i')
  end.

End Matcher.

(** A match lies inside the window it was searched in. *)
Definition inside (alo ahi blo bhi : nat) (x : Match) : Prop :=
  alo <= m_a x /\ m_a x + m_size x <= ahi
  /\ blo <= m_b x /\ m_b x + m_size x <= bhi.

(** The lengths kept in a row of [j2len], [rows] rows into the window. *)
Definition row_inside (rows blo : nat) (j2len : list (nat * nat)) : Prop :=
  forall j k, In (j, k) j2len -> 1 <= k <= rows /\ k + blo <= j + 1.

(** A window of the queue. *)
Definition well_formed (r : range) : Prop :=
  let '(alo, ahi, blo, bhi) := r in alo <= ahi /\ blo <= bhi.

(** The passes of the queue loop that a queue can still ask for. *)
Fixpoint cost (queue : list range) : nat :=
  match queue with
  | [] => 0
  | (alo, ahi, _, _) :: queue' => 2 * (ahi - alo) + 1 + cost queue'
  end.

(** The elements of [a], and of [b], that the windows of a queue cover. *)
Fixpoint span_a (queue : list range) : nat :=
  match queue with
  | [] => 0
  | (alo, ahi, _, _) :: queue' => (ahi - alo) + span_a queue'
  end.

Fixpoint span_b (queue : list range) : nat :=
  match queue with
  | [] => 0
  | (_, _, blo, bhi) :: queue' => (bhi - blo) + span_b queue'
  end.

End Difflib.

(** ** Helpers the two scripts share *)

Module Helpers.

Local Open Scope string_scope.

(** [is_int]: [int(s)] raised or not. *)
Definition is_int (s : string) : bool :=
  match PyStr.int s with
  | Some _ => true
  | None => false
  end.

(** [similarity(a, b)]. The matcher always returns (see [ratio_returns]), so
    the second branch is never taken. *)
Definition similarity (a b : string) : Q :=
  match Difflib.ratio (list_ascii_of_string (PyStr.lower a))
                      (list_ascii_of_string (PyStr.lower b)) with
  | Some r => r
  | None => 0%Q
  end.

(** [o not in (None, "", "nan")] *)
Definition kept_option (o : option string) : bool :=
  match o with
  | None => false
  | Some s => negb (String.eqb s "") && negb (String.eqb s "nan")
  end.

Fixpoint values (options : list (option string)) : list string :=
  match options with
  | [] => []
  | Some s :: r => s :: values r
  | None :: r => values r
  end.

(** [with_all(options)] *)
Definition with_all (options : list (option string)) : list string :=
  let opts := PySort.sort PyStr.ltb (values (filter kept_option options)) in
  "All" :: opts.

(** What the specification asks of an option list for the column [col]:
    ["All"] in front, then, in strictly ascending order, exactly the values
    of the column that [keep] retains. *)
Definition facet_list (keep : string -> Prop) (col : list (option string))
    (opts : list string) : Prop :=
  exists l : list string,
    opts = "All" :: l
    /\ StronglySorted (fun s t => PyStr.ltb s t = true) l
    /\ forall s : string, In s l <-> (In (Some s) col /\ keep s).

(** A request row; [Y] is the type of the year cell and [D] the type of the
    two date cells, which the coercions of [render_org_insights] change. The
    columns the scripts only display are left out, but for [team_name]. *)
Record request (Y D : Type) : Type := {
  team_name : option string;
  date_requested : D;
  event_name : option string;
  start_date_calendar_year : Y;
  start_date : D;
  registration_status : option string
}.

(** [column == choice], row by row; a null cell is equal to no string. *)
Definition cell_is (choice : string) (cell : option string) : bool :=
  match cell with
  | Some s => String.eqb s choice
  | None => false
  end.

(** [apply_dropdown_filters(d, status_choice, event_choice)] *)
Definition apply_dropdown_filters {Y D : Type} (d : list (request Y D))
    (status_choice event_choice : string) : list (request Y D) :=
  let out := d in
  let out :=
    if negb (String.eqb status_choice "All")
    then filter (fun r => cell_is status_choice (registration_status r)) out
    else out in
  let out :=
    if negb (String.eqb event_choice "All")
    then filter (fun r => cell_is event_choice (event_name r)) out
    else out in
  out.

(** [Series.dropna()] on a column of optional strings. *)
Definition dropna (col : list (option string)) : list (option string) :=
  filter (fun o => match o with Some _ => true | None => false end) col.

Definition cell_eqb (x y : option string) : bool :=
  match x, y with
  | Some s, Some t => String.eqb s t
  | None, None => true
  | _, _ => false
  end.

Definition cell_eq_dec (x y : option string) : {x = y} + {x <> y}.
Proof. decide equality. apply string_dec. Defined.

(** [Series.unique()]: the values in the order of their first appearance. *)
Fixpoint unique_from (seen col : list (option string)) : list (option string) :=
  match col with
  | [] => []
  | x :: col' =>
      if existsb (cell_eqb x) seen then unique_from seen col'
      else x :: unique_from (x :: seen) col'
  end.

Definition unique (col : list (option string)) : list (option string) :=
  unique_from [] col.

(** A cell of the store's JSON answer that should hold a number. *)
Inductive json : Type :=
| JNull
| JNumber (q : Q)
| JString (s : string).

(** Calendar dates, as [datetime.date] has them. *)
Record date : Type := { year : Z; month : Z; day : Z }.

Local Open Scope Z_scope.

Definition is_leap (y : Z) : bool :=
  (y mod 4 =? 0) && (negb (y mod 100 =? 0) || (y mod 400 =? 0)).

Definition days_in_month (y m : Z) : Z :=
  if m =? 2 then (if is_leap y then 29 else 28)
  else if (m =? 4) || (m =? 6) || (m =? 9) || (m =? 11) then 30
  else 31.

Definition valid_date (y m d : Z) : bool :=
  (1 <=? y) && (y <=? 9999) && (1 <=? m) && (m <=? 12)
  && (1 <=? d) && (d <=? days_in_month y m).

(** [date(y, m, d)]: [ValueError] when there is no such day. *)
Definition mk_date (y m d : Z) : outcome date :=
  if valid_date y m d then Ok {| year := y; month := m; day := d |}
  else Raised ValueError.

(** [d1 <= d2] on dates. *)
Definition date_leb (d1 d2 : date) : bool :=
  if year d1 <? year d2 then true
  else if year d2 <? year d1 then false
  else if month d1 <? month d2 then true
  else if month d2 <? month d1 then false
  else day d1 <=? day d2.

(** The rows as the store sends them, and after the three coercions. *)
Definition raw_request : Type := request json (option string).
Definition coerced_request : Type := request (option Q) (option date).

Section Coercions.

(** pandas' parsers of a text cell: [None] is the missing value that
    [errors="coerce"] puts in place of a text that does not parse ([NaN] for
    a number, [NaT] for a date). *)
Variable numeric_of_text : string -> option Q.
Variable date_of_text : string -> option date.

(** [pd.to_numeric(col, errors="coerce")], cell by cell. *)
Definition to_numeric (cell : json) : option Q :=
  match cell with
  | JNull => None
  | JNumber q => Some q
  | JString s => numeric_of_text s
  end.

(** [pd.to_datetime(col, errors="coerce").dt.date], one cell, once the
    reading [date_of_text] of the texts of its column is settled. What
    pandas settles from the column as a whole is in [Frame]. *)
Definition to_date (cell : option string) : option date :=
  match cell with
  | None => None
  | Some s => date_of_text s
  end.

Definition coerce_row (r : raw_request) : coerced_request :=
  {| team_name := team_name r;
     date_requested := to_date (date_requested r);
     event_name := event_name r;
     start_date_calendar_year := to_numeric (start_date_calendar_year r);
     start_date := to_date (start_date r);
     registration_status := registration_status r |}.

(** Lines 154-156 of [app.py], 174-176 of [individual_search.py], when
    both date columns are read and read in the same way; [Frame.coerce] has
    the columns as pandas reads them. *)
Definition coerce (df : list raw_request) : list coerced_request :=
  map coerce_row df.

End Coercions.

(** [df[df["start_date_calendar_year"] == y]]: a missing year is equal to no
    number. *)
Definition year_is (y : Z) (r : coerced_request) : bool :=
  match start_date_calendar_year r with
  | Some q => Qeq_bool q (inject_Z y)
  | None => false
  end.

Definition year_rows (y : Z) (df : list coerced_request) : list coerced_request :=
  filter (year_is y) df.

(** The two option lists, built before any filter is applied. *)
Definition status_options_of (df : list coerced_request) : list string :=
  with_all (unique (dropna (map (fun r => registration_status r) df))).

Definition event_options_of (df : list coerced_request) : list string :=
  with_all (unique (dropna (map (fun r => event_name r) df))).

End Helpers.

(** ** [individual_search.py] *)

Module IndividualSearch.

Import Helpers.
Local Open Scope string_scope.

(** A row of the [orgs] table with the four selected columns. *)
Record org : Type := {
  organization_id : Z;
  organization_name : option string;
  org_city : option string;
  org_state : option string
}.

(** The store, seen through the two queries of [fetch_org_candidates]. A
    query raises or returns [res.data], which may be [None]. *)
Record Store : Type := {
  (** [.eq("organization_id", n).execute()] *)
  orgs_by_id : Z -> outcome (option (list org));
  (** [.ilike("organization_name", pattern).limit(n).execute()] *)
  orgs_by_name : string -> Z -> outcome (option (list org))
}.

(** [res.data or []] *)
Definition data_or_empty {T : Type} (data : option (list T)) : list T :=
  match data with
  | Some l => l
  | None => []
  end.

Definition name_of (o : org) : string := PyStr.or_empty (organization_name o).

(** The sort key [(-similarity(query, name), len(name))]. *)
Definition sort_key (query : string) (o : org) : Q * Z :=
  (Qopp (similarity query (name_of o)), Z.of_nat (String.length (name_of o))).

Definition Qltb (x y : Q) : bool := negb (Qle_bool y x).

(** [<] on two key tuples: the first components decide unless they are
    equal. *)
Definition key_ltb (k1 k2 : Q * Z) : bool :=
  if negb (Qeq_bool (fst k1) (fst k2)) then Qltb (fst k1) (fst k2)
  else Z.ltb (snd k1) (snd k2).

(** [rows.sort(key=...)] *)
Definition sort_rows (query : string) (rows : list org) : list org :=
  PySort.sort (fun x y => key_ltb (sort_key query x) (sort_key query y)) rows.

(** [fetch_org_candidates(query)] *)
Definition fetch_org_candidates (client : Store) (query : option string)
  : outcome (list org) :=
  let query := PyStr.strip (PyStr.or_empty query) in
  if negb (PyStr.truthy query) then Ok []
  else if is_int query then
    match PyStr.int query with
    | None => Raised ValueError
    | Some n =>
        data <- orgs_by_id client n ;;
        Ok (data_or_empty data)
    end
  else
    data <- orgs_by_name client ("%" ++ query ++ "%") 200 ;;
    let rows := data_or_empty data in
    Ok (sort_rows query rows).

(** What [render_org_insights] of this script computes. *)
Record insights : Type := {
  status_options : list string;
  event_options : list string;
  df : list coerced_request;
  df_2025 : list coerced_request;
  df_2026 : list coerced_request;
  delta : Z
}.

Section Render.
Variable numeric_of_text : string -> option Q.
Variable date_of_text : string -> option date.

(** [render_org_insights]: [data] is the store's answer, the two choices are
    what the select boxes return. *)
Definition render_org_insights (data : list raw_request)
    (status_choice event_choice : string) : outcome insights :=
  match data with
  | [] => Stopped
  | _ =>
      let df0 := coerce numeric_of_text date_of_text data in
      let status_options := status_options_of df0 in
      let event_options := event_options_of df0 in
      let df := apply_dropdown_filters df0 status_choice event_choice in
      let df_2025 := year_rows 2025 df in
      let df_2026 := year_rows 2026 df in
      Ok {| status_options := status_options;
            event_options := event_options;
            df := df; df_2025 := df_2025; df_2026 := df_2026;
            delta := (PyList.len df_2026 - PyList.len df_2025)%Z |}
  end.

End Render.

End IndividualSearch.

(** ** [app.py] *)

Module App.

Import Helpers.
Local Open Scope Z_scope.

(** The numbers of lines 171-184. *)
Record metrics : Type := {
  count_2025 : Z;
  count_2026 : Z;
  yoy_delta : Z;
  cutoff_2025 : date;
  ytd_2025 : Z;
  ytd_2026 : Z;
  ytd_delta : Z
}.

(** [col.notna()], one cell. *)
Definition notna (cell : option date) : bool :=
  match cell with
  | Some _ => true
  | None => false
  end.

(** [col <= cutoff], one cell of a column of [date] objects: pandas compares
    a missing date to [False]. A column without any date is not such a
    column: see [Frame.requested_rows]. *)
Definition cell_le (cell : option date) (cutoff : date) : bool :=
  match cell with
  | Some d => date_leb d cutoff
  | None => false
  end.

(** The mask [col.notna() & (col <= cutoff)] on one row. *)
Definition requested_by (cutoff : date) (r : coerced_request) : bool :=
  notna (date_requested r) && cell_le (date_requested r) cutoff.

(** Lines 171-184: the year partitions, the counts, the cutoff and the
    deltas, from the filtered frame and [date.today()], on a frame whose
    request dates are [date] objects; [Frame.aggregate] has the other
    case. *)
Definition aggregate (df : list coerced_request) (today : date)
  : outcome metrics :=
  let df_2025 := year_rows 2025 df in
  let df_2026 := year_rows 2026 df in
  let count_2025 := PyList.len df_2025 in
  let count_2026 := PyList.len df_2026 in
  let yoy_delta := count_2026 - count_2025 in
  cutoff_2025 <- mk_date 2025 (month today) (day today) ;;
  let df_2025_ytd := filter (requested_by cutoff_2025) df_2025 in
  let df_2026_ytd := filter (requested_by today) df_2026 in
  let ytd_delta := PyList.len df_2026_ytd - PyList.len df_2025_ytd in
  Ok {| count_2025 := count_2025; count_2026 := count_2026;
        yoy_delta := yoy_delta; cutoff_2025 := cutoff_2025;
        ytd_2025 := PyList.len df_2025_ytd;
        ytd_2026 := PyList.len df_2026_ytd;
        ytd_delta := ytd_delta |}.

(** What [render_org_insights] shows: the option lists, the metrics and the
    three tabs. *)
Record insights : Type := {
  status_options : list string;
  event_options : list string;
  shown_metrics : metrics;
  tab25 : list coerced_request;
  tab26 : list coerced_request;
  taball : list coerced_request
}.

Section Render.
Variable numeric_of_text : string -> option Q.
Variable date_of_text : string -> option date.

Definition render_org_insights (data : list raw_request)
    (status_choice event_choice : string) (today : date) : outcome insights :=
  match data with
  | [] => Stopped
  | _ =>
      let df0 := coerce numeric_of_text date_of_text data in
      let status_options := status_options_of df0 in
      let event_options := event_options_of df0 in
      let df := apply_dropdown_filters df0 status_choice event_choice in
      m <- aggregate df today ;;
      Ok {| status_options := status_options;
            event_options := event_options;
            shown_metrics := m;
            tab25 := year_rows 2025 df;
            tab26 := year_rows 2026 df;
            taball := df |}
  end.

End Render.

End App.

(** ** The frame of [render_org_insights] as pandas builds it

    [app.py], lines 154-216. Two things in these lines depend on a whole
    column and not on one cell.

    - [pd.to_datetime(col, errors="coerce")] settles how the texts of a
      column are read from the column itself (the first text that is not
      null fixes the format), and it can raise although errors are coerced
      (texts with different UTC offsets). What it settles is the argument
      [to_datetime] below: for a column, the reading of a text of that
      column, or an exception. A null cell is [NaT] under every reading.
    - [.dt.date] gives a column of [date] objects, of dtype [object]; but
      when not one cell of the column holds a date, pandas reads the column
      of [NaT] it gets as [datetime64]. Comparing such a column with a
      [date] raises [TypeError]; on an [object] column the comparison goes
      cell by cell and is [False] on [NaT]. *)

Module Frame.

Import Helpers.
Local Open Scope Z_scope.

Inductive dtype : Type :=
| ObjectDtype
| Datetime64.

(** The dtype of a column after [.dt.date]. *)
Definition date_dtype (col : list (option date)) : dtype :=
  if forallb (fun cell => negb (App.notna cell)) col then Datetime64
  else ObjectDtype.

Section Frame.

Variable numeric_of_text : string -> option Q.
Variable to_datetime : list (option string) -> outcome (string -> option date).

(** A row after the three coercions, the two date columns being read as
    [to_datetime] settled for each of them. *)
Definition coerce_row (start_of_text requested_of_text : string -> option date)
    (r : raw_request) : coerced_request :=
  {| team_name := team_name r;
     date_requested := to_date requested_of_text (date_requested r);
     event_name := event_name r;
     start_date_calendar_year :=
       to_numeric numeric_of_text (start_date_calendar_year r);
     start_date := to_date start_of_text (start_date r);
     registration_status := registration_status r |}.

(** Lines 154-156: the year column, then the column [start_date], then the
    column [date_requested]. *)
Definition coerce (df : list raw_request) : outcome (list coerced_request) :=
  start_of_text <- to_datetime (map (fun r => start_date r) df) ;;
  requested_of_text <- to_datetime (map (fun r => date_requested r) df) ;;
  Ok (map (coerce_row start_of_text requested_of_text) df).

End Frame.

(** [d[d["date_requested"].notna() & (d["date_requested"] <= cutoff)]] on a
    frame whose column [date_requested] has the dtype [requested_dtype]. A
    selection of rows keeps the dtype of the columns, so that a [datetime64]
    column raises here whatever rows are left, none included. *)
Definition requested_rows (requested_dtype : dtype) (cutoff : date)
    (d : list coerced_request) : outcome (list coerced_request) :=
  match requested_dtype with
  | Datetime64 => Raised TypeError
  | ObjectDtype => Ok (filter (App.requested_by cutoff) d)
  end.

(** Lines 171-184. *)
Definition aggregate (requested_dtype : dtype) (df : list coerced_request)
    (today : date) : outcome App.metrics :=
  let df_2025 := year_rows 2025 df in
  let df_2026 := year_rows 2026 df in
  let count_2025 := PyList.len df_2025 in
  let count_2026 := PyList.len df_2026 in
  let yoy_delta := count_2026 - count_2025 in
  cutoff_2025 <- mk_date 2025 (month today) (day today) ;;
  df_2025_ytd <- requested_rows requested_dtype cutoff_2025 df_2025 ;;
  df_2026_ytd <- requested_rows requested_dtype today df_2026 ;;
  let ytd_delta := PyList.len df_2026_ytd - PyList.len df_2025_ytd in
  Ok {| App.count_2025 := count_2025; App.count_2026 := count_2026;
        App.yoy_delta := yoy_delta; App.cutoff_2025 := cutoff_2025;
        App.ytd_2025 := PyList.len df_2025_ytd;
        App.ytd_2026 := PyList.len df_2026_ytd;
        App.ytd_delta := ytd_delta |}.

Section Render.

Variable numeric_of_text : string -> option Q.
Variable to_datetime : list (option string) -> outcome (string -> option date).

(** [render_org_insights] of [app.py] from the answer of the store on. *)
Definition render_org_insights (data : list raw_request)
    (status_choice event_choice : string) (today : date)
  : outcome App.insights :=
  match data with
  | [] => Stopped
  | _ =>
      df0 <- coerce numeric_of_text to_datetime data ;;
      let requested_dtype :=
        date_dtype (map (fun r => date_requested r) df0) in
      let status_options := status_options_of df0 in
      let event_options := event_options_of df0 in
      let df := apply_dropdown_filters df0 status_choice event_choice in
      m <- aggregate requested_dtype df today ;;
      Ok {| App.status_options := status_options;
            App.event_options := event_options;
            App.shown_metrics := m;
            App.tab25 := year_rows 2025 df;
            App.tab26 := year_rows 2026 df;
            App.taball := df |}
  end.

End Render.

(** A row with its year cell set to [cell]. *)
Definition with_year (cell : json) (r : raw_request) : raw_request :=
  {| team_name := team_name r;
     date_requested := date_requested r;
     event_name := event_name r;
     start_date_calendar_year := cell;
     start_date := start_date r;
     registration_status := registration_status r |}.

End Frame.

(** ** The specification's words, and sample data *)

Module Spec.

Import Helpers.
Local Open Scope Z_scope.

(** The number of rows that satisfy [p]. *)
Fixpoint count_where {T : Type} (p : T -> bool) (l : list T) : Z :=
  match l with
  | [] => 0
  | r :: l' => (if p r then 1 else 0) + count_where p l'
  end.

(** [d1] is not later than [d2]. *)
Definition date_le (d1 d2 : date) : Prop :=
  year d1 < year d2
  \/ (year d1 = year d2
      /\ (month d1 < month d2 \/ (month d1 = month d2 /\ day d1 <= day d2))).

(** A row passes the two facets: ["All"] asks nothing, any other value asks
    for that exact text. *)
Definition passes {Y D : Type} (status_choice event_choice : string)
    (r : request Y D) : bool :=
  (String.eqb status_choice "All"
   || cell_is status_choice (registration_status r))
  && (String.eqb event_choice "All" || cell_is event_choice (event_name r)).

(** A text made of white space only (the empty text is one). *)
Definition blank (s : string) : Prop :=
  forall c : ascii, In c (list_ascii_of_string s) -> PyStr.isspace c = true.

(** The candidate [x] may stand before [y] in the ranking for [query]: it is
    more similar to the query, or as similar and its name is not longer. *)
Definition ranked_before (query : string) (x y : IndividualSearch.org) : Prop :=
  let sx := similarity query (IndividualSearch.name_of x) in
  let sy := similarity query (IndividualSearch.name_of y) in
  (sy < sx)%Q
  \/ ((sx == sy)%Q
      /\ (String.length (IndividualSearch.name_of x)
          <= String.length (IndividualSearch.name_of y))%nat).

(** Two candidates tie for [query]: same similarity, names of one length. *)
Definition tied (query : string) (x y : IndividualSearch.org) : Prop :=
  (similarity query (IndividualSearch.name_of x)
   == similarity query (IndividualSearch.name_of y))%Q
  /\ String.length (IndividualSearch.name_of x)
     = String.length (IndividualSearch.name_of y).

(** The score of a candidate: the similarity the ranking gives it. The rows
    themselves hold the four columns of [org] and no score. *)
Definition relevance (query : string) (o : IndividualSearch.org) : Q :=
  similarity query (IndividualSearch.name_of o).

End Spec.

Module Sample.

Import Helpers IndividualSearch.
Local Open Scope string_scope.

Definition ymd (y m d : Z) : date := {| year := y; month := m; day := d |}.

(** A coerced request of the year [y], requested on [d]. *)
Definition req (y : Z) (d : option date) : coerced_request :=
  {| team_name := Some "12U"; date_requested := d;
     event_name := Some "Spring Classic";
     start_date_calendar_year := Some (inject_Z y);
     start_date := None; registration_status := Some "approved" |}.

(** A coerced request whose status is the text [status]. *)
Definition with_status (status : string) : coerced_request :=
  {| team_name := Some "12U"; date_requested := None;
     event_name := Some "Spring Classic";
     start_date_calendar_year := Some (inject_Z 2026);
     start_date := None; registration_status := Some status |}.

(** The three requests of the end-to-end scenario. *)
Definition scenario : list coerced_request :=
  [ req 2025 (Some (ymd 2025 3 1));
    req 2025 (Some (ymd 2025 8 1));
    req 2026 (Some (ymd 2026 3 1)) ].

(** A raw row with the status [status] and the year cell [y]. *)
Definition raw (status : string) (y : json) : raw_request :=
  {| team_name := Some "12U"; date_requested := Some "2025-03-01";
     event_name := Some "Spring Classic";
     start_date_calendar_year := y;
     start_date := None; registration_status := Some status |}.

Definition nan_row : raw_request := raw "nan" (JNumber (inject_Z 2025)).

(** Parsers for the sample rows: a year cell holding text never parses,
    every date text is read as 1 March 2025. *)
Definition no_number (s : string) : option Q := None.
Definition march_first (s : string) : option date := Some (ymd 2025 3 1).

Definition named (id : Z) (name : string) : org :=
  {| organization_id := id; organization_name := Some name;
     org_city := Some "Atlanta"; org_state := Some "GA" |}.

(** A store whose name search answers [rows] and whose identifier lookup
    answers the rows of [rows] with that identifier. *)
Definition store_of (rows : list org) : Store :=
  {| orgs_by_id := fun n =>
       Ok (Some (filter (fun o => Z.eqb (organization_id o) n) rows));
     orgs_by_name := fun _ _ => Ok (Some rows) |}.

(** A store that cannot be reached. *)
Definition store_down : Store :=
  {| orgs_by_id := fun _ => Raised StoreError;
     orgs_by_name := fun _ _ => Raised StoreError |}.

End Sample.

(** ** Text of an integer *)

Module PyFormat.

Local Open Scope Z_scope.

Definition digit_char (d : Z) : ascii := ascii_of_nat (48 + Z.to_nat d).

(** The decimal digits of [n >= 0] put in front of [acc], last digit first;
    [fuel] bounds the number of digits. *)
Fixpoint digits_onto (fuel : nat) (n : Z) (acc : string) : string :=
  match fuel with
  | O => acc
  | S fuel' =>
      let acc' := String (digit_char (n mod 10)) acc in
      if n <? 10 then acc' else digits_onto fuel' (n / 10) acc'
  end.

(** A number below [2^k] has at most [k] decimal digits (and 0 has one). *)
Definition digits (n : Z) : string :=
  digits_onto (S (Z.to_nat (Z.log2 n))) n EmptyString.

(** [str(n)], which is also what an f-string writes for [{n}]. *)
Definition str (n : Z) : string :=
  if n <? 0 then String "-"%char (digits (- n)) else digits n.

End PyFormat.

(** ** The helpers of the scripts that remain *)

Module Links.

Local Open Scope string_scope.

(** The double quote, which the literals below cannot hold. *)
Definition dq : string := String (ascii_of_nat 34) EmptyString.

(** [pg_org_link(org_id)] *)
Definition pg_org_link (org_id : Z) : string :=
  let url :=
    "https://www.perfectgame.org/PGBA/Team/default.aspx?orgid="
    ++ PyFormat.str org_id in
  "<a href=" ++ dq ++ url ++ dq ++ " target=" ++ dq ++ "_blank" ++ dq ++ ">"
  ++ PyFormat.str org_id ++ "</a>".

End Links.

Module Chunks.

Import PyList.
Local Open Scope Z_scope.

(** [range(i, stop, step)] for a positive step; [fuel] bounds the number of
    values. *)
Fixpoint range_from (fuel : nat) (i stop step : Z) : list Z :=
  match fuel with
  | O => []
  | S fuel' =>
      if i <? stop then i :: range_from fuel' (i + step) stop step else []
  end.

(** [chunked(lst, n)], all the chunks the generator yields. [range] raises
    [ValueError] for a zero step and is empty for a negative one. *)
Definition chunked {T : Type} (lst : list T) (n : Z) : outcome (list (list T)) :=
  if n =? 0 then Raised ValueError
  else if n <? 0 then Ok []
  else
    Ok (map (fun i => slice lst i (i + n))
          (range_from (List.length lst) 0 (len lst) n)).

End Chunks.

(** ** The password gate, the same in both scripts *)

Module Gate.

(** How a run of the script leaves the gate. *)
Inductive gate_result : Type :=
| Proceed            (** the rest of the script runs *)
| SignIn             (** the form is shown, then [st.stop()] *)
| NotSet             (** "APP_PASSWORD is not set", then [st.stop()] *)
| WrongPassword      (** "Wrong password.", then [st.stop()] *)
| Rerun.             (** [st.rerun()] after a good login *)

(** [_auth_ui()], followed by the [st.stop()] of its caller: [pw] is the text
    of the password box, [login] tells whether the button was pressed. It
    returns the new value of [st.session_state["authed"]]. *)
Definition auth_ui (APP_PASSWORD : string) (authed : bool) (pw : string)
    (login : bool) : bool * gate_result :=
  if login then
    if negb (PyStr.truthy APP_PASSWORD) then (authed, NotSet)
    else if String.eqb pw APP_PASSWORD then (true, Rerun)
    else (authed, WrongPassword)
  else (authed, SignIn).

(** Lines 37-43 ([individual_search.py]) and 34-40 ([app.py]). [authed] is
    [None] when the key is not in the session state yet. *)
Definition gate (APP_PASSWORD : string) (authed : option bool) (pw : string)
    (login : bool) : option bool * gate_result :=
  if PyStr.truthy APP_PASSWORD then
    let authed :=
      match authed with
      | None => false
      | Some v => v
      end in
    if negb authed then
      let '(authed', r) := auth_ui APP_PASSWORD authed pw login in
      (Some authed', r)
    else (Some authed, Proceed)
  else (authed, Proceed).

(** One visit of the page: what is typed and whether Login is pressed. *)
Definition visit : Type := (string * bool)%type.

(** The session value after a sequence of runs. *)
Fixpoint after_runs (APP_PASSWORD : string) (authed : option bool)
    (visits : list visit) : option bool :=
  match visits with
  | [] => authed
  | (pw, login) :: rest =>
      after_runs APP_PASSWORD (fst (gate APP_PASSWORD authed pw login)) rest
  end.

End Gate.

(** ** The queries of [app.py] *)

Module AppQueries.

Import Helpers.
Local Open Scope Z_scope.

Definition org : Type := IndividualSearch.org.

(** The store as [app.py] asks it. *)
Record Store : Type := {
  (** [table("org_rep_assignments").select("org_id").eq("rep_id", n)
      .eq("active", True).execute()]: the [org_id] cell of every row. *)
  assignments : Z -> outcome (option (list (option Z)));
  (** [table("orgs").select(...).in_("organization_id", batch).execute()] *)
  orgs_in : list Z -> outcome (option (list org))
}.

(** The set [{int(r["org_id"]) for r in rows if r.get("org_id") is not
    None}], listed in the order in which its elements first come. (Python
    lists a set in an order of its own; [sorted] makes that order
    immaterial, see [sorted_ids_any_order].) *)
Fixpoint id_set (seen : list Z) (rows : list (option Z)) : list Z :=
  match rows with
  | [] => []
  | None :: rows' => id_set seen rows'
  | Some n :: rows' =>
      if existsb (Z.eqb n) seen then id_set seen rows'
      else n :: id_set (n :: seen) rows'
  end.

(** [fetch_org_ids_for_rep(rep_id)] *)
Definition fetch_org_ids_for_rep (client : Store) (rep_id : Z)
  : outcome (list Z) :=
  data <- assignments client rep_id ;;
  let rows := IndividualSearch.data_or_empty data in
  Ok (PySort.sort Z.ltb (id_set [] rows)).

(** The sort key [(name or "", organization_id or 0)]. *)
Definition details_key (r : org) : string * Z :=
  (PyStr.or_empty (IndividualSearch.organization_name r),
   if IndividualSearch.organization_id r =? 0 then 0
   else IndividualSearch.organization_id r).

(** [<] on two such tuples. *)
Definition details_ltb (k1 k2 : string * Z) : bool :=
  if negb (String.eqb (fst k1) (fst k2)) then PyStr.ltb (fst k1) (fst k2)
  else snd k1 <? snd k2.

(** The [for batch in chunked(org_ids, 200)] loop: [out] grows by the answer
    to every batch, and the first query that raises ends the loop. *)
Fixpoint extend_batches (client : Store) (batches : list (list Z))
    (out : list org) : outcome (list org) :=
  match batches with
  | [] => Ok out
  | batch :: rest =>
      data <- orgs_in client batch ;;
      extend_batches client rest (out ++ IndividualSearch.data_or_empty data)
  end.

(** [fetch_org_details(org_ids)] *)
Definition fetch_org_details (client : Store) (org_ids : list Z)
  : outcome (list org) :=
  match org_ids with
  | [] => Ok []
  | _ =>
      batches <- Chunks.chunked org_ids 200 ;;
      out <- extend_batches client batches [] ;;
      Ok (PySort.sort
            (fun x y => details_ltb (details_key x) (details_key y)) out)
  end.

(** Lines 238-243: the identifiers of the person's organisations, then
    their details; [st.stop()] when there is none. *)
Definition assigned_orgs (client : Store) (rep_id : Z) : outcome (list org) :=
  org_ids <- fetch_org_ids_for_rep client rep_id ;;
  match org_ids with
  | [] => Stopped
  | _ => fetch_org_details client org_ids
  end.

(** [x] may stand before [y] in the list of details: its name (the empty
    text when it has none) comes first in code-point order, or the names are
    the same and its identifier is not larger. *)
Definition details_before (x y : org) : Prop :=
  let nx := PyStr.or_empty (IndividualSearch.organization_name x) in
  let ny := PyStr.or_empty (IndividualSearch.organization_name y) in
  PyStr.ltb nx ny = true
  \/ (nx = ny
      /\ IndividualSearch.organization_id x
         <= IndividualSearch.organization_id y).

(** The answers of the store to a list of batches, one after the other, as
    far as every query returns. *)
Definition answers (client : Store) (batches : list (list Z)) : list org :=
  flat_map
    (fun batch =>
       match orgs_in client batch with
       | Ok data => IndividualSearch.data_or_empty data
       | _ => []
       end) batches.

(** A store that answers from a table of organisations and a table of
    assignments [(rep_id, org_id)]. *)
Definition table_store (orgs : list org) (assigned : list (Z * option Z))
  : Store :=
  {| assignments := fun rep =>
       Ok (Some (map snd (filter (fun a => fst a =? rep) assigned)));
     orgs_in := fun batch =>
       Ok (Some (filter
                   (fun o => existsb (Z.eqb (IndividualSearch.organization_id o))
                               batch) orgs)) |}.

End AppQueries.

(** ** The search page of [individual_search.py], lines 205-261 *)

Module SearchUI.

Import IndividualSearch Pagination.
Local Open Scope Z_scope.

(** The four keys of [st.session_state] the page uses, after the defaults of
    lines 205-210; [org_pick] is [None] while the key is absent. *)
Record session : Type := {
  org_results : list org;
  org_page : Z;
  searched_query : string;
  org_pick : option string
}.

Definition init : session :=
  {| org_results := []; org_page := 0; searched_query := EmptyString;
     org_pick := None |}.

Definition placeholder : string := "-- Select an organization --".

(** The button pressed in a run, if any. *)
Inductive action : Type :=
| Idle
| Search
| Prev
| Next.

(** What a run puts on the screen. *)
Inductive screen : Type :=
| NoOrgsFound                 (** the warning, then [st.stop()] *)
| TypeAQuery                  (** the hint, then [st.stop()] *)
| Results (v : page_view org) (** the page of candidates and its caption *)
| Reran                       (** [st.rerun()] after Prev or Next *)
| Failed (e : exn).           (** the search raised *)

(** The [if do_search:] block. The query is stored before the store is
    asked, so it stays stored when the store raises. *)
Definition do_search (client : Store) (s : session) (q : string)
  : session * option exn :=
  let query := PyStr.strip q in
  let s1 := {| org_results := org_results s; org_page := org_page s;
               searched_query := query; org_pick := org_pick s |} in
  match fetch_org_candidates client (Some query) with
  | Ok rows =>
      ({| org_results := rows; org_page := 0; searched_query := query;
          org_pick :=
            match org_pick s with
            | Some _ => Some placeholder
            | None => None
            end |}, None)
  | Raised e => (s1, Some e)
  | Stopped => (s1, None)
  end.

(** One run of the page: [q] is the text of the box, [a] the button
    pressed. A disabled button cannot be pressed. *)
Definition run (client : Store) (s : session) (q : string) (a : action)
  : session * screen :=
  let '(s1, failure) :=
    match a with
    | Search => do_search client s q
    | _ => (s, None)
    end in
  match failure with
  | Some e => (s1, Failed e)
  | None =>
      let results := org_results s1 in
      match results with
      | [] =>
          if PyStr.truthy (searched_query s1) then (s1, NoOrgsFound)
          else (s1, TypeAQuery)
      | _ =>
          let v := paginate PAGE_SIZE results (org_page s1) in
          let page := Pagination.page v in
          let total_pages := Pagination.total_pages v in
          let moved (p : Z) :=
            {| org_results := results; org_page := p;
               searched_query := searched_query s1;
               org_pick := Some placeholder |} in
          match a with
          | Prev =>
              if negb (page =? 0) then (moved (Z.max 0 (page - 1)), Reran)
              else ({| org_results := results; org_page := page;
                       searched_query := searched_query s1;
                       org_pick := org_pick s1 |}, Results v)
          | Next =>
              if negb (total_pages - 1 <=? page)
              then (moved (Z.min (total_pages - 1) (page + 1)), Reran)
              else ({| org_results := results; org_page := page;
                       searched_query := searched_query s1;
                       org_pick := org_pick s1 |}, Results v)
          | _ =>
              ({| org_results := results; org_page := page;
                  searched_query := searched_query s1;
                  org_pick := org_pick s1 |}, Results v)
          end
      end
  end.

(** The caption: "Showing start+1-end of total (Page page+1 / total_pages)",
    as its five numbers. *)
Definition caption (v : page_view org) : Z * Z * Z * (Z * Z) :=
  (start v + 1, end_ v, total v, (Pagination.page v + 1, total_pages v)).

End SearchUI.

(** ** Choosing a row by its label

    [individual_search.py], lines 262-280, and [app.py], lines 221-260: a
    select box over one label per row, then
    [rows[labels.index(choice)]]. *)

Module Pick.

Import IndividualSearch.
Local Open Scope string_scope.

(** The end of a run of this part of a script: the outcomes of a call, and
    the [IndexError] of a subscript. *)
Inductive fault : Type :=
| Exn (e : exn)
| IndexError.

Inductive result (T : Type) : Type :=
| Shown (x : T)
| Halted
| Faulted (f : fault).

Arguments Shown {T} x.
Arguments Halted {T}.
Arguments Faulted {T} f.

Definition lift {T : Type} (m : outcome T) : result T :=
  match m with
  | Ok x => Shown x
  | Stopped => Halted
  | Raised e => Faulted (Exn e)
  end.

Definition and_then {A B : Type} (m : result A) (k : A -> result B)
  : result B :=
  match m with
  | Shown x => k x
  | Halted => Halted
  | Faulted f => Faulted f
  end.

(** [l.index(x)]: the first position that holds [x]; [None] stands for the
    [ValueError] of a text that is not in the list. *)
Fixpoint index (l : list string) (x : string) : option nat :=
  match l with
  | [] => None
  | y :: l' => if y =? x then Some O else option_map S (index l' x)
  end.

(** [rows[labels.index(choice)]] *)
Definition at_label {T : Type} (rows : list T) (labels : list string)
    (choice : string) : result T :=
  match index labels choice with
  | None => Faulted (Exn ValueError)
  | Some i =>
      match nth_error rows i with
      | Some row => Shown row
      | None => Faulted IndexError
      end
  end.

(** What an f-string writes for a text cell: the text, and [None] for a
    null. The rows come from a [select] of the columns, so that every key is
    there and the default of [o.get] is never used. *)
Definition shown (cell : option string) : string :=
  match cell with
  | Some s => s
  | None => "None"
  end.

Section Labels.

(** The em dash of the label, a character outside Latin-1: the text that
    stands for it. *)
Variable dash : string.

(** [f'{o["organization_id"]} - {name} ({city}, {state})'], with the em
    dash for the hyphen. *)
Definition org_label (o : org) : string :=
  PyFormat.str (organization_id o) ++ " " ++ dash ++ " "
  ++ shown (organization_name o)
  ++ " (" ++ shown (org_city o) ++ ", " ++ shown (org_state o) ++ ")".

(** The select box over [rows] and what follows it: the row and the
    [org_id] that [render_org_insights] gets. *)
Definition pick_org (placeholder : string) (rows : list org)
    (choice : string) : result (org * Z) :=
  let options := map org_label rows in
  if choice =? placeholder then Halted
  else
    and_then (at_label rows options choice) (fun selected_org =>
    let org_id := organization_id selected_org in
    Shown (selected_org, org_id)).

End Labels.

(** A row of the [reps] table. *)
Record rep : Type := {
  rep_id : Z;
  rep_name : option string
}.

(** [f'{r["rep_name"]} (ID {r["rep_id"]})'] *)
Definition rep_label (r : rep) : string :=
  shown (rep_name r) ++ " (ID " ++ PyFormat.str (rep_id r) ++ ")".

Definition no_person : string := "-- Select --".

(** [app.py], lines 226-236: the person and the [rep_id]. *)
Definition pick_rep (reps : list rep) (rep_choice : string)
  : result (rep * Z) :=
  match reps with
  | [] => Halted
  | _ =>
      let rep_labels := map rep_label reps in
      if rep_choice =? no_person then Halted
      else
        and_then (at_label reps rep_labels rep_choice) (fun rep =>
        Shown (rep, rep_id rep))
  end.

(** [app.py], lines 224-260, up to the call of [render_org_insights]:
    [reps_answer] is what the query of [fetch_reps] comes to. *)
Definition app_page (dash : string) (client : AppQueries.Store)
    (reps_answer : outcome (option (list rep)))
    (rep_choice choice : string) : result (org * Z) :=
  and_then (lift reps_answer) (fun data =>
  let reps := data_or_empty data in
  and_then (pick_rep reps rep_choice) (fun '(_, rep_id) =>
  and_then (lift (AppQueries.assigned_orgs client rep_id))
    (fun org_details =>
  pick_org dash no_person org_details choice))).

End Pick.

(** ** The contact block of [render_org_insights]

    [individual_search.py], lines 136-142, and [app.py], lines 145-153. The
    block reads one column of the answer, [orgcontactname], given here as
    the list of its cells in the order of the rows. *)

Module Contact.

Local Open Scope string_scope.

Inductive display : Type :=
| NoContactInfo                    (** the caption "No contact info found" *)
| Written (cell : option string)   (** [st.write] of the cell *)
| Nothing.                         (** neither *)

(** [col.notna()], one cell. *)
Definition notna (cell : option string) : bool :=
  match cell with
  | Some _ => true
  | None => false
  end.

(** [df[df["orgcontactname"].notna()].head(1)] *)
Definition contact_row (col : list (option string)) : list (option string) :=
  firstn 1 (filter notna col).

(** The truth value of a cell: a null and the empty text are false. *)
Definition truthy_cell (cell : option string) : bool :=
  match cell with
  | Some s => PyStr.truthy s
  | None => false
  end.

(** The block of [individual_search.py]. *)
Definition search_contact (col : list (option string)) : display :=
  match contact_row col with
  | [] => NoContactInfo
  | c :: _ => Written c
  end.

(** The block of [app.py], which writes the name only if it is true. *)
Definition app_contact (col : list (option string)) : display :=
  match contact_row col with
  | [] => NoContactInfo
  | c :: _ => if truthy_cell c then Written c else Nothing
  end.

End Contact.

(** ** Sample frames *)

Module FrameSample.

Import Helpers Sample.
Local Open Scope string_scope.

(** A reading of date columns that never raises and reads every text, in
    every column, as 1 March 2025. *)
Definition as_march_first (col : list (option string))
  : outcome (string -> option date) :=
  Ok march_first.

(** A raw row of the year 2025 whose two date cells are null. *)
Definition undated : raw_request :=
  {| team_name := Some "12U"; date_requested := None;
     event_name := Some "Spring Classic";
     start_date_calendar_year := JNumber (inject_Z 2025);
     start_date := None; registration_status := Some "approved" |}.

End FrameSample.

(** ** A whole run of the search page

    [individual_search.py], lines 205-281: the run of [SearchUI.run] up to
    the caption, then the radio of lines 263-273 and the choice of the
    organisation. *)

Module SearchRun.

Import IndividualSearch Pagination SearchUI Pick.
Local Open Scope string_scope.

Section Run.

Variable dash : string.

(** [st.radio(label, options, index=0, key="org_pick")]: what the widget
    returns for its options and for the value the session holds under the
    key, if it holds one. The widget is Streamlit's and not the script's;
    what the script relies on is [radio_follows_the_session] below. *)
Variable st_radio : list string -> option string -> outcome string.

(** One run: the session it leaves, the screen of lines 205-261 and, when
    the radio is reached, what the choice comes to. The radio puts the
    value it returns under its key. *)
Definition run_page (client : Store) (s : session) (q : string) (a : action)
  : session * screen * option (result (org * Z)) :=
  let '(s1, shown) := run client s q a in
  match shown with
  | Results v =>
      let page_rows := Pagination.page_rows v in
      let options := map (org_label dash) page_rows in
      match st_radio (placeholder :: options) (org_pick s1) with
      | Ok choice =>
          ({| org_results := org_results s1; org_page := org_page s1;
              searched_query := searched_query s1;
              org_pick := Some choice |},
           shown, Some (pick_org dash placeholder page_rows choice))
      | Stopped => (s1, shown, Some Halted)
      | Raised e => (s1, shown, Some (Faulted (Exn e)))
      end
  | _ => (s1, shown, None)
  end.

End Run.

(** A radio with a key shows the value the session holds under the key when
    that value is one of its options, and its first option ([index=0]) when
    the session holds none. *)
Definition radio_follows_the_session
    (st_radio : list string -> option string -> outcome string) : Prop :=
  (forall (first : string) (others : list string),
      st_radio (first :: others) None = Ok first)
  /\ (forall (options : list string) (v : string),
         In v options -> st_radio options (Some v) = Ok v).

(** A radio that does so, and that refuses a value that is not an option. *)
Definition strict_radio (options : list string) (stored : option string)
  : outcome string :=
  match stored with
  | None =>
      match options with
      | first :: _ => Ok first
      | [] => Raised ValueError
      end
  | Some v => if existsb (String.eqb v) options then Ok v else Raised ValueError
  end.

End SearchRun.

(** * Examples

    Values that Python gives for the same inputs. *)

Section Examples.

Import Helpers IndividualSearch Sample.
Local Open Scope string_scope.

Example ratio_tide_diet :
  Difflib.ratio (list_ascii_of_string "tide") (list_ascii_of_string "diet")
  = Some (2 # 8)%Q.
Proof. vm_compute. reflexivity. Qed.

Example ratio_abcd_bcde :
  Difflib.ratio (list_ascii_of_string "abcd") (list_ascii_of_string "bcde")
  = Some (6 # 8)%Q.
Proof. vm_compute. reflexivity. Qed.

Example blocks_abxcd_abcd :
  Difflib.get_matching_blocks
    (list_ascii_of_string "abxcd") (list_ascii_of_string "abcd")
  = Some [ {| Difflib.m_a := 0; Difflib.m_b := 0; Difflib.m_size := 2 |};
           {| Difflib.m_a := 3; Difflib.m_b := 2; Difflib.m_size := 2 |};
           {| Difflib.m_a := 5; Difflib.m_b := 4; Difflib.m_size := 0 |} ].
Proof. vm_compute. reflexivity. Qed.

(** With 201 elements in [b] the letters [a] and [b] are popular and leave
    [b2j]; the match is found by the loops that extend the empty match. *)
Example ratio_with_popular_elements :
  Difflib.ratio
    (list_ascii_of_string "ab")
    (List.concat (repeat (list_ascii_of_string "ab") 100)
       ++ list_ascii_of_string "c")%list
  = Some (4 # 203)%Q.
Proof. vm_compute. reflexivity. Qed.

Example similarity_ignores_case :
  similarity "Canes" "CANES Baseball" = (10 # 19)%Q.
Proof. vm_compute. reflexivity. Qed.

Example int_literals :
  PyStr.int " +1_000 " = Some 1000%Z
  /\ PyStr.int "-007" = Some (-7)%Z
  /\ PyStr.int "1__0" = None
  /\ PyStr.int "_1" = None
  /\ PyStr.int "12a" = None
  /\ PyStr.int "+" = None
  /\ PyStr.int "" = None.
Proof. repeat split. Qed.

Example strip_keeps_inner_space : PyStr.strip "  Canes  Baseball " = "Canes  Baseball".
Proof. reflexivity. Qed.

Example slice_with_negative_bounds :
  PyList.slice [0; 1; 2; 3; 4]%Z (-3) 9 = [2; 3; 4]%Z
  /\ PyList.slice [0; 1; 2; 3; 4]%Z 3 1 = []
  /\ PyList.slice [0; 1; 2; 3; 4]%Z (-9) (-1) = [0; 1; 2; 3]%Z.
Proof. repeat split. Qed.

Example with_all_sorts_by_code_point :
  with_all [Some "pending"; None; Some ""; Some "Approved"; Some "approved"]
  = ["All"; "Approved"; "approved"; "pending"].
Proof. reflexivity. Qed.

Example leap_days :
  valid_date 2028 2 29 = true /\ valid_date 2025 2 29 = false
  /\ valid_date 2100 2 29 = false /\ valid_date 2000 2 29 = true.
Proof. repeat split. Qed.

Example id_query_on_a_store :
  fetch_org_candidates
    (store_of [named 7 "Canes"; named 78598 "Canes Baseball"]) (Some "78598")
  = Ok [named 78598 "Canes Baseball"].
Proof. reflexivity. Qed.

Example store_down_raises :
  fetch_org_candidates store_down (Some "Canes") = Raised StoreError
  /\ fetch_org_candidates store_down (Some "78598") = Raised StoreError.
Proof. split; reflexivity. Qed.

End Examples.

(** * Properties *)

(** ** Pagination *)

Section PaginationFacts.

Import PyList Pagination.
Local Open Scope Z_scope.

Lemma ceil_quot_formula (n d : Z) :
  0 < d -> ceil_quot n d = (n + d - 1) / d.
Proof.
  intros Hd. unfold ceil_quot, Qceiling, Qfloor.
  destruct d as [|p|p]; try lia.
  cbn [inject_Z Qdiv Qinv Qmult Qopp Qnum Qden].
  replace (Z.pos (1 * p)) with (Z.pos p) by lia.
  replace (- (n * 1)) with (- n) by lia.
  pose proof (Z.div_mod (- n) (Z.pos p) ltac:(lia)) as E1.
  pose proof (Z.mod_pos_bound (- n) (Z.pos p) ltac:(lia)) as B1.
  apply Z.div_unique with (r := Z.pos p - 1 - (- n) mod Z.pos p).
  - left. lia.
  - nia.
Qed.

Lemma slice_in_range (T : Type) (l : list T) (lo hi : Z) :
  0 <= lo <= hi -> hi <= len l ->
  slice l lo hi = firstn (Z.to_nat (hi - lo)) (skipn (Z.to_nat lo) l).
Proof.
  intros H1 H2. unfold slice, adjust.
  destruct (Z.ltb_spec lo 0); destruct (Z.ltb_spec hi 0); try lia.
  rewrite !Z.min_l by lia. reflexivity.
Qed.

Lemma nth_error_firstn_skipn (T : Type) (l : list T) (s k i : nat) :
  (i < k)%nat ->
  nth_error (firstn k (skipn s l)) i = nth_error l (s + i).
Proof.
  intros Hi. rewrite nth_error_firstn.
  destruct (Nat.ltb_spec i k); try lia.
  apply nth_error_skipn.
Qed.

End PaginationFacts.

Section PaginationClaim.

Import PyList Pagination.
Local Open Scope Z_scope.

Lemma paginate_bounds (T : Type) (items : list T) (page_size requested : Z) :
  0 < page_size ->
  let v := paginate page_size items requested in
  0 <= start v <= end_ v /\ end_ v <= len items
  /\ 0 <= page v <= total_pages v - 1.
Proof.
  intros Hps. cbn [paginate start end_ page total_pages].
  set (n := len items).
  assert (Hn : 0 <= n) by (unfold n, len; lia).
  set (q := (n + page_size - 1) / page_size).
  pose proof (Z.div_mod (n + page_size - 1) page_size ltac:(lia)) as E.
  pose proof (Z.mod_pos_bound (n + page_size - 1) page_size Hps) as B.
  fold q in E.
  assert (Hq0 : 0 <= q) by (apply Z.div_pos; lia).
  assert (Hq1 : page_size * (q - 1) <= n - 1) by nia.
  assert (Hq2 : n = 0 -> q = 0).
  { intros ->. unfold q. apply Z.div_small. lia. }
  set (tp := Z.max 1 q).
  set (p := Z.max 0 (Z.min requested (tp - 1))).
  assert (Hp : 0 <= p <= tp - 1) by (unfold p, tp; lia).
  assert (Hs : p * page_size <= n).
  { destruct (Z.eq_dec n 0) as [Hz|Hz].
    - assert (tp = 1) by (unfold tp; rewrite (Hq2 Hz); lia).
      assert (p = 0) by lia. nia.
    - assert (1 <= q).
      { destruct (Z.eq_dec q 0) as [Hq|Hq]; [|lia]. rewrite Hq in E. lia. }
      assert (tp = q) by (unfold tp; lia). nia. }
  repeat split; try lia; nia.
Qed.

(** C6. For every list of items, every positive page size and every
    requested page index (negative and past-the-end ones included), the
    pagination block computes [total_pages = max(1, ceil(len / page_size))],
    clamps the index into [0, total_pages - 1], and returns the slice from
    [page * page_size] to [min(len, (page + 1) * page_size)]: that many
    items, the ones of the list from position [page * page_size] on. With 23
    items, a page size of 10 and page 5 requested it yields page 2 of 3 and
    the last three items. *)
Theorem paginate_clamps_and_slices :
  forall (T : Type) (items : list T) (page_size requested : Z),
    0 < page_size ->
    let v := paginate page_size items requested in
    let n := len items in
    let hi := Z.min n ((page v + 1) * page_size) in
    total_pages v = Z.max 1 (ceil_quot n page_size)
    /\ 0 <= page v <= total_pages v - 1
    /\ page v = (if requested <? 0 then 0
                 else if total_pages v - 1 <? requested then total_pages v - 1
                 else requested)
    /\ page_rows v = slice items (page v * page_size) hi
    /\ len (page_rows v) = hi - page v * page_size
    /\ (forall i : nat,
          Z.of_nat i < hi - page v * page_size ->
          nth_error (page_rows v) i
          = nth_error items (Z.to_nat (page v * page_size) + i))
    /\ search_page (map Z.of_nat (seq 1 23)) 5
       = {| total := 23; total_pages := 3; page := 2; start := 20;
            end_ := 23; page_rows := [21; 22; 23] |}.
Proof.
  intros T items page_size requested Hps v n hi.
  pose proof (paginate_bounds items requested Hps) as (Hse & Hen & Hp).
  fold v in Hse, Hen, Hp.
  assert (Ehi : hi = end_ v).
  { unfold hi, v. cbn [paginate page end_]. fold n. lia. }
  assert (Est : start v = page v * page_size) by reflexivity.
  assert (Erows : page_rows v = slice items (start v) (end_ v)) by reflexivity.
  assert (Esl : slice items (start v) (end_ v)
                = firstn (Z.to_nat (end_ v - start v))
                    (skipn (Z.to_nat (start v)) items))
    by (apply slice_in_range; lia).
  split; [|split; [|split; [|split; [|split; [|split]]]]].
  - unfold v. cbn [paginate total_pages]. rewrite ceil_quot_formula by lia.
    reflexivity.
  - exact Hp.
  - unfold v in *. cbn [paginate page total_pages] in *.
    destruct (Z.ltb_spec requested 0);
      [|destruct (Z.ltb_spec
                    (Z.max 1 ((len items + page_size - 1) / page_size) - 1)
                    requested)]; lia.
  - rewrite Ehi, <- Est. exact Erows.
  - rewrite Ehi, <- Est, Erows, Esl. unfold len.
    rewrite length_firstn, length_skipn. unfold len in Hen. lia.
  - intros i Hi. rewrite Ehi, <- Est in Hi.
    rewrite Erows, Esl, <- Est. apply nth_error_firstn_skipn. lia.
  - reflexivity.
Qed.

Lemma paginate_clamps_and_slices_witness :
  0 < 10
  /\ let v := paginate 10 (map Z.of_nat (seq 1 23)) 5 in
     total_pages v = Z.max 1 (ceil_quot 23 10)
     /\ 0 <= page v <= total_pages v - 1.
Proof.
  split; [reflexivity|].
  pose proof (@paginate_clamps_and_slices Z (map Z.of_nat (seq 1 23)) 10 5
                eq_refl) as H.
  cbv zeta in H. destruct H as (H1 & H2 & _).
  split; [exact H1 | exact H2].
Defined.

End PaginationClaim.

(** ** The stable insertion sort *)

Section SortFacts.

Import PySort.

Variable A : Type.
Variable ltb : A -> A -> bool.

Local Abbreviation not_after := (PySort.not_after ltb).
Local Abbreviation tie := (PySort.tie ltb).

Lemma insert_perm (x : A) (l : list A) : Permutation (x :: l) (insert ltb x l).
Proof.
  induction l as [|y l IH]; cbn [insert].
  - apply Permutation_refl.
  - destruct (ltb y x).
    + eapply Permutation_trans; [apply perm_swap|].
      apply perm_skip. exact IH.
    + apply Permutation_refl.
Qed.

Lemma sort_perm (l : list A) : Permutation l (sort ltb l).
Proof.
  induction l as [|x l IH]; cbn [sort].
  - apply perm_nil.
  - eapply Permutation_trans; [|apply insert_perm].
    apply perm_skip. exact IH.
Qed.

Lemma sort_in (l : list A) (x : A) : In x (sort ltb l) <-> In x l.
Proof.
  split; intros H.
  - eapply Permutation_in; [apply Permutation_sym, sort_perm|exact H].
  - eapply Permutation_in; [apply sort_perm|exact H].
Qed.

Lemma sort_length (l : list A) : List.length (sort ltb l) = List.length l.
Proof. symmetry. apply Permutation_length, sort_perm. Qed.

Hypothesis ltb_asym : forall x y, ltb x y = true -> ltb y x = false.
Hypothesis not_after_trans :
  forall x y z, not_after x y -> not_after y z -> not_after x z.

Lemma insert_sorted (x : A) (l : list A) :
  StronglySorted not_after l -> StronglySorted not_after (insert ltb x l).
Proof.
  induction 1 as [|y l Hs IH Hy]; cbn [insert].
  - constructor; [constructor|constructor].
  - destruct (ltb y x) eqn:E.
    + constructor; [exact IH|].
      rewrite Forall_forall in *. intros z Hz.
      apply (Permutation_in _ (Permutation_sym (insert_perm x l))) in Hz.
      destruct Hz as [<-|Hz]; [apply ltb_asym, E|apply Hy, Hz].
    + constructor; [constructor; assumption|].
      constructor; [exact E|].
      rewrite Forall_forall in *. intros z Hz.
      apply not_after_trans with y; [exact E|apply Hy, Hz].
Qed.

Lemma sort_sorted (l : list A) : StronglySorted not_after (sort ltb l).
Proof.
  induction l as [|x l IH]; cbn [sort].
  - constructor.
  - apply insert_sorted, IH.
Qed.

(** On a list that is already in order the sort changes nothing. *)
Lemma sort_of_sorted (l : list A) :
  StronglySorted not_after l -> sort ltb l = l.
Proof.
  induction 1 as [|x l Hs IH Hx]; cbn [sort]; [reflexivity|].
  rewrite IH. destruct l as [|y l]; [reflexivity|].
  cbn [insert]. inversion Hx as [|? ? Hxy _]; subst.
  unfold not_after in Hxy. rewrite Hxy. reflexivity.
Qed.

(** Stability: the elements that tie with [z] keep their order. *)
Lemma insert_stable (z x : A) (l : list A) :
  StronglySorted not_after l ->
  filter (tie z) (insert ltb x l) = filter (tie z) (x :: l).
Proof.
  induction 1 as [|y l Hs IH Hy]; cbn [insert]; [reflexivity|].
  destruct (ltb y x) eqn:E; [|reflexivity].
  cbn [filter] in *. rewrite IH.
  destruct (tie z x) eqn:Ex; [|reflexivity].
  destruct (tie z y) eqn:Ey; [|reflexivity].
  exfalso. unfold PySort.tie in Ex, Ey.
  apply andb_true_iff in Ex as [Ex1 Ex2].
  apply andb_true_iff in Ey as [Ey1 Ey2].
  apply negb_true_iff in Ex1, Ex2, Ey1, Ey2.
  assert (H : not_after x y).
  { apply not_after_trans with z; [exact Ex1|exact Ey2]. }
  unfold PySort.not_after in H. congruence.
Qed.

Lemma sort_stable (z : A) (l : list A) :
  filter (tie z) (sort ltb l) = filter (tie z) l.
Proof.
  induction l as [|x l IH]; cbn [sort]; [reflexivity|].
  rewrite insert_stable by apply sort_sorted.
  cbn [filter]. rewrite IH. reflexivity.
Qed.

(** Two sorted arrangements of the same elements are equal when elements
    that tie are equal. *)
Lemma sorted_perm_unique (l1 l2 : list A) :
  (forall x y, In x l1 -> In y l1 -> tie x y = true -> x = y) ->
  StronglySorted not_after l1 -> StronglySorted not_after l2 ->
  Permutation l1 l2 -> l1 = l2.
Proof.
  revert l2. induction l1 as [|x l1 IH]; intros l2 Htie H1 H2 P.
  - apply Permutation_nil in P. now subst.
  - destruct l2 as [|y l2]; [apply Permutation_sym, Permutation_nil in P; discriminate|].
    inversion H1 as [|? ? H1' F1]; subst.
    inversion H2 as [|? ? H2' F2]; subst.
    rewrite Forall_forall in F1, F2.
    assert (Exy : x = y).
    { assert (Hy : In y (x :: l1))
        by (eapply Permutation_in; [apply Permutation_sym, P|left; reflexivity]).
      assert (Hx : In x (y :: l2))
        by (eapply Permutation_in; [apply P|left; reflexivity]).
      destruct Hy as [Hy|Hy]; [exact Hy|].
      destruct Hx as [Hx|Hx]; [now symmetry|].
      apply Htie; [left; reflexivity|right; exact Hy|].
      unfold PySort.tie. specialize (F1 _ Hy). specialize (F2 _ Hx).
      unfold PySort.not_after in F1, F2. rewrite F1, F2. reflexivity. }
    subst y. f_equal. apply IH; try assumption.
    + intros a c Ha Hc. apply Htie; right; assumption.
    + eapply Permutation_cons_inv, P.
Qed.

Lemma tie_refl (x : A) : tie x x = true.
Proof.
  unfold PySort.tie. destruct (ltb x x) eqn:E; [|reflexivity].
  pose proof (ltb_asym E). congruence.
Qed.

(** A sorted list is determined by its groups of tying elements. *)
Lemma sorted_ties_unique (l1 l2 : list A) :
  StronglySorted not_after l1 -> StronglySorted not_after l2 ->
  (forall z, filter (tie z) l1 = filter (tie z) l2) ->
  l1 = l2.
Proof.
  intros H1. revert l2. induction H1 as [|x l1 H1 IH F1]; intros l2 H2 Hf.
  - destruct l2 as [|y l2]; [reflexivity|].
    specialize (Hf y). cbn [filter] in Hf. rewrite tie_refl in Hf. discriminate.
  - destruct H2 as [|y l2 H2 F2].
    + specialize (Hf x). cbn [filter] in Hf. rewrite tie_refl in Hf. discriminate.
    + rewrite Forall_forall in F1, F2.
      assert (Hy : In y (x :: l1)).
      { pose proof (Hf y) as E. cbn [filter] in E. rewrite tie_refl in E.
        assert (Hin : In y (if tie y x then x :: filter (tie y) l1
                            else filter (tie y) l1))
          by (rewrite E; left; reflexivity).
        destruct (tie y x); [destruct Hin as [Hin|Hin]|].
        - left. exact Hin.
        - right. apply filter_In in Hin. tauto.
        - right. apply filter_In in Hin. tauto. }
      assert (Hx : In x (y :: l2)).
      { pose proof (Hf x) as E. cbn [filter] in E. rewrite tie_refl in E.
        assert (Hin : In x (if tie x y then y :: filter (tie x) l2
                            else filter (tie x) l2))
          by (rewrite <- E; left; reflexivity).
        destruct (tie x y); [destruct Hin as [Hin|Hin]|].
        - left. exact Hin.
        - right. apply filter_In in Hin. tauto.
        - right. apply filter_In in Hin. tauto. }
      assert (Exy : x = y).
      { destruct Hy as [Hy|Hy]; [exact Hy|].
        destruct Hx as [Hx|Hx]; [now symmetry|].
        assert (T : tie x y = true).
        { unfold PySort.tie. specialize (F1 _ Hy). specialize (F2 _ Hx).
          unfold PySort.not_after in F1, F2. rewrite F1, F2. reflexivity. }
        pose proof (Hf x) as E. cbn [filter] in E.
        rewrite tie_refl, T in E. congruence. }
      subst y. f_equal. apply IH; [exact H2|].
      intros z. specialize (Hf z). cbn [filter] in Hf.
      destruct (tie z x); [congruence|exact Hf].
Qed.

(** Any sorted arrangement of [l] that keeps the tying elements in their
    order is the one [sort] builds: a stable sort has one possible result. *)
Lemma stable_sort_unique (l l' : list A) :
  StronglySorted not_after l' ->
  (forall z, filter (tie z) l' = filter (tie z) l) ->
  l' = sort ltb l.
Proof.
  intros Hs Hf. apply sorted_ties_unique; [exact Hs|apply sort_sorted|].
  intros z. rewrite Hf, sort_stable. reflexivity.
Qed.

End SortFacts.

(** ** Strings in code-point order *)

Section StringOrder.

Import PyStr.

Lemma code_inj (a b : ascii) : code a = code b -> a = b.
Proof.
  unfold code. intros H.
  rewrite <- (ascii_nat_embedding a), <- (ascii_nat_embedding b), H.
  reflexivity.
Qed.

Lemma ltb_irrefl (s : string) : ltb s s = false.
Proof.
  induction s as [|c s IH]; cbn [ltb]; [reflexivity|].
  rewrite Nat.ltb_irrefl. exact IH.
Qed.

Lemma ltb_asym (s t : string) : ltb s t = true -> ltb t s = false.
Proof.
  revert t. induction s as [|a s IH]; intros [|b t]; cbn [ltb];
    try congruence.
  destruct (Nat.ltb_spec (code a) (code b));
    destruct (Nat.ltb_spec (code b) (code a)); try lia; try congruence.
  apply IH.
Qed.

Lemma ltb_not_after_trans (x y z : string) :
  ltb y x = false -> ltb z y = false -> ltb z x = false.
Proof.
  revert y z. induction x as [|a x IH]; intros [|b y] [|c z]; cbn [ltb];
    try congruence.
  destruct (Nat.ltb_spec (code b) (code a));
    destruct (Nat.ltb_spec (code a) (code b));
    destruct (Nat.ltb_spec (code c) (code b));
    destruct (Nat.ltb_spec (code b) (code c));
    destruct (Nat.ltb_spec (code c) (code a));
    destruct (Nat.ltb_spec (code a) (code c));
    try lia; try congruence.
  apply IH.
Qed.

Lemma ltb_total (s t : string) : ltb s t = false -> ltb t s = false -> s = t.
Proof.
  revert t. induction s as [|a s IH]; intros [|b t]; cbn [ltb];
    try congruence.
  destruct (Nat.ltb_spec (code a) (code b));
    destruct (Nat.ltb_spec (code b) (code a)); try lia; try congruence.
  intros H1 H2. f_equal; [apply code_inj; lia|apply IH; assumption].
Qed.

(** Sorting values that are all different gives a strictly ascending
    list. *)
Lemma sort_strings_strict (l : list string) :
  NoDup l ->
  StronglySorted (fun s t => ltb s t = true) (PySort.sort ltb l).
Proof.
  intros Hnd.
  assert (Hnd' : NoDup (PySort.sort ltb l)).
  { eapply Permutation_NoDup; [apply sort_perm|exact Hnd]. }
  pose proof (sort_sorted ltb_asym ltb_not_after_trans l) as Hs.
  induction Hs as [|x r Hs IH Hx]; [constructor|].
  inversion Hnd' as [|? ? Hnin Hnd'']; subst.
  constructor; [apply IH, Hnd''|].
  rewrite Forall_forall in *. intros z Hz.
  destruct (ltb x z) eqn:E; [reflexivity|exfalso].
  apply Hnin. rewrite (ltb_total _ _ E (Hx z Hz)). exact Hz.
Qed.

End StringOrder.

(** ** Option lists and the drop-down filter *)

Section FacetFacts.

Import Helpers.
Local Open Scope string_scope.

Lemma cell_eqb_eq (x y : option string) : cell_eqb x y = true <-> x = y.
Proof.
  destruct x as [s|], y as [t|]; cbn [cell_eqb]; try (split; congruence).
  rewrite String.eqb_eq. split; congruence.
Qed.

Lemma existsb_cell_eqb (x : option string) (seen : list (option string)) :
  existsb (cell_eqb x) seen = true <-> In x seen.
Proof.
  rewrite existsb_exists. split.
  - intros (y & Hy & E). apply cell_eqb_eq in E. now subst.
  - intros H. exists x. split; [exact H|now apply cell_eqb_eq].
Qed.

Lemma unique_from_in (seen col : list (option string)) (x : option string) :
  In x (unique_from seen col) <-> (In x col /\ ~ In x seen).
Proof.
  revert seen. induction col as [|y col IH]; intros seen; cbn [unique_from].
  - cbn. tauto.
  - destruct (existsb (cell_eqb y) seen) eqn:E.
    + apply existsb_cell_eqb in E. rewrite IH. cbn [In].
      split; [tauto|]. intros [[->|H] Hn]; tauto.
    + assert (Hy : ~ In y seen).
      { intros H. apply existsb_cell_eqb in H. congruence. }
      cbn [In]. rewrite IH. cbn [In].
      destruct (cell_eqb y x) eqn:Eyx.
      * apply cell_eqb_eq in Eyx. subst. tauto.
      * assert (y <> x) by (intros ->; rewrite (proj2 (cell_eqb_eq x x) eq_refl) in Eyx; discriminate).
        tauto.
Qed.

Lemma unique_from_nodup (seen col : list (option string)) :
  NoDup (unique_from seen col).
Proof.
  revert seen. induction col as [|y col IH]; intros seen; cbn [unique_from].
  - constructor.
  - destruct (existsb (cell_eqb y) seen); [apply IH|].
    constructor; [|apply IH].
    rewrite unique_from_in. cbn [In]. tauto.
Qed.

Lemma dropna_in (col : list (option string)) (x : option string) :
  In x (dropna col) <-> (In x col /\ x <> None).
Proof.
  unfold dropna. rewrite filter_In.
  destruct x; split; intros [H1 H2]; split; congruence.
Qed.

Lemma kept_option_spec (s : string) :
  kept_option (Some s) = true <-> (s <> "" /\ s <> "nan").
Proof.
  cbn [kept_option]. rewrite andb_true_iff, !negb_true_iff, !String.eqb_neq.
  tauto.
Qed.

Lemma values_in (l : list (option string)) (s : string) :
  In s (values l) <-> In (Some s) l.
Proof.
  induction l as [|[t|] l IH]; cbn [values In].
  - tauto.
  - rewrite IH. split; intros [H|H]; try tauto; left; congruence.
  - rewrite IH. split; [tauto|]. intros [H|H]; [discriminate|exact H].
Qed.

Lemma values_nodup (l : list (option string)) : NoDup l -> NoDup (values l).
Proof.
  induction 1 as [|[t|] l Hn Hd IH]; cbn [values].
  - constructor.
  - constructor; [|exact IH]. rewrite values_in. exact Hn.
  - exact IH.
Qed.

(** What [with_all] returns on a column without repetition. *)
Lemma with_all_facet_list (col options : list (option string)) :
  NoDup options ->
  (forall x, In x options <-> (In x col /\ x <> None)) ->
  facet_list (fun s => s <> "" /\ s <> "nan") col (with_all options).
Proof.
  intros Hnd Hin. unfold facet_list, with_all.
  eexists. split; [reflexivity|]. split.
  - apply sort_strings_strict, values_nodup, NoDup_filter, Hnd.
  - intros s. rewrite sort_in, values_in, filter_In, Hin, kept_option_spec.
    split; [tauto|]. intros [H1 H2]. repeat split; try tauto. discriminate.
Qed.

Lemma options_of_column (col : list (option string)) :
  facet_list (fun s => s <> "" /\ s <> "nan") col (with_all (unique (dropna col))).
Proof.
  apply with_all_facet_list.
  - apply unique_from_nodup.
  - intros x. unfold unique. rewrite unique_from_in, dropna_in. cbn [In]. tauto.
Qed.

Lemma coerce_status (nt : string -> option Q) (dt : string -> option date)
    (data : list raw_request) :
  map (fun r => registration_status r) (coerce nt dt data)
  = map (fun r => registration_status r) data.
Proof. unfold coerce. rewrite map_map. reflexivity. Qed.

Lemma coerce_event (nt : string -> option Q) (dt : string -> option date)
    (data : list raw_request) :
  map (fun r => event_name r) (coerce nt dt data)
  = map (fun r => event_name r) data.
Proof. unfold coerce. rewrite map_map. reflexivity. Qed.

Lemma filter_all_status (Y D : Type) (d : list (request Y D)) (event_choice : string) :
  apply_dropdown_filters d "All" event_choice
  = if String.eqb event_choice "All" then d
    else filter (fun r => cell_is event_choice (event_name r)) d.
Proof.
  unfold apply_dropdown_filters. cbn.
  destruct (String.eqb event_choice "All"); reflexivity.
Qed.

Lemma filter_all_event (Y D : Type) (d : list (request Y D)) (status_choice : string) :
  apply_dropdown_filters d status_choice "All"
  = if String.eqb status_choice "All" then d
    else filter (fun r => cell_is status_choice (registration_status r)) d.
Proof.
  unfold apply_dropdown_filters. cbn.
  destruct (String.eqb status_choice "All"); reflexivity.
Qed.

Lemma cell_is_spec (choice : string) (cell : option string) :
  cell_is choice cell = true <-> cell = Some choice.
Proof.
  destruct cell as [s|]; cbn [cell_is].
  - rewrite String.eqb_eq. split; congruence.
  - split; congruence.
Qed.

Lemma count_all_values (options : list (option string)) :
  count_occ string_dec (values (filter kept_option options)) "All"
  = count_occ cell_eq_dec options (Some "All").
Proof.
  induction options as [|[s|] r IH]; cbn [filter values count_occ kept_option].
  - reflexivity.
  - destruct (cell_eq_dec (Some s) (Some "All")) as [E|E].
    + injection E as ->. cbn. rewrite IH. reflexivity.
    + destruct (negb (s =? "") && negb (s =? "nan")); cbn [values count_occ].
      * destruct (string_dec s "All"); [congruence|exact IH].
      * exact IH.
  - destruct (cell_eq_dec None (Some "All")); [discriminate|exact IH].
Qed.

End FacetFacts.

Section FacetClaims.

Import Helpers Sample.
Local Open Scope string_scope.

(** C7, as the code has it. For every non-empty batch of requests and
    whatever the two selected values are, each option list that
    [render_org_insights] builds comes from the unfiltered batch: it is
    ["All"] followed, in strictly ascending order, by the distinct values of
    the column that are not null, not empty and not the text ["nan"]. *)
Theorem facet_options_of_unfiltered_rows :
  forall (numeric_of_text : string -> option Q)
         (date_of_text : string -> option date)
         (data : list raw_request) (status_choice event_choice : string),
    data <> [] ->
    exists out : IndividualSearch.insights,
      IndividualSearch.render_org_insights numeric_of_text date_of_text data
        status_choice event_choice = Ok out
      /\ facet_list (fun s => s <> "" /\ s <> "nan")
           (map (fun r => registration_status r) data)
           (IndividualSearch.status_options out)
      /\ facet_list (fun s => s <> "" /\ s <> "nan")
           (map (fun r => event_name r) data)
           (IndividualSearch.event_options out).
Proof.
  intros nt dt data sc ec Hne.
  destruct data as [|r data]; [congruence|].
  eexists. split; [reflexivity|].
  cbn [IndividualSearch.status_options IndividualSearch.event_options].
  unfold status_options_of, event_options_of.
  rewrite coerce_status, coerce_event.
  split; apply options_of_column.
Qed.

Lemma facet_options_of_unfiltered_rows_witness :
  [nan_row] <> []
  /\ exists out : IndividualSearch.insights,
       IndividualSearch.render_org_insights (fun _ => None) (fun _ => None)
         [nan_row] "All" "All" = Ok out
       /\ facet_list (fun s => s <> "" /\ s <> "nan")
            (map (fun r => registration_status r) [nan_row])
            (IndividualSearch.status_options out)
       /\ facet_list (fun s => s <> "" /\ s <> "nan")
            (map (fun r => event_name r) [nan_row])
            (IndividualSearch.event_options out).
Proof.
  split; [discriminate|].
  apply (@facet_options_of_unfiltered_rows (fun _ => None) (fun _ => None)
           [nan_row] "All" "All").
  discriminate.
Defined.

(** C7 as it is written fails: a request whose status is the text ["nan"]
    has a non-null, non-empty value that the option list leaves out. *)
Lemma facet_options_leave_out_nan :
  exists out : IndividualSearch.insights,
    IndividualSearch.render_org_insights (fun _ => None) (fun _ => None)
      [nan_row] "All" "All" = Ok out
    /\ IndividualSearch.status_options out = ["All"]
    /\ ~ facet_list (fun s => s <> "")
           (map (fun r => registration_status r) [nan_row])
           (IndividualSearch.status_options out).
Proof.
  eexists. split; [reflexivity|]. split; [reflexivity|].
  intros (l & E & _ & Hin).
  cbn in E. injection E as <-.
  destruct (proj2 (Hin "nan")).
  split; [left; reflexivity|discriminate].
Qed.

(** C10. [with_all] puts ["All"] in front whatever the values are, so a
    value that is itself ["All"] appears twice: when some request has the
    status ["All"], the status options hold ["All"] exactly twice. And a
    choice of ["All"] constrains nothing: with ["All"] chosen for a facet
    the filter keeps every row that passes the other facet, whatever the row
    holds in the first one, so the rows whose status (or event name) is the
    text ["All"] cannot be selected on their own. *)
Theorem all_shadows_a_literal_value :
  (forall options : list (option string),
      hd_error (with_all options) = Some "All"
      /\ count_occ string_dec (with_all options) "All"
         = S (count_occ cell_eq_dec options (Some "All")))
  /\ with_all [Some "approved"; Some "All"] = ["All"; "All"; "approved"]
  /\ (forall df : list coerced_request,
         (exists r, In r df /\ registration_status r = Some "All") ->
         count_occ string_dec (status_options_of df) "All" = 2%nat)
  /\ (forall (Y D : Type) (d : list (request Y D)),
         apply_dropdown_filters d "All" "All" = d)
  /\ (forall (Y D : Type) (d : list (request Y D)) (event_choice : string)
             (r : request Y D),
         In r (apply_dropdown_filters d "All" event_choice)
         <-> In r d /\ (event_choice = "All" \/ event_name r = Some event_choice))
  /\ (forall (Y D : Type) (d : list (request Y D)) (status_choice : string)
             (r : request Y D),
         In r (apply_dropdown_filters d status_choice "All")
         <-> In r d
             /\ (status_choice = "All" \/ registration_status r = Some status_choice)).
Proof.
  assert (Hcount : forall options : list (option string),
             count_occ string_dec (with_all options) "All"
             = S (count_occ cell_eq_dec options (Some "All"))).
  { intros options. unfold with_all. cbn [count_occ].
    destruct (string_dec "All" "All") as [_|N]; [|congruence].
    f_equal. rewrite <- count_all_values.
    symmetry. apply Permutation_count_occ, sort_perm. }
  split; [|split; [|split; [|split; [|split]]]].
  - intros options. split; [reflexivity|apply Hcount].
  - reflexivity.
  - intros df (r & Hr & Es). unfold status_options_of. rewrite Hcount.
    f_equal. apply NoDup_count_occ'; [apply unique_from_nodup|].
    unfold unique. rewrite unique_from_in, dropna_in. cbn [In].
    split; [|tauto]. split; [|discriminate].
    rewrite <- Es. apply (in_map (fun r => registration_status r)), Hr.
  - intros Y D d. reflexivity.
  - intros Y D d ec r. rewrite filter_all_status.
    destruct (String.eqb_spec ec "All") as [->|N].
    + tauto.
    + rewrite filter_In, cell_is_spec. tauto.
  - intros Y D d sc r. rewrite filter_all_event.
    destruct (String.eqb_spec sc "All") as [->|N].
    + tauto.
    + rewrite filter_In, cell_is_spec. tauto.
Qed.

Lemma all_shadows_a_literal_value_witness :
  (exists r, In r [with_status "approved"; with_status "All"]
             /\ registration_status r = Some "All")
  /\ count_occ string_dec
       (status_options_of [with_status "approved"; with_status "All"]) "All"
     = 2%nat
  /\ apply_dropdown_filters [with_status "approved"; with_status "All"]
       "All" "All"
     = [with_status "approved"; with_status "All"].
Proof.
  assert (H : exists r, In r [with_status "approved"; with_status "All"]
                        /\ registration_status r = Some "All").
  { exists (with_status "All"). split; [right; left; reflexivity|reflexivity]. }
  split; [exact H|]. split.
  - exact (proj1 (proj2 (proj2 all_shadows_a_literal_value)) _ H).
  - exact (proj1 (proj2 (proj2 (proj2 all_shadows_a_literal_value))) _ _ _).
Defined.

End FacetClaims.

(** ** The aggregation of [app.py] *)

Section AggregationFacts.

Import Helpers App Spec.
Local Open Scope Z_scope.

Lemma len_filter (T : Type) (p : T -> bool) (l : list T) :
  PyList.len (filter p l) = count_where p l.
Proof.
  unfold PyList.len.
  induction l as [|r l IH]; cbn [filter count_where]; [reflexivity|].
  destruct (p r); cbn [List.length]; lia.
Qed.

Lemma filter_filter (T : Type) (p q : T -> bool) (l : list T) :
  filter q (filter p l) = filter (fun r => p r && q r) l.
Proof.
  induction l as [|r l IH]; cbn [filter]; [reflexivity|].
  destruct (p r); cbn [filter andb]; [destruct (q r)|]; rewrite IH; reflexivity.
Qed.

Lemma date_leb_spec (d1 d2 : date) : date_leb d1 d2 = true <-> date_le d1 d2.
Proof.
  unfold date_leb, date_le.
  destruct (Z.ltb_spec (year d1) (year d2));
    destruct (Z.ltb_spec (year d2) (year d1));
    destruct (Z.ltb_spec (month d1) (month d2));
    destruct (Z.ltb_spec (month d2) (month d1));
    rewrite ?Z.leb_le; split; intros; try lia; try congruence.
Qed.

Lemma year_is_spec (y : Z) (r : coerced_request) :
  year_is y r = true
  <-> exists q : Q, start_date_calendar_year r = Some q /\ (q == inject_Z y)%Q.
Proof.
  unfold year_is. destruct (start_date_calendar_year r) as [q|].
  - rewrite Qeq_bool_iff. split.
    + intros H. exists q. split; [reflexivity|exact H].
    + intros (q' & E & H). injection E as ->. exact H.
  - split; [discriminate|]. intros (q & E & _). discriminate.
Qed.

Lemma requested_by_spec (c : date) (r : coerced_request) :
  requested_by c r = true
  <-> exists d : date, date_requested r = Some d /\ date_le d c.
Proof.
  unfold requested_by, notna, cell_le.
  destruct (date_requested r) as [d|]; cbn [andb].
  - rewrite date_leb_spec. split.
    + intros H. exists d. split; [reflexivity|exact H].
    + intros (d' & E & H). injection E as ->. exact H.
  - split; [discriminate|]. intros (d & E & _). discriminate.
Qed.

(** Every day of the calendar but 29 February exists in 2025. *)
Lemma cutoff_exists (today : date) :
  valid_date (year today) (month today) (day today) = true ->
  ~ (month today = 2 /\ day today = 29) ->
  mk_date 2025 (month today) (day today)
  = Ok {| year := 2025; month := month today; day := day today |}.
Proof.
  intros Hv Hn. unfold mk_date.
  assert (E : valid_date 2025 (month today) (day today) = true); [|now rewrite E].
  unfold valid_date in *.
  repeat match type of Hv with
         | _ && _ = true => apply andb_true_iff in Hv as [Hv ?]
         end.
  repeat (apply andb_true_iff; split); try assumption; try reflexivity.
  unfold days_in_month in *.
  destruct (Z.eqb_spec (month today) 2) as [E2|E2].
  - change (is_leap 2025) with false. cbv iota.
    destruct (is_leap (year today)); lia.
  - assumption.
Qed.

Lemma cutoff_feb29_raises (today : date) :
  month today = 2 -> day today = 29 ->
  mk_date 2025 (month today) (day today) = Raised ValueError.
Proof. intros -> ->. reflexivity. Qed.

Lemma filters_are_passes (Y D : Type) (d : list (request Y D))
    (status_choice event_choice : string) :
  apply_dropdown_filters d status_choice event_choice
  = filter (passes status_choice event_choice) d.
Proof.
  unfold apply_dropdown_filters, passes.
  destruct (String.eqb status_choice "All");
    destruct (String.eqb event_choice "All"); cbn [negb orb].
  - induction d as [|r d IH]; cbn [filter]; [reflexivity|]. now rewrite <- IH.
  - apply filter_ext. intros r. reflexivity.
  - apply filter_ext. intros r. now rewrite andb_true_r.
  - apply filter_filter.
Qed.

End AggregationFacts.

Section AggregationClaims.

Import Helpers App Spec Sample.
Local Open Scope Z_scope.

(** The aggregation that compares cell by cell, which is the one of a frame
    whose column of request dates holds a date (see [Frame.aggregate]). For
    every list of requests and every [today] it returns, once the cutoff
    [date(2025, today.month, today.day)] is built, the full-year count of
    2025 and of 2026 as the number of requests of that year (a missing
    request date does not matter), the year-to-date count of a year as the
    number of requests of that year whose request date is present and not
    later than the cutoff ([today] for 2026), and the two deltas as the
    differences of the counts of 2026 and 2025. The cutoff is built for
    every valid [today] that is not 29 February. On the three requests of
    the scenario, with today = 2026-03-15, the result is 2, 1 (cutoff
    2025-03-15), 1, 1, and the deltas -1 and 0. *)
Lemma aggregate_counts :
  forall (df : list coerced_request) (today : date),
    let full y := count_where (year_is y) df in
    let ytd y c := count_where (fun r => year_is y r && requested_by c r) df in
    aggregate df today
    = (cutoff <- mk_date 2025 (month today) (day today) ;;
       Ok {| count_2025 := full 2025; count_2026 := full 2026;
             yoy_delta := full 2026 - full 2025;
             cutoff_2025 := cutoff;
             ytd_2025 := ytd 2025 cutoff; ytd_2026 := ytd 2026 today;
             ytd_delta := ytd 2026 today - ytd 2025 cutoff |})
    /\ (valid_date (year today) (month today) (day today) = true ->
        ~ (month today = 2 /\ day today = 29) ->
        mk_date 2025 (month today) (day today)
        = Ok {| year := 2025; month := month today; day := day today |})
    /\ (forall (y : Z) (r : coerced_request),
           year_is y r = true
           <-> exists q : Q,
                 start_date_calendar_year r = Some q /\ (q == inject_Z y)%Q)
    /\ (forall (c : date) (r : coerced_request),
           requested_by c r = true
           <-> exists d : date, date_requested r = Some d /\ date_le d c)
    /\ aggregate scenario (ymd 2026 3 15)
       = Ok {| count_2025 := 2; count_2026 := 1; yoy_delta := -1;
               cutoff_2025 := ymd 2025 3 15;
               ytd_2025 := 1; ytd_2026 := 1; ytd_delta := 0 |}.
Proof.
  intros df today full ytd.
  split; [|split; [|split; [|split]]].
  - unfold aggregate, full, ytd.
    destruct (mk_date 2025 (month today) (day today)) as [c| |e];
      cbn [bind]; try reflexivity.
    unfold year_rows. rewrite !filter_filter, !len_filter. reflexivity.
  - apply cutoff_exists.
  - apply year_is_spec.
  - apply requested_by_spec.
  - reflexivity.
Qed.


Lemma render_unfold (nt : string -> option Q) (dt : string -> option date)
    (data : list raw_request) (sc ec : string) (today : date) :
  data <> [] ->
  render_org_insights nt dt data sc ec today
  = (m <- aggregate (apply_dropdown_filters (coerce nt dt data) sc ec) today ;;
     Ok {| status_options := status_options_of (coerce nt dt data);
           event_options := event_options_of (coerce nt dt data);
           shown_metrics := m;
           tab25 := year_rows 2025
                      (apply_dropdown_filters (coerce nt dt data) sc ec);
           tab26 := year_rows 2026
                      (apply_dropdown_filters (coerce nt dt data) sc ec);
           taball := apply_dropdown_filters (coerce nt dt data) sc ec |}).
Proof. destruct data; [congruence|reflexivity]. Qed.

(** C1, what the code does. On a 29 February, [render_org_insights] of
    [app.py] asks for [date(2025, 2, 29)], which does not exist: the call
    raises [ValueError] for every non-empty batch of requests, and no
    cutoff of 28 February is computed. *)
Theorem render_raises_on_feb29 :
  forall (numeric_of_text : string -> option Q)
         (date_of_text : string -> option date)
         (data : list raw_request) (status_choice event_choice : string)
         (today : date),
    data <> [] ->
    month today = 2 -> day today = 29 ->
    render_org_insights numeric_of_text date_of_text data
      status_choice event_choice today = Raised ValueError.
Proof.
  intros nt dt data sc ec today Hne Hm Hd.
  destruct data as [|r data]; [congruence|].
  unfold render_org_insights, aggregate.
  rewrite (cutoff_feb29_raises today Hm Hd). reflexivity.
Qed.

Lemma render_raises_on_feb29_witness :
  valid_date 2028 2 29 = true
  /\ render_org_insights no_number march_first [nan_row] "All" "All"
       (ymd 2028 2 29) = Raised ValueError.
Proof.
  split; [reflexivity|].
  apply render_raises_on_feb29; [discriminate|reflexivity|reflexivity].
Defined.


End AggregationClaims.

(** ** The sequence matcher *)

Unset Implicit Arguments.

Section MatcherBounds.

Import Difflib.
Local Open Scope nat_scope.

Variables a b : list ascii.

Lemma j2len_get_in (j2len : list (nat * nat)) (j : nat) :
  j2len_get j2len j = 0 \/ In (j, j2len_get j2len j) j2len.
Proof.
  induction j2len as [|[j' k] r IH]; cbn [j2len_get]; [now left|].
  destruct (Nat.eqb_spec j' j) as [->|N].
  - right. left. reflexivity.
  - destruct IH as [IH|IH]; [now left|right; right; exact IH].
Qed.

Lemma j2len_prev_inside (rows blo : nat) (j2len : list (nat * nat)) (j : nat) :
  row_inside rows blo j2len -> blo <= j ->
  j2len_prev j2len j <= rows /\ j2len_prev j2len j + 1 + blo <= j + 1.
Proof.
  intros Hrow Hj. destruct j as [|j']; cbn [j2len_prev]; [lia|].
  destruct (j2len_get_in j2len j') as [E|Hin]; [rewrite E; lia|].
  apply Hrow in Hin. lia.
Qed.

Lemma scan_row_inside (alo ahi blo bhi rows : nat) (j2len : list (nat * nat))
    (js : list nat) :
  row_inside rows blo j2len -> alo + rows < ahi ->
  forall newj2len best,
    row_inside (S rows) blo newj2len -> inside alo ahi blo bhi best ->
    row_inside (S rows) blo
      (fst (scan_row blo bhi (alo + rows) j2len js newj2len best))
    /\ inside alo ahi blo bhi
         (snd (scan_row blo bhi (alo + rows) j2len js newj2len best)).
Proof.
  intros Hprev Hi.
  induction js as [|j js IH]; intros newj2len best Hnew Hbest;
    cbn [scan_row]; [split; assumption|].
  destruct (Nat.ltb_spec j blo); [apply IH; assumption|].
  destruct (Nat.leb_spec bhi j); [split; assumption|].
  destruct (j2len_prev_inside rows blo j2len j Hprev ltac:(lia)) as [Hk1 Hk2].
  apply IH.
  - intros j0 k0 [E|Hin]; [|apply Hnew, Hin].
    injection E as <- <-. lia.
  - destruct (Nat.ltb_spec (m_size best) (j2len_prev j2len j + 1));
      [|exact Hbest].
    unfold inside. cbn [m_a m_b m_size]. lia.
Qed.

Lemma scan_rows_inside (alo ahi blo bhi : nat) (n : nat) :
  forall rows j2len best,
    alo + rows + n <= ahi ->
    row_inside rows blo j2len -> inside alo ahi blo bhi best ->
    inside alo ahi blo bhi
      (scan_rows a b blo bhi (seq (alo + rows) n) j2len best).
Proof.
  induction n as [|n IH]; intros rows j2len best Hn Hrow Hbest;
    cbn [seq scan_rows]; [exact Hbest|].
  pose proof (scan_row_inside alo ahi blo bhi rows j2len
                (b2j b (at_ a (alo + rows))) Hrow ltac:(lia) [] best
                ltac:(intros ? ? []) Hbest) as [H1 H2].
  destruct (scan_row blo bhi (alo + rows) j2len (b2j b (at_ a (alo + rows)))
              [] best) as [newj2len best'].
  cbn [fst snd] in H1, H2.
  replace (S (alo + rows)) with (alo + S rows) by lia.
  apply IH; [lia|exact H1|exact H2].
Qed.

Lemma extend_left_inside (alo ahi blo bhi : nat) :
  forall besti bestj bestsize,
    inside alo ahi blo bhi
      {| m_a := besti; m_b := bestj; m_size := bestsize |} ->
    inside alo ahi blo bhi (extend_left a b alo blo besti bestj bestsize).
Proof.
  induction besti as [|i' IH]; intros bestj bestsize H;
    cbn [extend_left]; [exact H|].
  destruct bestj as [|j']; [exact H|].
  match goal with |- context [if ?c then _ else _] => destruct c eqn:E end;
    [|exact H].
  apply IH. rewrite !andb_true_iff, !Nat.ltb_lt in E.
  unfold inside in *. cbn [m_a m_b m_size] in *. lia.
Qed.

Lemma extend_right_inside (ahi bhi besti bestj : nat) :
  forall fuel bestsize,
    besti + bestsize <= ahi -> bestj + bestsize <= bhi ->
    let size := extend_right a b ahi bhi besti bestj fuel bestsize in
    bestsize <= size /\ besti + size <= ahi /\ bestj + size <= bhi.
Proof.
  induction fuel as [|fuel IH]; intros bestsize Ha Hb;
    cbn [extend_right]; [lia|].
  match goal with |- context [if ?c then _ else _] => destruct c eqn:E end;
    [|cbv zeta; lia].
  rewrite !andb_true_iff, !Nat.ltb_lt in E.
  specialize (IH (S bestsize) ltac:(lia) ltac:(lia)). cbv zeta in *. lia.
Qed.

(** The second loop ends within its fuel: when [extend_right] returns, the
    condition of the [while] is false. *)
Lemma extend_right_stops (ahi bhi besti bestj : nat) :
  forall fuel bestsize,
    ahi <= besti + bestsize + fuel ->
    let size := extend_right a b ahi bhi besti bestj fuel bestsize in
    (besti + size <? ahi) && (bestj + size <? bhi)
    && negb (isbjunk (at_ b (bestj + size)))
    && Ascii.eqb (at_ a (besti + size)) (at_ b (bestj + size)) = false.
Proof.
  induction fuel as [|fuel IH]; intros bestsize Hf; cbn [extend_right].
  - cbv zeta. destruct (Nat.ltb_spec (besti + bestsize) ahi); [lia|reflexivity].
  - match goal with |- context [if ?c then _ else _] => destruct c eqn:E end.
    + apply IH. lia.
    + cbv zeta. exact E.
Qed.

(** [find_longest_match] answers inside its window. *)
Lemma find_longest_match_inside (alo ahi blo bhi : nat) :
  alo <= ahi -> blo <= bhi ->
  inside alo ahi blo bhi (find_longest_match a b alo ahi blo bhi).
Proof.
  intros Ha Hb. unfold find_longest_match.
  set (best1 := scan_rows a b blo bhi (seq alo (ahi - alo)) []
                  {| m_a := alo; m_b := blo; m_size := 0 |}).
  assert (H1 : inside alo ahi blo bhi best1).
  { unfold best1. replace alo with (alo + 0) at 2 by lia.
    apply scan_rows_inside; [lia|intros ? ? []|].
    unfold inside. cbn [m_a m_b m_size]. lia. }
  set (best2 := extend_left a b alo blo (m_a best1) (m_b best1) (m_size best1)).
  assert (H2 : inside alo ahi blo bhi best2).
  { apply extend_left_inside. destruct best1. exact H1. }
  destruct H2 as (H21 & H22 & H23 & H24).
  pose proof (extend_right_inside ahi bhi (m_a best2) (m_b best2)
                (ahi - (m_a best2 + m_size best2)) (m_size best2) H22 H24) as H3.
  cbv zeta in H3. unfold inside. cbn [m_a m_b m_size]. lia.
Qed.

Lemma sum_sizes_cons (x : Match) (l : list Match) :
  sum_sizes (x :: l) = m_size x + sum_sizes l.
Proof. reflexivity. Qed.

Lemma sum_sizes_nil : sum_sizes [] = 0.
Proof. reflexivity. Qed.

Lemma sum_sizes_app (l1 l2 : list Match) :
  sum_sizes (l1 ++ l2) = sum_sizes l1 + sum_sizes l2.
Proof.
  induction l1 as [|x l1 IH]; cbn [app]; [reflexivity|].
  rewrite !sum_sizes_cons, IH. lia.
Qed.

Lemma sum_sizes_perm (l1 l2 : list Match) :
  Permutation l1 l2 -> sum_sizes l1 = sum_sizes l2.
Proof.
  induction 1; rewrite ?sum_sizes_cons; lia.
Qed.

Lemma collapse_sum (blocks : list Match) :
  forall i1 j1 k1 non_adjacent,
    sum_sizes (collapse i1 j1 k1 blocks non_adjacent)
    = sum_sizes non_adjacent + k1 + sum_sizes blocks.
Proof.
  induction blocks as [|x blocks IH]; intros i1 j1 k1 non_adjacent;
    cbn [collapse].
  - destruct (Nat.eqb_spec k1 0) as [->|N].
    + rewrite sum_sizes_nil. lia.
    + rewrite sum_sizes_app, sum_sizes_cons, sum_sizes_nil. cbn [m_size]. lia.
  - destruct ((i1 + k1 =? m_a x) && (j1 + k1 =? m_b x));
      rewrite IH, sum_sizes_cons.
    + lia.
    + destruct (Nat.eqb_spec k1 0) as [->|N]; [lia|].
      rewrite sum_sizes_app, sum_sizes_cons, sum_sizes_nil. cbn [m_size]. lia.
Qed.

(** The queue loop ends within the fuel that [cost] counts. *)
Lemma run_queue_returns (fuel : nat) :
  forall queue matching_blocks,
    Forall well_formed queue -> cost queue <= fuel ->
    exists r, run_queue a b fuel queue matching_blocks = Some r.
Proof.
  induction fuel as [|fuel IH]; intros queue mb Hwf Hcost.
  - destruct queue as [|[[[alo ahi] blo] bhi] queue].
    + exists mb. reflexivity.
    + cbn [cost] in Hcost. lia.
  - destruct queue as [|[[[alo ahi] blo] bhi] queue].
    + exists mb. reflexivity.
    + inversion Hwf as [|? ? Hab Hwf']; subst.
      cbn in Hab. destruct Hab as [Ha Hb].
      cbn [run_queue cost] in *.
      pose proof (find_longest_match_inside alo ahi blo bhi Ha Hb)
        as (H1 & H2 & H3 & H4).
      set (x := find_longest_match a b alo ahi blo bhi) in *.
      destruct (Nat.eqb_spec (m_size x) 0) as [E|N].
      * apply IH; [exact Hwf'|lia].
      * apply IH.
        -- destruct ((alo <? m_a x) && (blo <? m_b x));
             destruct ((m_a x + m_size x <? ahi) && (m_b x + m_size x <? bhi));
             repeat (apply Forall_cons; [unfold well_formed; lia|]); exact Hwf'.
        -- destruct ((alo <? m_a x) && (blo <? m_b x));
             destruct ((m_a x + m_size x <? ahi) && (m_b x + m_size x <? bhi));
             cbn [cost]; lia.
Qed.

(** The blocks found take no more elements than the windows hold. *)
Lemma run_queue_sum (fuel : nat) :
  forall queue matching_blocks r,
    Forall well_formed queue ->
    run_queue a b fuel queue matching_blocks = Some r ->
    sum_sizes r <= sum_sizes matching_blocks + span_a queue
    /\ sum_sizes r <= sum_sizes matching_blocks + span_b queue.
Proof.
  induction fuel as [|fuel IH]; intros queue mb r Hwf Hrun.
  - destruct queue as [|[[[alo ahi] blo] bhi] queue]; [|discriminate].
    injection Hrun as <-. cbn [span_a span_b]. lia.
  - destruct queue as [|[[[alo ahi] blo] bhi] queue].
    + injection Hrun as <-. cbn [span_a span_b]. lia.
    + inversion Hwf as [|? ? Hab Hwf']; subst.
      cbn in Hab. destruct Hab as [Ha Hb].
      cbn [run_queue] in Hrun.
      pose proof (find_longest_match_inside alo ahi blo bhi Ha Hb)
        as (H1 & H2 & H3 & H4).
      set (x := find_longest_match a b alo ahi blo bhi) in *.
      destruct (Nat.eqb_spec (m_size x) 0) as [E|N].
      * apply IH in Hrun; [|exact Hwf']. cbn [span_a span_b]. lia.
      * apply IH in Hrun.
        -- rewrite sum_sizes_app, sum_sizes_cons, sum_sizes_nil in Hrun.
           destruct ((alo <? m_a x) && (blo <? m_b x));
             destruct ((m_a x + m_size x <? ahi) && (m_b x + m_size x <? bhi));
             cbn [span_a span_b] in *; lia.
        -- destruct ((alo <? m_a x) && (blo <? m_b x));
             destruct ((m_a x + m_size x <? ahi) && (m_b x + m_size x <? bhi));
             repeat (apply Forall_cons; [unfold well_formed; lia|]); exact Hwf'.
Qed.

(** The matcher returns, and counts no more matched elements than either
    sequence has. *)
Lemma ratio_matches :
  exists m,
    ratio a b = Some (calculate_ratio m (List.length a + List.length b))
    /\ m <= List.length a /\ m <= List.length b.
Proof.
  unfold ratio, get_matching_blocks.
  assert (Hwf : Forall well_formed [(0, List.length a, 0, List.length b)]).
  { constructor; [cbn; lia|constructor]. }
  destruct (run_queue_returns (2 * List.length a + 1)
              [(0, List.length a, 0, List.length b)] [] Hwf
              ltac:(cbn [cost]; lia)) as [r Hr].
  rewrite Hr.
  apply run_queue_sum in Hr; [|exact Hwf].
  cbn [span_a span_b] in Hr. rewrite sum_sizes_nil in Hr.
  eexists. split; [reflexivity|].
  rewrite sum_sizes_app, collapse_sum, sum_sizes_cons, !sum_sizes_nil.
  rewrite <- (sum_sizes_perm _ _ (sort_perm match_ltb r)).
  cbn [m_size]. lia.
Qed.

Lemma calculate_ratio_bounds (m length : nat) :
  2 * m <= length -> (0 <= calculate_ratio m length <= 1)%Q.
Proof.
  intros H. unfold calculate_ratio. destruct length as [|n].
  - split; discriminate.
  - unfold Qle. cbn [Qnum Qden]. split; lia.
Qed.

End MatcherBounds.

Section MatcherSame.

Import Difflib.
Local Open Scope nat_scope.

Variable a : list ascii.

Local Abbreviation n := (List.length a).
Local Abbreviation rp := (run_before a a).

Lemma indices_from_in (c : ascii) (l : list ascii) :
  forall j0 j,
    In j (indices_from c j0 l)
    <-> (j0 <= j /\ j - j0 < List.length l /\ at_ l (j - j0) = c).
Proof.
  induction l as [|x l IH]; intros j0 j; cbn [indices_from List.length].
  - cbn [In]. lia.
  - assert (Hstep : In j (indices_from c (S j0) l)
                    <-> (S j0 <= j /\ j - S j0 < List.length l
                         /\ at_ l (j - S j0) = c)) by apply IH.
    destruct (Ascii.eqb_spec x c) as [E|E]; cbn [In]; rewrite ?Hstep.
    + split.
      * intros [<-|(H1 & H2 & H3)].
        -- rewrite Nat.sub_diag. unfold at_. cbn. split; [lia|split; [lia|exact E]].
        -- split; [lia|split; [lia|]].
           replace (j - j0) with (S (j - S j0)) by lia. exact H3.
      * intros (H1 & H2 & H3).
        destruct (Nat.eq_dec j0 j) as [->|N]; [now left|right].
        split; [lia|split; [lia|]].
        replace (j - j0) with (S (j - S j0)) in H3 by lia. exact H3.
    + split.
      * intros (H1 & H2 & H3). split; [lia|split; [lia|]].
        replace (j - j0) with (S (j - S j0)) by lia. exact H3.
      * intros (H1 & H2 & H3).
        destruct (Nat.eq_dec j0 j) as [->|N].
        -- rewrite Nat.sub_diag in H3. unfold at_ in H3. cbn in H3. congruence.
        -- split; [lia|split; [lia|]].
           replace (j - j0) with (S (j - S j0)) in H3 by lia. exact H3.
Qed.

Lemma indices_from_sorted (c : ascii) (l : list ascii) :
  forall j0, StronglySorted lt (indices_from c j0 l).
Proof.
  induction l as [|x l IH]; intros j0; cbn [indices_from]; [constructor|].
  destruct (Ascii.eqb x c); [|apply IH].
  constructor; [apply IH|].
  rewrite Forall_forall. intros j Hj. apply indices_from_in in Hj. lia.
Qed.

Lemma j2len_prev_run (i : nat) (j2len : list (nat * nat)) (j : nat) :
  (forall j' k', In (j', k') j2len -> k' <= rp i /\ k' <= rp (S j')) ->
  j2len_prev j2len j <= rp i /\ j2len_prev j2len j <= rp j.
Proof.
  intros Hrow. destruct j as [|j']; cbn [j2len_prev]; [lia|].
  destruct (j2len_get_in j2len j') as [E|Hin]; [rewrite E; lia|].
  apply Hrow in Hin. exact Hin.
Qed.

(** One row of the table when both sequences are [a]: the best match stays
    on the diagonal and is as long as the table allows up to this row. *)
Lemma scan_row_same (i : nat) (j2len : list (nat * nat)) :
  popular a (at_ a i) = false ->
  (forall j k, In (j, k) j2len -> k <= rp i /\ k <= rp (S j)) ->
  j2len_prev j2len i = rp i ->
  forall js newj2len best,
    StronglySorted lt js ->
    (forall j, In j js -> j < n /\ at_ a j = at_ a i) ->
    (forall j k, In (j, k) newj2len -> k <= rp (S i) /\ k <= rp (S j)) ->
    m_a best = m_b best ->
    (forall j, j <= i -> rp j <= m_size best) ->
    (In i js \/ (rp (S i) <= m_size best /\ j2len_get newj2len i = rp (S i))) ->
    (forall j k, In (j, k) (fst (scan_row 0 n i j2len js newj2len best)) ->
                 k <= rp (S i) /\ k <= rp (S j))
    /\ m_a (snd (scan_row 0 n i j2len js newj2len best))
       = m_b (snd (scan_row 0 n i j2len js newj2len best))
    /\ (forall j, j <= S i ->
                  rp j <= m_size (snd (scan_row 0 n i j2len js newj2len best)))
    /\ j2len_get (fst (scan_row 0 n i j2len js newj2len best)) i = rp (S i).
Proof.
  intros Hpop Hprev Eprev.
  assert (Ei : rp (S i) = S (rp i)) by (cbn [run_before]; now rewrite Hpop).
  induction js as [|j js IH];
    intros newj2len best Hsort Hjs Hnew Hdiag Hbest Hq; cbn [scan_row].
  - cbn [fst snd]. destruct Hq as [[]|[Hq1 Hq2]].
    split; [exact Hnew|]. split; [exact Hdiag|]. split; [|exact Hq2].
    intros j Hj. destruct (Nat.eq_dec j (S i)) as [->|N]; [exact Hq1|].
    apply Hbest. lia.
  - inversion Hsort as [|? ? Hsort' Hlt]; subst.
    rewrite Forall_forall in Hlt.
    destruct (Hjs j (or_introl eq_refl)) as [Hjn Hjc].
    assert (Ej : rp (S j) = S (rp j)).
    { cbn [run_before]. now rewrite Hjc, Hpop. }
    destruct (j2len_prev_run i j2len j Hprev) as [Hk1 Hk2].
    change (j <? 0) with false. cbv iota.
    destruct (Nat.leb_spec n j); [lia|].
    set (k := j2len_prev j2len j + 1).
    assert (Hnew' : forall j0 k0, In (j0, k0) ((j, k) :: newj2len) ->
                                  k0 <= rp (S i) /\ k0 <= rp (S j0)).
    { intros j0 k0 [E|Hin]; [|apply Hnew, Hin].
      injection E as <- <-. unfold k. lia. }
    assert (Hjs' : forall j0, In j0 js -> j0 < n /\ at_ a j0 = at_ a i).
    { intros j0 Hj0. apply Hjs. right. exact Hj0. }
    destruct (Nat.lt_trichotomy j i) as [Hji|[Hji|Hji]].
    + (* before the diagonal *)
      assert (Hk : k <= m_size best).
      { unfold k. specialize (Hbest (S j) ltac:(lia)). lia. }
      destruct (Nat.ltb_spec (m_size best) k); [lia|].
      apply IH; [exact Hsort'|exact Hjs'|exact Hnew'|exact Hdiag|exact Hbest|].
      destruct Hq as [[E|Hin]|[Hq1 Hq2]]; [lia|now left|right].
      split; [exact Hq1|]. cbn [j2len_get].
      destruct (Nat.eqb_spec j i); [lia|exact Hq2].
    + (* on the diagonal *)
      subst j.
      assert (Ek : k = rp (S i)) by (unfold k; lia).
      apply IH; try assumption.
      * destruct (Nat.ltb_spec (m_size best) k); [|exact Hdiag].
        cbn [m_a m_b]. reflexivity.
      * intros j Hj. specialize (Hbest j Hj).
        destruct (Nat.ltb_spec (m_size best) k); cbn [m_size]; lia.
      * right. split.
        -- destruct (Nat.ltb_spec (m_size best) k); cbn [m_size]; lia.
        -- cbn [j2len_get]. rewrite Nat.eqb_refl. exact Ek.
    + (* past the diagonal *)
      destruct Hq as [[E|Hin]|[Hq1 Hq2]];
        [lia|specialize (Hlt i Hin); lia|].
      assert (Hk : k <= m_size best) by (unfold k; lia).
      destruct (Nat.ltb_spec (m_size best) k); [lia|].
      apply IH; try assumption.
      right. split; [exact Hq1|]. cbn [j2len_get].
      destruct (Nat.eqb_spec j i); [lia|exact Hq2].
Qed.

Lemma scan_rows_same (count : nat) :
  forall i j2len best,
    i + count <= n ->
    (forall j k, In (j, k) j2len -> k <= rp i /\ k <= rp (S j)) ->
    j2len_prev j2len i = rp i ->
    m_a best = m_b best ->
    (forall j, j <= i -> rp j <= m_size best) ->
    m_a (scan_rows a a 0 n (seq i count) j2len best)
    = m_b (scan_rows a a 0 n (seq i count) j2len best).
Proof.
  induction count as [|count IH]; intros i j2len best Hn Hprev Eprev Hdiag Hbest;
    cbn [seq scan_rows]; [exact Hdiag|].
  unfold b2j. destruct (popular a (at_ a i)) eqn:Hpop.
  - cbn [scan_row]. apply IH; [lia| | |exact Hdiag|].
    + intros j k [].
    + cbn [j2len_prev j2len_get run_before]. now rewrite Hpop.
    + intros j Hj. destruct (Nat.eq_dec j (S i)) as [->|N].
      * cbn [run_before]. rewrite Hpop. lia.
      * apply Hbest. lia.
  - pose proof (scan_row_same i j2len Hpop Hprev Eprev
                  (indices_from (at_ a i) 0 a) [] best
                  (indices_from_sorted (at_ a i) a 0)) as H.
    destruct (scan_row 0 n i j2len (indices_from (at_ a i) 0 a) [] best)
      as [newj2len best'].
    cbn [fst snd] in H.
    destruct H as (H1 & H2 & H3 & H4).
    + intros j Hj. apply indices_from_in in Hj.
      rewrite Nat.sub_0_r in Hj. tauto.
    + intros j k [].
    + exact Hdiag.
    + exact Hbest.
    + left. apply indices_from_in. rewrite Nat.sub_0_r.
      split; [lia|split; [lia|reflexivity]].
    + apply IH; [lia|exact H1|exact H4|exact H2|exact H3].
Qed.

Lemma extend_left_same (i : nat) :
  forall size,
    extend_left a a 0 0 i i size = {| m_a := 0; m_b := 0; m_size := size + i |}.
Proof.
  induction i as [|i IH]; intros size; cbn [extend_left].
  - now rewrite Nat.add_0_r.
  - rewrite Ascii.eqb_refl. cbn [Nat.ltb Nat.leb andb negb isbjunk].
    rewrite IH. f_equal. lia.
Qed.

Lemma extend_right_same (fuel : nat) :
  forall size,
    size + fuel = n ->
    extend_right a a n n 0 0 fuel size = n.
Proof.
  induction fuel as [|fuel IH]; intros size Hn; cbn [extend_right]; [lia|].
  cbn [Nat.add]. rewrite Ascii.eqb_refl.
  destruct (Nat.ltb_spec size n); [|lia].
  cbn [andb negb isbjunk]. apply IH. lia.
Qed.

(** A sequence matches itself in one block. *)
Lemma find_longest_match_same :
  find_longest_match a a 0 n 0 n = {| m_a := 0; m_b := 0; m_size := n |}.
Proof.
  unfold find_longest_match. rewrite Nat.sub_0_r.
  set (best1 := scan_rows a a 0 n (seq 0 n) []
                  {| m_a := 0; m_b := 0; m_size := 0 |}).
  assert (Hdiag : m_a best1 = m_b best1).
  { apply scan_rows_same; [lia| | | |].
    - intros j k [].
    - reflexivity.
    - reflexivity.
    - intros j Hj. replace j with 0 by lia. cbn. lia. }
  assert (Hin : inside 0 n 0 n best1).
  { pose proof (scan_rows_inside a a 0 n 0 n n 0 []
                  {| m_a := 0; m_b := 0; m_size := 0 |}) as H.
    cbn [Nat.add] in H. apply H; [lia|intros ? ? []|].
    unfold inside. cbn [m_a m_b m_size]. lia. }
  destruct Hin as (_ & Hin & _).
  rewrite <- Hdiag, extend_left_same. cbn [m_a m_b m_size].
  rewrite extend_right_same; [reflexivity|lia].
Qed.

Lemma run_queue_done (fuel : nat) (matching_blocks : list Match) :
  run_queue a a fuel [] matching_blocks = Some matching_blocks.
Proof. destruct fuel; reflexivity. Qed.

(** The ratio of a sequence with itself is 1. *)
Lemma ratio_same :
  exists q, ratio a a = Some q /\ (q == 1)%Q.
Proof.
  unfold ratio, get_matching_blocks.
  replace (2 * n + 1) with (S (2 * n)) by lia.
  cbn [run_queue]. rewrite find_longest_match_same. cbn [m_a m_b m_size].
  rewrite Nat.ltb_irrefl. cbn [andb Nat.add].
  rewrite Nat.ltb_irrefl. cbn [andb].
  destruct (Nat.eqb_spec n 0) as [E|N].
  - destruct (2 * n); cbn [run_queue PySort.sort collapse Nat.eqb app];
      rewrite E; (eexists; split; [reflexivity|reflexivity]).
  - rewrite run_queue_done. eexists. split; [reflexivity|]. cbn [app].
    rewrite sum_sizes_app, collapse_sum, sum_sizes_nil.
    cbn [PySort.sort PySort.insert]. rewrite !sum_sizes_cons, !sum_sizes_nil.
    cbn [m_size]. unfold calculate_ratio.
    destruct (n + n) as [|t] eqn:Et; [reflexivity|].
    unfold Qeq. cbn [Qnum Qden]. lia.
Qed.

End MatcherSame.

(** ** The candidate search *)

Section StripFacts.

Import PyStr.

Lemma lstrip_head (s : string) :
  lstrip s = EmptyString
  \/ exists c r, lstrip s = String c r /\ isspace c = false.
Proof.
  induction s as [|c s IH]; cbn [lstrip]; [now left|].
  destruct (isspace c) eqn:E; [exact IH|].
  right. exists c, s. split; [reflexivity|exact E].
Qed.

Lemma rstrip_cons (c : ascii) (s : string) :
  rstrip (String c s)
  = match rstrip s with
    | EmptyString => if isspace c then EmptyString else String c EmptyString
    | r => String c r
    end.
Proof. reflexivity. Qed.

Lemma rstrip_idem (s : string) : rstrip (rstrip s) = rstrip s.
Proof.
  induction s as [|c s IH]; [reflexivity|].
  rewrite rstrip_cons.
  destruct (rstrip s) as [|c' r] eqn:E.
  - destruct (isspace c) eqn:Ec; [reflexivity|].
    rewrite rstrip_cons. cbn [rstrip]. now rewrite Ec.
  - rewrite rstrip_cons, IH. reflexivity.
Qed.

Lemma rstrip_head (c : ascii) (r : string) :
  isspace c = false -> exists r', rstrip (String c r) = String c r'.
Proof.
  intros E. cbn [rstrip]. destruct (rstrip r) as [|c' r'].
  - rewrite E. now exists EmptyString.
  - now exists (String c' r').
Qed.

Lemma strip_idem (s : string) : strip (strip s) = strip s.
Proof.
  unfold strip. destruct (lstrip_head s) as [E|(c & r & E & Ec)]; rewrite E.
  - reflexivity.
  - destruct (rstrip_head c r Ec) as [r' E'].
    rewrite E'. cbn [lstrip]. rewrite Ec, <- E'. apply rstrip_idem.
Qed.

Lemma lstrip_blank (s : string) : Spec.blank s -> lstrip s = EmptyString.
Proof.
  unfold Spec.blank. induction s as [|c s IH]; intros H; cbn [lstrip];
    [reflexivity|].
  rewrite (H c (or_introl eq_refl)). apply IH.
  intros c' Hc'. apply H. right. exact Hc'.
Qed.

Lemma strip_blank (s : string) : Spec.blank s -> strip s = EmptyString.
Proof. intros H. unfold strip. now rewrite (lstrip_blank s H). Qed.

Lemma int_strip (s : string) : int (strip s) = int s.
Proof. unfold int. now rewrite strip_idem. Qed.

Lemma int_not_empty (s : string) (n : Z) :
  int s = Some n -> truthy (strip s) = true.
Proof.
  unfold int. destruct (strip s) as [|c r]; [discriminate|reflexivity].
Qed.

End StripFacts.

Section KeyOrder.

Import Helpers IndividualSearch.

(** The order of the key tuples, as a proposition. *)
Lemma key_ltb_spec (k1 k2 : Q * Z) :
  key_ltb k1 k2 = true
  <-> ((fst k1 < fst k2)%Q \/ ((fst k1 == fst k2)%Q /\ (snd k1 < snd k2)%Z)).
Proof.
  unfold key_ltb, Qltb.
  destruct (Qeq_bool (fst k1) (fst k2)) eqn:E; cbn [negb].
  - apply Qeq_bool_iff in E. rewrite Z.ltb_lt. split.
    + intros H. right. split; assumption.
    + intros [H|[_ H]]; [lra|exact H].
  - apply Qeq_bool_neq in E. rewrite negb_true_iff.
    destruct (Qle_bool (fst k2) (fst k1)) eqn:L.
    + apply Qle_bool_iff in L. split; [discriminate|].
      intros [H|[H _]]; [lra|contradiction].
    + assert (~ (fst k2 <= fst k1)%Q)
        by (intros H; apply Qle_bool_iff in H; congruence).
      split; [|reflexivity]. intros _. left. lra.
Qed.

Lemma key_ltb_false (k1 k2 : Q * Z) :
  key_ltb k1 k2 = false
  <-> ((fst k2 < fst k1)%Q \/ ((fst k1 == fst k2)%Q /\ (snd k2 <= snd k1)%Z)).
Proof.
  destruct (key_ltb k1 k2) eqn:E.
  - apply key_ltb_spec in E. split; [discriminate|].
    intros [H|[H1 H2]]; destruct E as [E|[E1 E2]]; try lra; lia.
  - split; [|reflexivity]. intros _.
    assert (N : ~ ((fst k1 < fst k2)%Q
                   \/ ((fst k1 == fst k2)%Q /\ (snd k1 < snd k2)%Z))).
    { intros H. apply key_ltb_spec in H. congruence. }
    destruct (Qlt_le_dec (fst k2) (fst k1)) as [H|H]; [now left|right].
    destruct (Qlt_le_dec (fst k1) (fst k2)) as [H'|H']; [tauto|].
    assert (Eq : (fst k1 == fst k2)%Q) by lra.
    split; [exact Eq|]. destruct (Z.lt_ge_cases (snd k1) (snd k2)); [tauto|lia].
Qed.

Lemma key_ltb_asym (k1 k2 : Q * Z) :
  key_ltb k1 k2 = true -> key_ltb k2 k1 = false.
Proof.
  rewrite key_ltb_spec, key_ltb_false.
  intros [H|[H1 H2]]; [now left|right]. split; [lra|lia].
Qed.

Lemma key_not_after_trans (k1 k2 k3 : Q * Z) :
  key_ltb k2 k1 = false -> key_ltb k3 k2 = false -> key_ltb k3 k1 = false.
Proof.
  rewrite !key_ltb_false.
  intros [H|[H1 H2]] [H'|[H1' H2']].
  - left. lra.
  - left. lra.
  - left. lra.
  - right. split; [lra|lia].
Qed.

Variable query : string.

Local Abbreviation row_ltb :=
  (fun x y : org => key_ltb (sort_key query x) (sort_key query y)).

Lemma row_ltb_asym (x y : org) : row_ltb x y = true -> row_ltb y x = false.
Proof. apply key_ltb_asym. Qed.

Lemma row_not_after_trans (x y z : org) :
  PySort.not_after row_ltb x y -> PySort.not_after row_ltb y z ->
  PySort.not_after row_ltb x z.
Proof. unfold PySort.not_after. apply key_not_after_trans. Qed.

Lemma not_after_ranked (x y : org) :
  PySort.not_after row_ltb x y <-> Spec.ranked_before query x y.
Proof.
  unfold PySort.not_after, Spec.ranked_before. rewrite key_ltb_false.
  unfold sort_key. cbn [fst snd]. cbv zeta.
  split; (intros [H|[H1 H2]]; [left; lra|right; split; [lra|lia]]).
Qed.

Lemma tie_tied (x y : org) :
  PySort.tie row_ltb x y = true <-> Spec.tied query x y.
Proof.
  unfold PySort.tie, Spec.tied.
  rewrite andb_true_iff, !negb_true_iff, !key_ltb_false.
  unfold sort_key. cbn [fst snd].
  split.
  - intros [[H|[H1 H2]] [H'|[H1' H2']]]; try lra. split; [lra|lia].
  - intros [H1 H2]. split; right; (split; [lra|lia]).
Qed.

(** The rows come out ranked, and they are the rows that went in. *)
Lemma sort_rows_ranked (rows : list org) :
  Permutation rows (sort_rows query rows)
  /\ StronglySorted (Spec.ranked_before query) (sort_rows query rows).
Proof.
  split; [apply sort_perm|].
  pose proof (sort_sorted row_ltb_asym row_not_after_trans rows) as H.
  unfold sort_rows.
  induction H as [|x l Hs IH Hx]; constructor; [exact IH|].
  rewrite Forall_forall in *. intros y Hy. apply not_after_ranked, Hx, Hy.
Qed.

End KeyOrder.

Section SimilarityFacts.

Import Helpers.

(** The matcher returns on every pair of strings, so [similarity] is its
    ratio. *)
Lemma ratio_returns (a b : string) :
  Difflib.ratio (list_ascii_of_string (PyStr.lower a))
                (list_ascii_of_string (PyStr.lower b))
  = Some (similarity a b).
Proof.
  unfold similarity.
  destruct (ratio_matches (list_ascii_of_string (PyStr.lower a))
              (list_ascii_of_string (PyStr.lower b))) as (m & E & _).
  rewrite E. reflexivity.
Qed.

Lemma similarity_bounds (a b : string) : (0 <= similarity a b <= 1)%Q.
Proof.
  unfold similarity.
  destruct (ratio_matches (list_ascii_of_string (PyStr.lower a))
              (list_ascii_of_string (PyStr.lower b))) as (m & E & Ha & Hb).
  rewrite E. apply calculate_ratio_bounds. lia.
Qed.

Lemma similarity_same (a b : string) :
  PyStr.lower a = PyStr.lower b -> (similarity a b == 1)%Q.
Proof.
  intros E. unfold similarity. rewrite E.
  destruct (ratio_same (list_ascii_of_string (PyStr.lower b))) as (q & Eq & H).
  rewrite Eq. exact H.
Qed.

End SimilarityFacts.

Section SearchClaims.

Import Helpers IndividualSearch Spec Sample.
Local Open Scope string_scope.

(** C5. A query that is empty or made of white space only gets the empty
    list: the store is not asked, so nothing can raise, whatever state the
    store is in. *)
Theorem blank_query_finds_nothing :
  forall (client : Store) (query : option string),
    blank (PyStr.or_empty query) ->
    fetch_org_candidates client query = Ok [].
Proof.
  intros client query H. unfold fetch_org_candidates.
  rewrite (strip_blank _ H). reflexivity.
Qed.

Lemma blank_query_finds_nothing_witness :
  blank "   "
  /\ fetch_org_candidates store_down (Some "   ") = Ok []
  /\ fetch_org_candidates store_down (Some "") = Ok [].
Proof.
  assert (H3 : blank "   ").
  { intros c [<-|[<-|[<-|[]]]]; reflexivity. }
  assert (H0 : blank "") by (intros c []).
  split; [exact H3|]. split.
  - exact (blank_query_finds_nothing store_down (Some "   ") H3).
  - exact (blank_query_finds_nothing store_down (Some "") H0).
Defined.

(** C4, as the code has it. A query that [int] reads as the integer [n] is
    answered by the identifier lookup alone: the call returns what the store
    holds for [n], unchanged and in the store's order (or raises as the
    store does). When the store holds at most one row for [n] this is the
    empty list or that one row. No similarity is computed on this branch and
    the row carries no score. *)
Theorem id_query_returns_store_rows :
  forall (client : Store) (query : string) (n : Z),
    PyStr.int query = Some n ->
    fetch_org_candidates client (Some query)
    = (data <- orgs_by_id client n ;; Ok (data_or_empty data))
    /\ forall rows : list org,
         orgs_by_id client n = Ok (Some rows) ->
         (List.length rows <= 1)%nat ->
         fetch_org_candidates client (Some query) = Ok rows
         /\ (rows = [] \/ exists o : org, rows = [o]).
Proof.
  intros client query n Hn.
  assert (E : fetch_org_candidates client (Some query)
              = (data <- orgs_by_id client n ;; Ok (data_or_empty data))).
  { unfold fetch_org_candidates. cbn [PyStr.or_empty].
    rewrite (int_not_empty query n Hn). cbn [negb].
    unfold is_int. rewrite int_strip, Hn. reflexivity. }
  split; [exact E|].
  intros rows Hrows Hlen. rewrite E, Hrows. cbn [bind data_or_empty].
  split; [reflexivity|].
  destruct rows as [|o [|o' rows]]; [now left|right; now exists o|].
  cbn [List.length] in Hlen. lia.
Qed.

Lemma id_query_returns_store_rows_witness :
  PyStr.int " 78598 " = Some 78598%Z
  /\ fetch_org_candidates (store_of [named 78598 "Canes Baseball"])
       (Some " 78598 ")
     = Ok [named 78598 "Canes Baseball"].
Proof.
  split; [reflexivity|].
  apply (proj2 (id_query_returns_store_rows
                  (store_of [named 78598 "Canes Baseball"]) " 78598 " 78598
                  eq_refl) [named 78598 "Canes Baseball"] eq_refl).
  cbn. lia.
Defined.

(** C4 as it is written fails: the one row found for the query ["78598"] is
    the store's row, and the only score the script has for a candidate, its
    similarity to the query, is 0 for it, not 1. *)
Lemma id_query_result_has_no_score_one :
  fetch_org_candidates (store_of [named 78598 "Canes Baseball"]) (Some "78598")
  = Ok [named 78598 "Canes Baseball"]
  /\ (relevance "78598" (named 78598 "Canes Baseball") == 0)%Q
  /\ ~ (relevance "78598" (named 78598 "Canes Baseball") == 1)%Q.
Proof.
  split; [reflexivity|]. split; [reflexivity|]. discriminate.
Qed.

(** The name branch of [fetch_org_candidates]. *)
Lemma fetch_by_name (client : Store) (query : string) :
  PyStr.strip query <> "" ->
  is_int (PyStr.strip query) = false ->
  fetch_org_candidates client (Some query)
  = (data <- orgs_by_name client ("%" ++ PyStr.strip query ++ "%") 200 ;;
     Ok (sort_rows (PyStr.strip query) (data_or_empty data))).
Proof.
  intros Hne Hint. unfold fetch_org_candidates. cbn [PyStr.or_empty].
  rewrite Hint. destruct (PyStr.strip query) as [|c r]; [congruence|reflexivity].
Qed.



(** C9, as the code has it. The ranked list is a function of the query and
    of the list the store returned. Candidates that tie, with the same
    similarity and names of the same length, stay in the order the store
    gave them; so two store answers that hold the same candidates in
    different orders give the same ranked list when no two different
    candidates tie. *)
Theorem ranking_keeps_store_order_of_ties :
  forall (client client' : Store) (query : string) (rows rows' : list org),
    PyStr.strip query <> "" ->
    is_int (PyStr.strip query) = false ->
    let q := PyStr.strip query in
    orgs_by_name client ("%" ++ q ++ "%") 200 = Ok (Some rows) ->
    orgs_by_name client' ("%" ++ q ++ "%") 200 = Ok (Some rows') ->
    Permutation rows rows' ->
    (forall o : org,
        filter (PySort.tie
                  (fun x y => key_ltb (sort_key q x) (sort_key q y)) o)
          (sort_rows q rows)
        = filter (PySort.tie
                    (fun x y => key_ltb (sort_key q x) (sort_key q y)) o)
            rows)
    /\ (forall x y : org,
           PySort.tie (fun x y => key_ltb (sort_key q x) (sort_key q y)) x y
           = true <-> tied q x y)
    /\ ((forall x y : org, In x rows -> In y rows -> tied q x y -> x = y) ->
        fetch_org_candidates client (Some query)
        = fetch_org_candidates client' (Some query)).
Proof.
  intros client client' query rows rows' Hne Hint q Hrows Hrows' Hperm.
  split; [|split].
  - intros o. unfold sort_rows.
    apply (sort_stable (row_ltb_asym q) (row_not_after_trans q)).
  - apply tie_tied.
  - intros Hties.
    rewrite (fetch_by_name client query Hne Hint).
    rewrite (fetch_by_name client' query Hne Hint).
    fold q. rewrite Hrows, Hrows'. cbn [bind data_or_empty].
    f_equal. unfold sort_rows.
    apply (@sorted_perm_unique org
             (fun x y => key_ltb (sort_key q x) (sort_key q y))).
    + intros x y Hx Hy Ht. apply tie_tied in Ht.
      apply Hties; [| |exact Ht].
      * eapply Permutation_in; [apply Permutation_sym, sort_perm|exact Hx].
      * eapply Permutation_in; [apply Permutation_sym, sort_perm|exact Hy].
    + apply (sort_sorted (row_ltb_asym q) (row_not_after_trans q)).
    + apply (sort_sorted (row_ltb_asym q) (row_not_after_trans q)).
    + eapply Permutation_trans; [apply Permutation_sym, sort_perm|].
      eapply Permutation_trans; [exact Hperm|apply sort_perm].
Qed.

Lemma ranking_keeps_store_order_of_ties_witness :
  PyStr.strip "Canes" <> ""
  /\ is_int (PyStr.strip "Canes") = false
  /\ Permutation [named 1 "Canes Baseball"; named 2 "Canes"]
                 [named 2 "Canes"; named 1 "Canes Baseball"]
  /\ (forall x y : org,
         In x [named 1 "Canes Baseball"; named 2 "Canes"] ->
         In y [named 1 "Canes Baseball"; named 2 "Canes"] ->
         tied "Canes" x y -> x = y)
  /\ fetch_org_candidates
       (store_of [named 1 "Canes Baseball"; named 2 "Canes"]) (Some "Canes")
     = fetch_org_candidates
         (store_of [named 2 "Canes"; named 1 "Canes Baseball"]) (Some "Canes").
Proof.
  assert (H1 : PyStr.strip "Canes" <> "") by discriminate.
  assert (H2 : is_int (PyStr.strip "Canes") = false) by reflexivity.
  assert (H3 : Permutation [named 1 "Canes Baseball"; named 2 "Canes"]
                 [named 2 "Canes"; named 1 "Canes Baseball"])
    by apply perm_swap.
  assert (H4 : forall x y : org,
             In x [named 1 "Canes Baseball"; named 2 "Canes"] ->
             In y [named 1 "Canes Baseball"; named 2 "Canes"] ->
             tied "Canes" x y -> x = y).
  { intros x y [<-|[<-|[]]] [<-|[<-|[]]] [_ Hl];
      try reflexivity; cbn in Hl; discriminate. }
  split; [exact H1|]. split; [exact H2|]. split; [exact H3|].
  split; [exact H4|].
  exact (proj2 (proj2 (ranking_keeps_store_order_of_ties
                  (store_of [named 1 "Canes Baseball"; named 2 "Canes"])
                  (store_of [named 2 "Canes"; named 1 "Canes Baseball"])
                  "Canes" _ _ H1 H2 eq_refl eq_refl H3)) H4).
Defined.

(** C9 as it is written fails: two candidates of the same name tie, and the
    ranked list has them in the order of the store's answer. *)
Lemma tied_candidates_follow_store_order :
  Permutation [named 1 "Canes"; named 2 "Canes"]
              [named 2 "Canes"; named 1 "Canes"]
  /\ fetch_org_candidates (store_of [named 1 "Canes"; named 2 "Canes"])
       (Some "Canes")
     = Ok [named 1 "Canes"; named 2 "Canes"]
  /\ fetch_org_candidates (store_of [named 2 "Canes"; named 1 "Canes"])
       (Some "Canes")
     = Ok [named 2 "Canes"; named 1 "Canes"]
  /\ fetch_org_candidates (store_of [named 1 "Canes"; named 2 "Canes"])
       (Some "Canes")
     <> fetch_org_candidates (store_of [named 2 "Canes"; named 1 "Canes"])
          (Some "Canes").
Proof.
  assert (E1 : fetch_org_candidates (store_of [named 1 "Canes"; named 2 "Canes"])
                 (Some "Canes") = Ok [named 1 "Canes"; named 2 "Canes"])
    by (vm_compute; reflexivity).
  assert (E2 : fetch_org_candidates (store_of [named 2 "Canes"; named 1 "Canes"])
                 (Some "Canes") = Ok [named 2 "Canes"; named 1 "Canes"])
    by (vm_compute; reflexivity).
  split; [apply perm_swap|]. split; [exact E1|]. split; [exact E2|].
  rewrite E1, E2. discriminate.
Qed.

End SearchClaims.

(** * More of the code

    ** The text of an integer, and the links *)

Section FormatFacts.

Import PyStr PyFormat.
Local Open Scope Z_scope.

Lemma digit_char_facts (d : Z) :
  0 <= d < 10 ->
  isdigit (digit_char d) = true /\ digit_value (digit_char d) = d.
Proof.
  intros H.
  assert (E : d = 0 \/ d = 1 \/ d = 2 \/ d = 3 \/ d = 4 \/ d = 5 \/ d = 6
              \/ d = 7 \/ d = 8 \/ d = 9) by lia.
  repeat (destruct E as [->|E]; [split; reflexivity|]).
  subst. split; reflexivity.
Qed.

Lemma isdigit_not_space (c : ascii) : isdigit c = true -> isspace c = false.
Proof.
  destruct c as [[] [] [] [] [] [] [] []]; cbn; intros H;
    try reflexivity; discriminate.
Qed.

Lemma isdigit_not_sign (c : ascii) (r : string) :
  isdigit c = true ->
  match String c r with
  | String "+"%char r' => int_digits 0 false r'
  | String "-"%char r' => option_map Z.opp (int_digits 0 false r')
  | r' => int_digits 0 false r'
  end = int_digits 0 false (String c r).
Proof.
  destruct c as [[] [] [] [] [] [] [] []]; intros H;
    try reflexivity; cbn in H; discriminate.
Qed.

Lemma digits_onto_S (fuel : nat) (n : Z) (acc : string) :
  digits_onto (S fuel) n acc
  = if n <? 10 then String (digit_char (n mod 10)) acc
    else digits_onto fuel (n / 10) (String (digit_char (n mod 10)) acc).
Proof. reflexivity. Qed.

(** Reading back the digits that [digits_onto] writes. *)
Lemma int_digits_onto (fuel : nat) :
  forall (n : Z) (p : bool) (s : string),
    0 <= n < 10 ^ Z.of_nat (S fuel) ->
    int_digits 0 p (digits_onto (S fuel) n s) = int_digits n true s.
Proof.
  induction fuel as [|fuel IH]; intros n p s Hn.
  - change (10 ^ Z.of_nat 1) with 10 in Hn.
    cbn [digits_onto]. destruct (Z.ltb_spec n 10); [|lia].
    cbn [int_digits].
    destruct (digit_char_facts (n mod 10)) as [E1 E2];
      [apply Z.mod_pos_bound; lia|].
    rewrite E1, E2, Z.mod_small by lia. f_equal.
  - rewrite digits_onto_S.
    destruct (digit_char_facts (n mod 10)) as [E1 E2];
      [apply Z.mod_pos_bound; lia|].
    destruct (Z.ltb_spec n 10).
    + cbn [int_digits]. rewrite E1, E2, Z.mod_small by lia. f_equal.
    + rewrite IH.
      * cbn [int_digits]. rewrite E1, E2. f_equal.
        pose proof (Z.div_mod n 10 ltac:(lia)). lia.
      * split; [apply Z.div_pos; lia|].
        apply Z.div_lt_upper_bound; [lia|].
        replace (Z.of_nat (S (S fuel))) with (Z.succ (Z.of_nat (S fuel)))
          in Hn by lia.
        rewrite Z.pow_succ_r in Hn by lia. lia.
Qed.

Lemma digits_fuel_enough (n : Z) :
  0 <= n -> n < 10 ^ Z.of_nat (S (Z.to_nat (Z.log2 n))).
Proof.
  intros Hn.
  replace (Z.of_nat (S (Z.to_nat (Z.log2 n)))) with (Z.succ (Z.log2 n))
    by (pose proof (Z.log2_nonneg n); lia).
  destruct (Z.eq_dec n 0) as [->|N]; [reflexivity|].
  destruct (Z.log2_spec n ltac:(lia)) as [_ H].
  eapply Z.lt_le_trans; [exact H|].
  apply Z.pow_le_mono_l. pose proof (Z.log2_nonneg n). lia.
Qed.

Lemma digits_onto_chars (fuel : nat) :
  forall (n : Z) (acc : string) (c : ascii),
    0 <= n ->
    In c (list_ascii_of_string (digits_onto fuel n acc)) ->
    isdigit c = true \/ In c (list_ascii_of_string acc).
Proof.
  induction fuel as [|fuel IH]; intros n acc c Hn Hc; cbn [digits_onto] in Hc;
    [now right|].
  assert (Hd : isdigit (digit_char (n mod 10)) = true)
    by (apply digit_char_facts, Z.mod_pos_bound; lia).
  destruct (n <? 10).
  - destruct Hc as [<-|Hc]; [now left|now right].
  - apply IH in Hc; [|apply Z.div_pos; lia].
    destruct Hc as [Hc|[<-|Hc]]; [now left|now left|now right].
Qed.

Lemma digits_onto_head (fuel : nat) :
  forall (n : Z) (acc : string),
    exists c r, digits_onto (S fuel) n acc = String c r.
Proof.
  induction fuel as [|fuel IH]; intros n acc; cbn [digits_onto].
  - destruct (n <? 10); eauto.
  - destruct (n <? 10); [eauto|]. apply IH.
Qed.

Lemma strip_no_space (s : string) :
  (forall c, In c (list_ascii_of_string s) -> isspace c = false) ->
  strip s = s.
Proof.
  intros H. unfold strip.
  assert (El : lstrip s = s).
  { destruct s as [|c s]; [reflexivity|]. cbn [lstrip].
    now rewrite (H c (or_introl eq_refl)). }
  rewrite El. clear El.
  induction s as [|c s IH]; [reflexivity|].
  rewrite rstrip_cons, IH.
  - destruct s; [|reflexivity]. now rewrite (H c (or_introl eq_refl)).
  - intros c' Hc'. apply H. right. exact Hc'.
Qed.

Lemma int_digits_text (n : Z) : 0 <= n -> int (digits n) = Some n.
Proof.
  intros Hn. unfold int.
  assert (Hs : strip (digits n) = digits n).
  { apply strip_no_space. intros c Hc. unfold digits in Hc.
    apply digits_onto_chars in Hc; [|exact Hn].
    destruct Hc as [Hc|[]]. now apply isdigit_not_space. }
  rewrite Hs. unfold digits.
  destruct (digits_onto_head (Z.to_nat (Z.log2 n)) n EmptyString) as (c & r & E).
  assert (Hc : isdigit c = true).
  { destruct (digits_onto_chars (S (Z.to_nat (Z.log2 n))) n EmptyString c Hn)
      as [H|[]]; [|exact H].
    rewrite E. left. reflexivity. }
  rewrite E, (isdigit_not_sign c r Hc), <- E.
  rewrite int_digits_onto by (split; [exact Hn|apply digits_fuel_enough, Hn]).
  reflexivity.
Qed.

(** Reading back what [str] writes. *)
Lemma int_str (n : Z) : int (str n) = Some n.
Proof.
  unfold str. destruct (Z.ltb_spec n 0); [|now apply int_digits_text].
  pose proof (int_digits_text (- n) ltac:(lia)) as H0.
  unfold int in *.
  assert (Hd : strip (digits (- n)) = digits (- n)).
  { apply strip_no_space. intros c Hc. unfold digits in Hc.
    apply digits_onto_chars in Hc; [|lia].
    destruct Hc as [Hc|[]]. now apply isdigit_not_space. }
  assert (Hs : strip (String "-"%char (digits (- n)))
               = String "-"%char (digits (- n))).
  { apply strip_no_space. intros c [<-|Hc]; [reflexivity|].
    unfold digits in Hc. apply digits_onto_chars in Hc; [|lia].
    destruct Hc as [Hc|[]]. now apply isdigit_not_space. }
  rewrite Hs. rewrite Hd in H0.
  unfold digits in *.
  destruct (digits_onto_head (Z.to_nat (Z.log2 (- n))) (- n) EmptyString)
    as (c & r & E).
  assert (Hc : isdigit c = true).
  { destruct (digits_onto_chars (S (Z.to_nat (Z.log2 (- n)))) (- n)
                EmptyString c ltac:(lia)) as [Hc|[]]; [|exact Hc].
    rewrite E. left. reflexivity. }
  rewrite E in H0. rewrite (isdigit_not_sign c r Hc) in H0.
  rewrite E, H0. cbn. f_equal. lia.
Qed.

End FormatFacts.

Section LinkFacts.

Import PyStr PyFormat Links.
Local Open Scope string_scope.

Lemma append_inv_head (p x y : string) : p ++ x = p ++ y -> x = y.
Proof.
  induction p as [|c p IH]; cbn [append]; intros H; [exact H|].
  injection H as H. apply IH, H.
Qed.

Lemma append_assoc' (x y z : string) : (x ++ y) ++ z = x ++ (y ++ z).
Proof.
  induction x as [|c x IH]; cbn [append]; [reflexivity|]. now rewrite IH.
Qed.

(** Two texts made of number characters, each followed by a character that
    is not one, are equal when what they start is equal. *)
Lemma number_prefix_unique (P : ascii -> bool) (s t r r' : string) (q q' : ascii) :
  (forall c, In c (list_ascii_of_string s) -> P c = true) ->
  (forall c, In c (list_ascii_of_string t) -> P c = true) ->
  P q = false -> P q' = false ->
  s ++ String q r = t ++ String q' r' -> s = t.
Proof.
  revert t. induction s as [|c s IH]; intros [|d t] Hs Ht Hq Hq' E;
    cbn [append] in E.
  - reflexivity.
  - injection E as E _. subst q.
    rewrite (Ht d (or_introl eq_refl)) in Hq. discriminate.
  - injection E as E _. subst q'.
    rewrite (Hs c (or_introl eq_refl)) in Hq'. discriminate.
  - injection E as -> E. f_equal.
    apply IH with (t := t); try assumption.
    + intros c Hc. apply Hs. right. exact Hc.
    + intros c Hc. apply Ht. right. exact Hc.
Qed.

Lemma str_chars (n : Z) (c : ascii) :
  In c (list_ascii_of_string (str n)) ->
  isdigit c || Ascii.eqb c "-"%char = true.
Proof.
  unfold str, digits. destruct (Z.ltb_spec n 0); intros Hc.
  - destruct Hc as [<-|Hc]; [reflexivity|].
    apply digits_onto_chars in Hc; [|lia].
    destruct Hc as [Hc|[]]. now rewrite Hc.
  - apply digits_onto_chars in Hc; [|lia].
    destruct Hc as [Hc|[]]. now rewrite Hc.
Qed.

(** X1. [pg_org_link] writes the identifier in decimal, and two
    organisations have the same link only if they have the same
    identifier. *)
Theorem links_tell_organisations_apart :
  forall n m : Z, pg_org_link n = pg_org_link m <-> n = m.
Proof.
  intros n m. split; [|now intros ->].
  unfold pg_org_link. intros H.
  apply append_inv_head in H. apply append_inv_head in H.
  rewrite !append_assoc' in H. apply append_inv_head in H.
  assert (E : str n = str m).
  { unfold dq in H. cbn [append] in H.
    eapply (number_prefix_unique
              (fun c => isdigit c || Ascii.eqb c "-"%char));
      [apply str_chars|apply str_chars| | |exact H]; reflexivity. }
  pose proof (int_str n) as Hn. rewrite E, int_str in Hn. congruence.
Qed.

End LinkFacts.

(** ** More on the candidate search *)

Section SearchMore.

Import Helpers IndividualSearch Sample.
Local Open Scope string_scope.

(** The identifier branch of [fetch_org_candidates]. *)
Lemma fetch_by_id (client : Store) (query : string) (n : Z) :
  PyStr.int query = Some n ->
  fetch_org_candidates client (Some query)
  = (data <- orgs_by_id client n ;; Ok (data_or_empty data)).
Proof.
  intros Hn. unfold fetch_org_candidates. cbn [PyStr.or_empty].
  rewrite (int_not_empty query n Hn). cbn [negb].
  unfold is_int. rewrite int_strip, Hn. reflexivity.
Qed.

(** X2. An identifier written out in decimal, as the link and the labels
    write it, reads back as the same integer, so searching for that text is
    the identifier lookup for it. *)
Theorem printed_id_is_looked_up :
  forall (client : Store) (n : Z),
    PyStr.int (PyFormat.str n) = Some n
    /\ is_int (PyFormat.str n) = true
    /\ fetch_org_candidates client (Some (PyFormat.str n))
       = (data <- orgs_by_id client n ;; Ok (data_or_empty data)).
Proof.
  intros client n. pose proof (int_str n) as H.
  split; [exact H|]. split.
  - unfold is_int. now rewrite H.
  - apply fetch_by_id, H.
Qed.

Lemma lstrip_keeps (s : string) (c : ascii) :
  In c (list_ascii_of_string s) -> PyStr.isspace c = false ->
  In c (list_ascii_of_string (PyStr.lstrip s)).
Proof.
  induction s as [|d s IH]; intros Hc Hs; [exact Hc|].
  cbn [PyStr.lstrip]. destruct (PyStr.isspace d) eqn:E; [|exact Hc].
  destruct Hc as [<-|Hc]; [congruence|]. now apply IH.
Qed.

Lemma rstrip_keeps (s : string) (c : ascii) :
  In c (list_ascii_of_string s) -> PyStr.isspace c = false ->
  In c (list_ascii_of_string (PyStr.rstrip s)).
Proof.
  induction s as [|d s IH]; intros Hc Hs; [exact Hc|].
  rewrite rstrip_cons. destruct Hc as [<-|Hc].
  - destruct (PyStr.rstrip s); [rewrite Hs|]; left; reflexivity.
  - specialize (IH Hc Hs). destruct (PyStr.rstrip s); [destruct IH|].
    right. exact IH.
Qed.

Lemma int_digits_bad (c : ascii) (r : string) :
  In c (list_ascii_of_string r) ->
  PyStr.isdigit c = false -> c <> "_"%char ->
  forall acc prev, PyStr.int_digits acc prev r = None.
Proof.
  intros Hc Hd Hu. induction r as [|d r IH]; [destruct Hc|].
  intros acc prev. cbn [PyStr.int_digits].
  destruct Hc as [->|Hc].
  - rewrite Hd. destruct (Ascii.eqb_spec c "_"%char); [contradiction|reflexivity].
  - destruct (PyStr.isdigit d); [apply IH, Hc|].
    destruct (Ascii.eqb d "_"%char); [|reflexivity].
    destruct prev; [apply IH, Hc|reflexivity].
Qed.

Lemma int_bad (c : ascii) (s : string) :
  In c (list_ascii_of_string (PyStr.strip s)) ->
  PyStr.isdigit c = false ->
  c <> "_"%char -> c <> "+"%char -> c <> "-"%char ->
  PyStr.int s = None.
Proof.
  intros Hc Hd Hu Hp Hm. unfold PyStr.int.
  destruct (PyStr.strip s) as [|d r]; [destruct Hc|].
  destruct (Ascii.eqb_spec d "+"%char) as [->|Np].
  - destruct Hc as [E|Hc]; [congruence|].
    exact (int_digits_bad c r Hc Hd Hu 0%Z false).
  - destruct (Ascii.eqb_spec d "-"%char) as [->|Nm].
    + destruct Hc as [E|Hc]; [congruence|].
      change (option_map Z.opp (PyStr.int_digits 0 false r) = None).
      rewrite (int_digits_bad c r Hc Hd Hu). reflexivity.
    + pose proof (int_digits_bad c (String d r) Hc Hd Hu 0%Z false) as H.
      clear Hc. revert H.
      destruct d as [[] [] [] [] [] [] [] []]; intros H;
        try exact H; exfalso; (apply Np; reflexivity) || (apply Nm; reflexivity).
Qed.

(** X3. A query that holds a character other than a digit, an underscore,
    a sign or white space (a letter, say) is never taken for an identifier:
    it goes to the name search. *)
Theorem query_with_a_letter_is_a_name_query :
  forall (client : Store) (query : string) (c : ascii),
    In c (list_ascii_of_string query) ->
    PyStr.isdigit c = false -> PyStr.isspace c = false ->
    c <> "_"%char -> c <> "+"%char -> c <> "-"%char ->
    is_int query = false
    /\ fetch_org_candidates client (Some query)
       = (data <- orgs_by_name client ("%" ++ PyStr.strip query ++ "%") 200 ;;
          Ok (sort_rows (PyStr.strip query) (data_or_empty data))).
Proof.
  intros client query c Hc Hd Hs Hu Hp Hm.
  assert (Hin : In c (list_ascii_of_string (PyStr.strip query))).
  { unfold PyStr.strip. apply rstrip_keeps; [|exact Hs].
    apply lstrip_keeps; assumption. }
  assert (Hi : PyStr.int query = None) by now apply int_bad with c.
  split; [unfold is_int; now rewrite Hi|].
  apply fetch_by_name.
  - intros E. rewrite E in Hin. destruct Hin.
  - unfold is_int. rewrite int_strip, Hi. reflexivity.
Qed.

Lemma query_with_a_letter_is_a_name_query_witness :
  In "C"%char (list_ascii_of_string "Canes 12")
  /\ is_int "Canes 12" = false.
Proof.
  split; [left; reflexivity|].
  refine (proj1 (query_with_a_letter_is_a_name_query (store_of [])
                   "Canes 12" "C"%char _ _ _ _ _ _));
    try reflexivity; try discriminate.
  left. reflexivity.
Defined.

(** X4. The search page strips the query before it calls
    [fetch_org_candidates], which strips it again: the second stripping
    changes nothing, and the call answers the stripped text as it answers
    the text typed. *)
Theorem stripping_twice_is_harmless :
  forall (client : Store) (q : string),
    PyStr.strip (PyStr.strip q) = PyStr.strip q
    /\ fetch_org_candidates client (Some (PyStr.strip q))
       = fetch_org_candidates client (Some q)
    /\ fetch_org_candidates client None
       = fetch_org_candidates client (Some "").
Proof.
  intros client q. split; [apply strip_idem|]. split; [|reflexivity].
  unfold fetch_org_candidates. cbn [PyStr.or_empty].
  rewrite strip_idem. reflexivity.
Qed.

(** X5. For a query that is not blank the call makes one query to the
    store and passes its failure on: it raises exactly when that query
    raises, with the same exception, and it returns the empty list exactly
    when the store's answer holds no row. A failure is never turned into
    "no results". *)
Theorem store_failure_is_passed_on :
  forall (client : Store) (query : string),
    PyStr.strip query <> "" ->
    exists answer : outcome (option (list org)),
      (answer = match PyStr.int query with
                | Some n => orgs_by_id client n
                | None =>
                    orgs_by_name client ("%" ++ PyStr.strip query ++ "%") 200
                end)
      /\ (forall e : exn,
             fetch_org_candidates client (Some query) = Raised e
             <-> answer = Raised e)
      /\ (fetch_org_candidates client (Some query) = Ok []
          <-> exists data, answer = Ok data /\ data_or_empty data = []).
Proof.
  intros client query Hne. eexists. split; [reflexivity|].
  destruct (PyStr.int query) as [n|] eqn:Hi.
  - rewrite (fetch_by_id client query n Hi).
    destruct (orgs_by_id client n) as [data| |e]; cbn [bind]; split.
    + intros e. split; discriminate.
    + split.
      * intros H. injection H as H. now exists data.
      * intros (d & E & H). injection E as <-. now rewrite H.
    + intros e. split; discriminate.
    + split; [discriminate|]. intros (d & E & _). discriminate.
    + intros e'. split; intros H; injection H as ->; reflexivity.
    + split; [discriminate|]. intros (d & E & _). discriminate.
  - rewrite (fetch_by_name client query Hne)
      by (unfold is_int; now rewrite int_strip, Hi).
    destruct (orgs_by_name client ("%" ++ PyStr.strip query ++ "%") 200)
      as [data| |e]; cbn [bind]; split.
    + intros e. split; discriminate.
    + split.
      * intros H. injection H as H. exists data. split; [reflexivity|].
        pose proof (sort_length
                      (fun x y => key_ltb (sort_key (PyStr.strip query) x)
                                    (sort_key (PyStr.strip query) y))
                      (data_or_empty data)) as L.
        unfold sort_rows in H. rewrite H in L.
        destruct (data_or_empty data); [reflexivity|discriminate].
      * intros (d & E & H). injection E as <-. now rewrite H.
    + intros e. split; discriminate.
    + split; [discriminate|]. intros (d & E & _). discriminate.
    + intros e'. split; intros H; injection H as ->; reflexivity.
    + split; [discriminate|]. intros (d & E & _). discriminate.
Qed.

Lemma store_failure_is_passed_on_witness :
  PyStr.strip " Canes " <> ""
  /\ fetch_org_candidates store_down (Some " Canes ") = Raised StoreError.
Proof.
  assert (H : PyStr.strip " Canes " <> "") by discriminate.
  split; [exact H|].
  destruct (store_failure_is_passed_on store_down " Canes " H)
    as (answer & E & Hfail & _).
  apply Hfail. rewrite E. reflexivity.
Defined.

End SearchMore.

(** ** Chunks *)

Section ChunkFacts.

Import PyList Chunks Pagination.
Local Open Scope Z_scope.

Variable T : Type.
Variable lst : list T.
Variable n : Z.
Hypothesis n_pos : 0 < n.

Lemma chunk_slice (i : Z) :
  0 <= i < len lst ->
  slice lst i (i + n) = firstn (Z.to_nat n) (skipn (Z.to_nat i) lst)
  /\ len (slice lst i (i + n)) = Z.min n (len lst - i).
Proof.
  intros Hi. unfold slice, adjust.
  destruct (Z.ltb_spec i 0); [lia|].
  destruct (Z.ltb_spec (i + n) 0); [lia|].
  rewrite (Z.min_l i) by lia.
  assert (Hlen : List.length (skipn (Z.to_nat i) lst)
                 = Z.to_nat (len lst - i)).
  { rewrite length_skipn. unfold len. lia. }
  destruct (Z.le_ge_cases (i + n) (len lst)) as [Hle|Hge].
  - rewrite Z.min_l by lia. replace (i + n - i) with n by lia.
    split; [reflexivity|].
    unfold len at 1. rewrite length_firstn, Hlen. lia.
  - rewrite Z.min_r by lia.
    rewrite (firstn_all2 (n := Z.to_nat (len lst - i))) by lia.
    rewrite (firstn_all2 (n := Z.to_nat n)) by lia.
    split; [reflexivity|].
    unfold len at 1. rewrite Hlen. lia.
Qed.

(** The chunks cut from position [i] on. *)
Lemma chunks_from (fuel : nat) :
  forall i : Z,
    0 <= i -> i < len lst + n -> len lst - i <= Z.of_nat fuel ->
    let cs := map (fun j => slice lst j (j + n))
                (range_from fuel i (len lst) n) in
    List.concat cs = skipn (Z.to_nat i) lst
    /\ Forall (fun c => 1 <= len c <= n) cs
    /\ len cs = (len lst - i + n - 1) / n
    /\ (forall k : nat, (S k < List.length cs)%nat -> len (nth k cs []) = n).
Proof.
  induction fuel as [|fuel IH]; intros i Hi0 Hi1 Hf; cbn [range_from].
  - cbn [map List.concat]. cbv zeta. split; [|split; [|split]].
    + symmetry. apply skipn_all2. unfold len in Hf. lia.
    + constructor.
    + symmetry. apply Z.div_small. lia.
    + intros k Hk. cbn in Hk. lia.
  - destruct (Z.ltb_spec i (len lst)) as [Hlt|Hge].
    + destruct (chunk_slice i ltac:(lia)) as [Es El].
      specialize (IH (i + n) ltac:(lia) ltac:(lia) ltac:(lia)).
      cbv zeta in IH. destruct IH as (I1 & I2 & I3 & I4).
      cbn [map List.concat]. cbv zeta. split; [|split; [|split]].
      * rewrite I1, Es.
        replace (Z.to_nat (i + n)) with (Z.to_nat n + Z.to_nat i)%nat by lia.
        rewrite <- skipn_skipn. apply firstn_skipn.
      * constructor; [lia|exact I2].
      * unfold len at 1. cbn [List.length].
        unfold len at 1 in I3.
        replace (len lst - i + n - 1) with (len lst - (i + n) + n - 1 + 1 * n)
          by lia.
        rewrite Z.div_add by lia. lia.
      * intros [|k] Hk; cbn [nth List.length] in *.
        -- rewrite El.
           destruct (range_from fuel (i + n) (len lst) n) as [|j r] eqn:Er;
             [cbn in Hk; lia|].
           destruct fuel as [|fuel']; [discriminate|].
           cbn [range_from] in Er.
           destruct (Z.ltb_spec (i + n) (len lst)); [lia|discriminate].
        -- apply I4. lia.
    + cbn [map List.concat]. cbv zeta. split; [|split; [|split]].
      * symmetry. apply skipn_all2. unfold len in Hge. lia.
      * constructor.
      * symmetry. apply Z.div_small. lia.
      * intros k Hk. cbn in Hk. lia.
Qed.

End ChunkFacts.

Section ChunkClaims.

Import PyList Chunks Pagination.
Local Open Scope Z_scope.

Lemma chunked_positive (T : Type) (lst : list T) (n : Z) :
  0 < n ->
  exists chunks : list (list T),
    chunked lst n = Ok chunks
    /\ List.concat chunks = lst
    /\ Forall (fun c => 1 <= len c <= n) chunks
    /\ len chunks = ceil_quot (len lst) n
    /\ (forall k : nat,
           (S k < List.length chunks)%nat -> len (nth k chunks []) = n).
Proof.
  intros Hn. unfold chunked.
  destruct (Z.eqb_spec n 0); [lia|].
  destruct (Z.ltb_spec n 0); [lia|].
  eexists. split; [reflexivity|].
  pose proof (chunks_from T lst n Hn (List.length lst) 0) as Hc.
  cbv zeta in Hc.
  destruct Hc as (H1 & H2 & H3 & H4);
    [lia|unfold len; lia|unfold len; lia|].
  split; [exact H1|]. split; [exact H2|]. split; [|exact H4].
  rewrite H3, ceil_quot_formula by lia. f_equal. lia.
Qed.

(** X6. [chunked(lst, n)] with a positive [n] cuts the list into
    [ceil(len / n)] consecutive chunks: put back together they are the list,
    none is empty or longer than [n], and all but the last hold exactly [n]
    elements. With [n = 0] the call raises [ValueError]; with a negative [n]
    it yields nothing, whatever the list holds. *)
Theorem chunked_cuts_the_list :
  forall (T : Type) (lst : list T) (n : Z),
    (n = 0 -> chunked lst n = Raised ValueError)
    /\ (n < 0 -> chunked lst n = Ok [])
    /\ (0 < n ->
        exists chunks : list (list T),
          chunked lst n = Ok chunks
          /\ List.concat chunks = lst
          /\ Forall (fun c => 1 <= len c <= n) chunks
          /\ len chunks = ceil_quot (len lst) n
          /\ (forall k : nat,
                 (S k < List.length chunks)%nat ->
                 len (nth k chunks []) = n)).
Proof.
  intros T lst n. split; [|split].
  - intros ->. reflexivity.
  - intros Hn. unfold chunked.
    destruct (Z.eqb_spec n 0); [lia|].
    destruct (Z.ltb_spec n 0); [reflexivity|lia].
  - apply chunked_positive.
Qed.

Lemma chunked_cuts_the_list_witness :
  0 < 2
  /\ exists chunks : list (list Z),
       chunked [1; 2; 3; 4; 5] 2 = Ok chunks
       /\ List.concat chunks = [1; 2; 3; 4; 5]
       /\ Forall (fun c => 1 <= len c <= 2) chunks
       /\ len chunks = ceil_quot (len [1; 2; 3; 4; 5]) 2
       /\ (forall k : nat,
              (S k < List.length chunks)%nat -> len (nth k chunks []) = 2).
Proof.
  split; [reflexivity|].
  exact (proj2 (proj2 (chunked_cuts_the_list Z [1; 2; 3; 4; 5] 2)) eq_refl).
Defined.

End ChunkClaims.

(** ** The queries of [app.py] *)

Section IdSetFacts.

Import AppQueries.
Local Open Scope Z_scope.

Lemma zltb_asym (x y : Z) : Z.ltb x y = true -> Z.ltb y x = false.
Proof. rewrite Z.ltb_lt, Z.ltb_ge. lia. Qed.

Lemma zltb_not_after_trans (x y z : Z) :
  PySort.not_after Z.ltb x y -> PySort.not_after Z.ltb y z ->
  PySort.not_after Z.ltb x z.
Proof. unfold PySort.not_after. rewrite !Z.ltb_ge. lia. Qed.

Lemma id_set_in (rows : list (option Z)) :
  forall seen n,
    In n (id_set seen rows) <-> (In (Some n) rows /\ ~ In n seen).
Proof.
  induction rows as [|[m|] rows IH]; intros seen n; cbn [id_set].
  - cbn. tauto.
  - destruct (existsb (Z.eqb m) seen) eqn:E.
    + apply existsb_exists in E as (x & Hx & Ex). apply Z.eqb_eq in Ex. subst x.
      rewrite IH. cbn [In]. split; [tauto|].
      intros [[H|H] Hn]; [|tauto]. injection H as ->. contradiction.
    + assert (Hm : ~ In m seen).
      { intros H. assert (existsb (Z.eqb m) seen = true); [|congruence].
        apply existsb_exists. exists m. split; [exact H|apply Z.eqb_refl]. }
      cbn [In]. rewrite IH. cbn [In].
      destruct (Z.eq_dec m n) as [->|N].
      * tauto.
      * split.
        -- intros [H|[H1 H2]]; [contradiction|tauto].
        -- intros [[H|H] Hn]; [injection H as H; contradiction|].
           right. split; [exact H|]. intros [H'|H']; [contradiction|tauto].
  - rewrite IH. cbn [In]. split; [tauto|].
    intros [[H|H] Hn]; [discriminate|tauto].
Qed.

Lemma id_set_nodup (rows : list (option Z)) :
  forall seen, NoDup (id_set seen rows).
Proof.
  induction rows as [|[m|] rows IH]; intros seen; cbn [id_set].
  - constructor.
  - destruct (existsb (Z.eqb m) seen); [apply IH|].
    constructor; [|apply IH]. rewrite id_set_in. cbn [In]. tauto.
  - apply IH.
Qed.

(** Sorting integers that are all different gives a strictly ascending
    list. *)
Lemma sort_ids_strict (l : list Z) :
  NoDup l -> StronglySorted Z.lt (PySort.sort Z.ltb l).
Proof.
  intros Hnd.
  assert (Hnd' : NoDup (PySort.sort Z.ltb l)).
  { eapply Permutation_NoDup; [apply sort_perm|exact Hnd]. }
  pose proof (sort_sorted zltb_asym zltb_not_after_trans l) as Hs.
  induction Hs as [|x r Hs IH Hx]; [constructor|].
  inversion Hnd' as [|? ? Hnin Hnd'']; subst.
  constructor; [apply IH, Hnd''|].
  rewrite Forall_forall in *. intros z Hz.
  specialize (Hx z Hz). unfold PySort.not_after in Hx.
  apply Z.ltb_ge in Hx.
  destruct (Z.eq_dec x z) as [->|N]; [contradiction|lia].
Qed.

Lemma fetch_ids_ok (client : Store) (rep_id : Z)
    (data : option (list (option Z))) :
  assignments client rep_id = Ok data ->
  exists ids : list Z,
    fetch_org_ids_for_rep client rep_id = Ok ids
    /\ StronglySorted Z.lt ids
    /\ (forall n : Z,
           In n ids <-> In (Some n) (IndividualSearch.data_or_empty data))
    /\ (forall l : list Z,
           NoDup l ->
           (forall n : Z,
               In n l <-> In (Some n) (IndividualSearch.data_or_empty data)) ->
           PySort.sort Z.ltb l = ids).
Proof.
  intros Hd. unfold fetch_org_ids_for_rep. rewrite Hd. cbn [bind].
  set (rows := IndividualSearch.data_or_empty data).
  eexists. split; [reflexivity|].
  assert (Hin : forall n, In n (PySort.sort Z.ltb (id_set [] rows))
                          <-> In (Some n) rows).
  { intros n. rewrite sort_in, id_set_in. cbn [In]. tauto. }
  split; [apply sort_ids_strict, id_set_nodup|]. split; [exact Hin|].
  intros l Hnd Hl.
  apply (@sorted_perm_unique Z Z.ltb).
  - intros x y _ _ Ht. unfold PySort.tie in Ht.
    apply andb_true_iff in Ht as [H1 H2].
    apply negb_true_iff in H1, H2. apply Z.ltb_ge in H1, H2. lia.
  - apply (sort_sorted zltb_asym zltb_not_after_trans).
  - apply (sort_sorted zltb_asym zltb_not_after_trans).
  - eapply Permutation_trans; [apply Permutation_sym, sort_perm|].
    eapply Permutation_trans; [|apply sort_perm].
    apply NoDup_Permutation; [exact Hnd|apply id_set_nodup|].
    intros n. rewrite Hl, id_set_in. cbn [In]. tauto.
Qed.

(** X7. [fetch_org_ids_for_rep] returns, in strictly ascending order and
    without repetition, exactly the identifiers the person's assignment
    rows hold (a row with a null [org_id] is skipped); the order in which
    the set comprehension lists its elements does not matter; and a store
    failure is passed on. *)
Theorem assigned_ids_are_a_sorted_set :
  forall (client : Store) (rep_id : Z),
    (forall data : option (list (option Z)),
        assignments client rep_id = Ok data ->
        exists ids : list Z,
          fetch_org_ids_for_rep client rep_id = Ok ids
          /\ StronglySorted Z.lt ids
          /\ (forall n : Z,
                 In n ids
                 <-> In (Some n) (IndividualSearch.data_or_empty data))
          /\ (forall l : list Z,
                 NoDup l ->
                 (forall n : Z,
                     In n l
                     <-> In (Some n) (IndividualSearch.data_or_empty data)) ->
                 PySort.sort Z.ltb l = ids))
    /\ (forall e : exn,
           assignments client rep_id = Raised e ->
           fetch_org_ids_for_rep client rep_id = Raised e).
Proof.
  intros client rep_id. split.
  - intros data Hd. now apply fetch_ids_ok.
  - intros e He. unfold fetch_org_ids_for_rep. rewrite He. reflexivity.
Qed.

Lemma assigned_ids_are_a_sorted_set_witness :
  assignments
    (table_store [] [(7, Some 30); (7, None); (8, Some 5); (7, Some 12);
                     (7, Some 30)]) 7
  = Ok (Some [Some 30; None; Some 12; Some 30])
  /\ exists ids : list Z,
       fetch_org_ids_for_rep
         (table_store [] [(7, Some 30); (7, None); (8, Some 5); (7, Some 12);
                          (7, Some 30)]) 7 = Ok ids
       /\ StronglySorted Z.lt ids.
Proof.
  split; [reflexivity|].
  destruct (proj1 (assigned_ids_are_a_sorted_set
                     (table_store [] [(7, Some 30); (7, None); (8, Some 5);
                                      (7, Some 12); (7, Some 30)]) 7)
              _ eq_refl) as (ids & E & Hs & _).
  exists ids. split; [exact E|exact Hs].
Defined.

End IdSetFacts.

Section DetailsFacts.

Import AppQueries.
Local Open Scope Z_scope.

Local Abbreviation oid := IndividualSearch.organization_id.
Local Abbreviation oname :=
  (fun o : org => PyStr.or_empty (IndividualSearch.organization_name o)).
Local Abbreviation row_ltb :=
  (fun x y : org => details_ltb (details_key x) (details_key y)).

Lemma details_key_id (o : org) : snd (details_key o) = oid o.
Proof.
  unfold details_key. cbn [snd].
  destruct (Z.eqb_spec (oid o) 0) as [E|E]; [now rewrite E|reflexivity].
Qed.

Lemma ltb_trans (x y z : string) :
  PyStr.ltb x y = true -> PyStr.ltb y z = true -> PyStr.ltb x z = true.
Proof.
  intros Hxy Hyz. destruct (PyStr.ltb x z) eqn:E; [reflexivity|exfalso].
  pose proof (@ltb_asym x y Hxy) as Hyx.
  pose proof (@ltb_not_after_trans z x y E Hyx) as H.
  congruence.
Qed.

Lemma row_not_after_before (x y : org) :
  PySort.not_after row_ltb x y <-> details_before x y.
Proof.
  unfold PySort.not_after, details_ltb, details_before. cbv zeta.
  rewrite !details_key_id. unfold details_key. cbn [fst].
  destruct (String.eqb_spec (oname y) (oname x)) as [E|N]; cbn [negb].
  - rewrite Z.ltb_ge. rewrite E. rewrite ltb_irrefl. split.
    + intros H. right. split; [reflexivity|exact H].
    + intros [H|[_ H]]; [discriminate|exact H].
  - split.
    + intros H. left.
      destruct (PyStr.ltb (oname x) (oname y)) eqn:E; [reflexivity|].
      exfalso. apply N. symmetry. apply ltb_total; assumption.
    + intros [H|[H _]]; [apply ltb_asym, H|congruence].
Qed.

Lemma details_before_trans (x y z : org) :
  details_before x y -> details_before y z -> details_before x z.
Proof.
  unfold details_before. cbv zeta.
  intros [H|[H1 H2]] [H'|[H1' H2']].
  - left. eapply ltb_trans; eassumption.
  - left. now rewrite <- H1'.
  - left. now rewrite H1.
  - right. split; [congruence|lia].
Qed.

Lemma details_ltb_asym (x y : org) : row_ltb x y = true -> row_ltb y x = false.
Proof.
  intros H. apply row_not_after_before.
  unfold details_ltb, details_key in H. cbn [fst snd] in H.
  unfold details_before. cbv zeta.
  destruct (String.eqb_spec (oname x) (oname y)) as [E|N]; cbn [negb] in H.
  - right. split; [exact E|].
    destruct (Z.eqb_spec (oid x) 0) as [Ex|Ex];
      destruct (Z.eqb_spec (oid y) 0) as [Ey|Ey];
      apply Z.ltb_lt in H; lia.
  - left. exact H.
Qed.

Lemma details_not_after_trans (x y z : org) :
  PySort.not_after row_ltb x y -> PySort.not_after row_ltb y z ->
  PySort.not_after row_ltb x z.
Proof. rewrite !row_not_after_before. apply details_before_trans. Qed.

Lemma sort_details_sorted (out : list org) :
  StronglySorted details_before (PySort.sort row_ltb out).
Proof.
  pose proof (sort_sorted details_ltb_asym details_not_after_trans out) as H.
  induction H as [|x l Hs IH Hx]; constructor; [exact IH|].
  rewrite Forall_forall in *. intros y Hy.
  apply row_not_after_before, Hx, Hy.
Qed.

(** A batch the store answers. *)
Local Abbreviation answered :=
  (fun (client : Store) (batch : list Z) =>
     exists data, orgs_in client batch = Ok data).

Lemma extend_batches_ok (client : Store) (batches : list (list Z)) :
  forall out0 out,
    extend_batches client batches out0 = Ok out
    <-> (Forall (answered client) batches
         /\ out = (out0 ++ answers client batches)%list).
Proof.
  induction batches as [|b bs IH]; intros out0 out; cbn [extend_batches].
  - unfold answers. cbn [flat_map]. rewrite app_nil_r. split.
    + intros H. injection H as <-. split; [constructor|reflexivity].
    + intros [_ ->]. reflexivity.
  - unfold answers. cbn [flat_map]. fold (answers client bs).
    destruct (orgs_in client b) as [data| |e] eqn:E; cbn [bind].
    + rewrite IH, <- app_assoc. split.
      * intros [H1 H2]. split; [|exact H2].
        constructor; [now exists data|exact H1].
      * intros [H1 H2]. inversion H1; subst. split; [assumption|reflexivity].
    + split; [discriminate|]. intros [H _]. inversion H as [|? ? [d Hd] _].
      congruence.
    + split; [discriminate|]. intros [H _]. inversion H as [|? ? [d Hd] _].
      congruence.
Qed.

Lemma extend_batches_fail (client : Store) (pre : list (list Z)) :
  forall (b : list Z) (post : list (list Z)) (e : exn) (out0 : list org),
    Forall (answered client) pre ->
    orgs_in client b = Raised e ->
    extend_batches client (pre ++ b :: post) out0 = Raised e.
Proof.
  induction pre as [|p pre IH]; intros b post e out0 Hpre Hb;
    cbn [app extend_batches].
  - rewrite Hb. reflexivity.
  - inversion Hpre as [|? ? [d Hd] Hpre']; subst. rewrite Hd. cbn [bind].
    apply IH; assumption.
Qed.

Lemma fetch_details_batches (client : Store) (org_ids : list Z) :
  org_ids <> [] ->
  exists batches : list (list Z),
    List.concat batches = org_ids
    /\ Forall (fun b => 1 <= PyList.len b <= 200) batches
    /\ (forall rows : list org,
           fetch_org_details client org_ids = Ok rows ->
           Forall (answered client) batches
           /\ Permutation (answers client batches) rows
           /\ StronglySorted details_before rows)
    /\ (Forall (answered client) batches ->
        exists rows, fetch_org_details client org_ids = Ok rows)
    /\ (forall (pre : list (list Z)) (b : list Z)
               (post : list (list Z)) (e : exn),
           batches = (pre ++ b :: post)%list ->
           Forall (answered client) pre ->
           orgs_in client b = Raised e ->
           fetch_org_details client org_ids = Raised e).
Proof.
  intros Hne.
  destruct (chunked_positive Z org_ids 200 eq_refl)
    as (batches & Ec & Hcat & Hlen & _).
  exists batches. split; [exact Hcat|]. split; [exact Hlen|].
  assert (Ef : fetch_org_details client org_ids
               = (out <- extend_batches client batches [] ;;
                  Ok (PySort.sort row_ltb out))).
  { unfold fetch_org_details. destruct org_ids; [congruence|].
    rewrite Ec. reflexivity. }
  split; [|split].
  - intros rows Hrows. rewrite Ef in Hrows.
    destruct (extend_batches client batches []) as [out| |e] eqn:Eo;
      cbn [bind] in Hrows; try discriminate.
    injection Hrows as <-.
    apply extend_batches_ok in Eo as [Ha ->]. cbn [app].
    split; [exact Ha|]. split; [apply sort_perm|apply sort_details_sorted].
  - intros Ha. rewrite Ef.
    rewrite (proj2 (extend_batches_ok client batches [] _)
               (conj Ha eq_refl)).
    cbn [bind]. eauto.
  - intros pre b post e -> Hpre Hb. rewrite Ef.
    rewrite (extend_batches_fail client pre b post e [] Hpre Hb).
    reflexivity.
Qed.

(** X8. [fetch_org_details] asks nothing for an empty list of
    identifiers. Otherwise it cuts the identifiers into consecutive batches
    of at most 200 and asks the store once per batch; it returns exactly
    when every batch is answered, with all the rows of the answers, sorted
    by name (a missing name counts as the empty text) and then by
    identifier; and the first batch that raises makes the call raise the
    same exception, the rows fetched before being dropped. *)
Theorem details_are_the_sorted_answers :
  forall client : Store,
    fetch_org_details client [] = Ok []
    /\ forall org_ids : list Z,
         org_ids <> [] ->
         exists batches : list (list Z),
           List.concat batches = org_ids
           /\ Forall (fun b => 1 <= PyList.len b <= 200) batches
           /\ (forall rows : list org,
                  fetch_org_details client org_ids = Ok rows ->
                  Forall (answered client) batches
                  /\ Permutation (answers client batches) rows
                  /\ StronglySorted details_before rows)
           /\ (Forall (answered client) batches ->
               exists rows, fetch_org_details client org_ids = Ok rows)
           /\ (forall (pre : list (list Z)) (b : list Z)
                      (post : list (list Z)) (e : exn),
                  batches = (pre ++ b :: post)%list ->
                  Forall (answered client) pre ->
                  orgs_in client b = Raised e ->
                  fetch_org_details client org_ids = Raised e).
Proof.
  intros client. split; [reflexivity|].
  intros org_ids Hne. now apply fetch_details_batches.
Qed.

Lemma details_are_the_sorted_answers_witness :
  [30; 12] <> []
  /\ exists batches : list (list Z),
       List.concat batches = [30; 12]
       /\ Forall (fun b => 1 <= PyList.len b <= 200) batches
       /\ (Forall (answered
                    (table_store [Sample.named 12 "Canes"; Sample.named 30 "Bats"]
                       [])) batches ->
           exists rows,
             fetch_org_details
               (table_store [Sample.named 12 "Canes"; Sample.named 30 "Bats"] [])
               [30; 12] = Ok rows).
Proof.
  assert (H : [30; 12] <> []) by discriminate.
  split; [exact H|].
  destruct (proj2 (details_are_the_sorted_answers
                     (table_store [Sample.named 12 "Canes";
                                   Sample.named 30 "Bats"] []))
              [30; 12] H) as (batches & H1 & H2 & _ & H4 & _).
  exists batches. split; [exact H1|]. split; [exact H2|exact H4].
Defined.

Lemma filter_disjoint_perm (A : Type) (p q : A -> bool) (l : list A) :
  (forall x, p x = true -> q x = true -> False) ->
  Permutation (filter p l ++ filter q l) (filter (fun x => p x || q x) l).
Proof.
  intros Hd. induction l as [|x l IH]; cbn [filter app]; [constructor|].
  destruct (p x) eqn:Ep, (q x) eqn:Eq; cbn [orb app].
  - exfalso. eapply Hd; eassumption.
  - apply perm_skip, IH.
  - eapply Permutation_trans; [apply Permutation_sym, Permutation_middle|].
    apply perm_skip, IH.
  - exact IH.
Qed.

Local Abbreviation in_batch :=
  (fun (batch : list Z) (o : org) => existsb (Z.eqb (oid o)) batch).

Lemma in_batch_spec (batch : list Z) (o : org) :
  in_batch batch o = true <-> In (oid o) batch.
Proof.
  rewrite existsb_exists. split.
  - intros (x & Hx & E). apply Z.eqb_eq in E. now rewrite E.
  - intros H. exists (oid o). split; [exact H|apply Z.eqb_refl].
Qed.

Lemma nodup_app_disjoint (A : Type) (l1 l2 : list A) (x : A) :
  NoDup (l1 ++ l2) -> In x l1 -> In x l2 -> False.
Proof.
  induction l1 as [|y l1 IH]; intros Hnd H1 H2; [destruct H1|].
  cbn [app] in Hnd. inversion Hnd as [|? ? Hy Hnd']; subst.
  destruct H1 as [->|H1]; [|now apply IH].
  apply Hy, in_or_app. now right.
Qed.

Lemma batches_answers_perm (orgs : list org) (batches : list (list Z)) :
  NoDup (List.concat batches) ->
  Permutation
    (flat_map (fun b => filter (in_batch b) orgs) batches)
    (filter (in_batch (List.concat batches)) orgs).
Proof.
  induction batches as [|b bs IH]; intros Hnd; cbn [flat_map List.concat].
  - induction orgs as [|o orgs IHo]; [constructor|exact IHo].
  - eapply Permutation_trans;
      [apply Permutation_app_head, IH;
       apply NoDup_app_remove_l with (l := b); exact Hnd|].
    eapply Permutation_trans; [apply filter_disjoint_perm|].
    + intros o Hp Hq. apply in_batch_spec in Hp, Hq.
      exact (nodup_app_disjoint Z b (List.concat bs) (oid o) Hnd Hp Hq).
    + erewrite filter_ext; [apply Permutation_refl|].
      intros o. cbv beta. now rewrite existsb_app.
Qed.

(** The page of a person, for a store that answers from a table. *)
Lemma assigned_orgs_rows :
  forall (client : Store) (orgs : list org) (cells : list (option Z))
         (rep_id : Z),
    assignments client rep_id = Ok (Some cells) ->
    (forall batch : list Z,
        orgs_in client batch = Ok (Some (filter (in_batch batch) orgs))) ->
    ((forall n : Z, ~ In (Some n) cells) ->
     assigned_orgs client rep_id = Stopped)
    /\ ((exists n : Z, In (Some n) cells) ->
        exists rows : list org,
          assigned_orgs client rep_id = Ok rows
          /\ StronglySorted details_before rows
          /\ Permutation rows
               (filter (fun o => existsb
                                   (fun c => match c with
                                             | Some n => n =? oid o
                                             | None => false
                                             end) cells) orgs)).
Proof.
  intros client orgs cells rep_id Ha Ho.
  destruct (fetch_ids_ok client rep_id _ Ha)
    as (ids & Eids & Hsorted & Hin & _).
  cbn [IndividualSearch.data_or_empty] in Hin.
  unfold assigned_orgs. rewrite Eids. cbn [bind].
  split.
  - intros Hnone. destruct ids as [|n ids]; [reflexivity|].
    exfalso. apply (Hnone n), Hin. left. reflexivity.
  - intros (n & Hn).
    assert (Hne : ids <> []).
    { intros ->. apply Hin in Hn. destruct Hn. }
    destruct (fetch_details_batches client ids Hne)
      as (batches & Hcat & _ & Hrows & Hok & _).
    assert (Hans : Forall (answered client) batches).
    { rewrite Forall_forall. intros b _. rewrite Ho. eauto. }
    destruct (Hok Hans) as (rows & Er).
    destruct (Hrows rows Er) as (_ & Hperm & Hs).
    assert (Hnd : NoDup ids).
    { clear -Hsorted. induction Hsorted as [|x l Hs IH Hx]; constructor;
        [|exact IH].
      rewrite Forall_forall in Hx. intros Hi. specialize (Hx x Hi). lia. }
    assert (Efilter : Permutation rows
              (filter (fun o => existsb
                                  (fun c => match c with
                                            | Some n => n =? oid o
                                            | None => false
                                            end) cells) orgs)).
    { eapply Permutation_trans; [apply Permutation_sym, Hperm|].
      unfold answers.
      erewrite flat_map_ext;
        [|intros b; rewrite Ho; cbn [IndividualSearch.data_or_empty];
          reflexivity].
      eapply Permutation_trans;
        [apply batches_answers_perm; rewrite Hcat; exact Hnd|].
      rewrite Hcat. erewrite filter_ext; [apply Permutation_refl|].
      intros o. cbv beta.
      destruct (existsb (Z.eqb (oid o)) ids) eqn:E1.
      - apply in_batch_spec, Hin in E1. symmetry.
        apply existsb_exists. exists (Some (oid o)).
        split; [exact E1|apply Z.eqb_refl].
      - symmetry. apply not_true_is_false. intros E2.
        apply existsb_exists in E2 as ([m|] & Hm & Em); [|discriminate].
        apply Z.eqb_eq in Em. subst m.
        apply Hin, in_batch_spec in Hm. congruence. }
    destruct ids as [|i0 ids']; [congruence|].
    exists rows. split; [exact Er|]. split; [exact Hs|exact Efilter].
Qed.

(** The rows of the table that a list of assignment cells names. *)
Lemma named_by_cells (orgs : list org) (cells : list (option Z)) (o : org) :
  In o (filter (fun o => existsb
                           (fun c => match c with
                                     | Some n => n =? oid o
                                     | None => false
                                     end) cells) orgs)
  <-> In o orgs /\ In (Some (oid o)) cells.
Proof.
  rewrite filter_In. split; intros [Hi1 Hi2]; (split; [exact Hi1|]).
  - apply existsb_exists in Hi2 as ([m|] & Hm & Em); [|discriminate].
    apply Z.eqb_eq in Em. now subst m.
  - apply existsb_exists. exists (Some (oid o)).
    split; [exact Hi2|apply Z.eqb_refl].
Qed.

(** X9. When the store answers from a table of organisations (each batch
    query returns the rows of the table whose identifier is in the batch),
    the page of a person lists exactly the organisations of the table that
    the person's assignment rows name, each as often as the table holds it,
    sorted by name and then by identifier; and it stops with "No assigned
    orgs" when the rows name none. *)
Theorem assigned_orgs_are_the_assigned_rows :
  forall (client : Store) (orgs : list org) (cells : list (option Z))
         (rep_id : Z),
    assignments client rep_id = Ok (Some cells) ->
    (forall batch : list Z,
        orgs_in client batch = Ok (Some (filter (in_batch batch) orgs))) ->
    ((forall n : Z, ~ In (Some n) cells) ->
     assigned_orgs client rep_id = Stopped)
    /\ ((exists n : Z, In (Some n) cells) ->
        exists rows : list org,
          assigned_orgs client rep_id = Ok rows
          /\ StronglySorted details_before rows
          /\ Permutation rows
               (filter (fun o => existsb
                                   (fun c => match c with
                                             | Some n => n =? oid o
                                             | None => false
                                             end) cells) orgs)
          /\ (forall o : org,
                 In o rows <-> In o orgs /\ In (Some (oid o)) cells)).
Proof.
  intros client orgs cells rep_id Ha Ho.
  destruct (assigned_orgs_rows client orgs cells rep_id Ha Ho)
    as [Hnone Hsome].
  split; [exact Hnone|].
  intros Hex. destruct (Hsome Hex) as (rows & Er & Hs & Hperm).
  exists rows. split; [exact Er|]. split; [exact Hs|].
  split; [exact Hperm|].
  intros o. rewrite <- named_by_cells. split; intros Hi.
  - exact (Permutation_in _ Hperm Hi).
  - exact (Permutation_in _ (Permutation_sym Hperm) Hi).
Qed.

Lemma assigned_orgs_are_the_assigned_rows_witness :
  assignments
    (table_store [Sample.named 12 "Canes"; Sample.named 30 "Bats";
                  Sample.named 44 "Aces"]
       [(7, Some 30); (7, None); (8, Some 44); (7, Some 12)]) 7
  = Ok (Some [Some 30; None; Some 12])
  /\ (exists n : Z, In (Some n) [Some 30; None; Some 12])
  /\ exists rows : list org,
       assigned_orgs
         (table_store [Sample.named 12 "Canes"; Sample.named 30 "Bats";
                       Sample.named 44 "Aces"]
            [(7, Some 30); (7, None); (8, Some 44); (7, Some 12)]) 7
       = Ok rows
       /\ StronglySorted details_before rows.
Proof.
  split; [reflexivity|].
  assert (H : exists n : Z, In (Some n) [Some 30; None; Some 12])
    by (exists 30; left; reflexivity).
  split; [exact H|].
  destruct (proj2 (assigned_orgs_are_the_assigned_rows
                     (table_store [Sample.named 12 "Canes";
                                   Sample.named 30 "Bats";
                                   Sample.named 44 "Aces"]
                        [(7, Some 30); (7, None); (8, Some 44);
                         (7, Some 12)])
                     [Sample.named 12 "Canes"; Sample.named 30 "Bats";
                      Sample.named 44 "Aces"]
                     [Some 30; None; Some 12] 7 eq_refl
                     (fun batch => eq_refl)) H)
    as (rows & E & Hs & _).
  exists rows. split; [exact E|exact Hs].
Defined.

End DetailsFacts.

(** ** The pages of the search, and the search page *)

Section PageFacts.

Import PyList Chunks Pagination.
Local Open Scope Z_scope.

Lemma slice_hi_clamped (T : Type) (l : list T) (lo hi : Z) :
  0 <= hi -> slice l lo (Z.min hi (len l)) = slice l lo hi.
Proof.
  intros H. unfold slice, adjust.
  destruct (Z.ltb_spec (Z.min hi (len l)) 0);
    [unfold len in *; lia|].
  destruct (Z.ltb_spec hi 0); [lia|].
  replace (Z.min (Z.min hi (len l)) (len l)) with (Z.min hi (len l)) by lia.
  reflexivity.
Qed.

Lemma nth_range_from (fuel : nat) :
  forall (i stop step : Z) (k : nat) (d : Z),
    (k < List.length (range_from fuel i stop step))%nat ->
    nth k (range_from fuel i stop step) d = i + Z.of_nat k * step.
Proof.
  induction fuel as [|fuel IH]; intros i stop step k d Hk;
    cbn [range_from] in *; [cbn in Hk; lia|].
  destruct (i <? stop); [|cbn in Hk; lia].
  destruct k as [|k]; cbn [nth]; [lia|].
  cbn [List.length] in Hk. rewrite IH by lia. lia.
Qed.

(** A page index inside the range is left as it is, and the page is the
    chunk of that index. *)
Lemma page_is_chunk (T : Type) (results : list T) (page_size : Z) (k : Z) :
  0 < page_size ->
  0 <= k < total_pages (paginate page_size results k) ->
  page (paginate page_size results k) = k
  /\ page_rows (paginate page_size results k)
     = slice results (k * page_size) (k * page_size + page_size).
Proof.
  intros Hps Hk. cbn [paginate total_pages page page_rows] in *.
  assert (E : Z.max 0 (Z.min k (Z.max 1 ((len results + page_size - 1)
                                           / page_size) - 1)) = k) by lia.
  rewrite E. split; [reflexivity|].
  apply slice_hi_clamped. nia.
Qed.

End PageFacts.

Section PageClaims.

Import PyList Chunks Pagination.
Local Open Scope Z_scope.

(** X10. For a non-empty list of results the pages 0 to [total_pages - 1]
    are the chunks that [chunked(results, page_size)] yields: one after the
    other they make up the results, so every candidate is on exactly one
    page, and no page is empty or longer than the page size. *)
Theorem pages_are_the_chunks :
  forall (T : Type) (results : list T) (page_size : Z),
    0 < page_size -> results <> [] ->
    let tp := total_pages (paginate page_size results 0) in
    let pages :=
      map (fun k => page_rows (paginate page_size results (Z.of_nat k)))
        (seq 0 (Z.to_nat tp)) in
    chunked results page_size = Ok pages
    /\ List.concat pages = results
    /\ Forall (fun p => 1 <= len p <= page_size) pages.
Proof.
  intros T results ps Hps Hne tp pages.
  destruct (chunked_positive T results ps Hps)
    as (chunks & Ec & Hcat & Hall & Hlen & _).
  assert (Hn : 1 <= len results).
  { unfold len. destruct results; [congruence|cbn [List.length]; lia]. }
  assert (Etp : tp = len chunks).
  { unfold tp. cbn [paginate total_pages].
    rewrite Hlen, ceil_quot_formula by lia.
    assert (1 <= (len results + ps - 1) / ps);
      [apply Z.div_le_lower_bound; lia|lia]. }
  assert (E : pages = chunks).
  { unfold chunked in Ec.
    destruct (Z.eqb_spec ps 0); [lia|].
    destruct (Z.ltb_spec ps 0); [lia|].
    injection Ec as Ec.
    apply (nth_ext _ _ [] []).
    - unfold pages. rewrite length_map, length_seq, Etp. unfold len. lia.
    - intros k Hk. unfold pages in Hk. rewrite length_map, length_seq in Hk.
      unfold pages.
      rewrite (nth_indep _ []
                 (page_rows (paginate ps results (Z.of_nat 0))))
        by (rewrite length_map, length_seq; exact Hk).
      rewrite (map_nth (fun k => page_rows (paginate ps results (Z.of_nat k)))).
      rewrite seq_nth by exact Hk. cbn [Nat.add].
      destruct (page_is_chunk T results ps (Z.of_nat k) Hps) as [_ Ep].
      { split; [lia|]. change (Z.of_nat k < tp). lia. }
      rewrite Ep, <- Ec.
      assert (Hk' : (k < List.length
                           (range_from (List.length results) 0 (len results) ps))%nat).
      { rewrite <- (length_map (fun i => slice results i (i + ps))), Ec.
        rewrite Etp in Hk. unfold len in Hk. lia. }
      rewrite (nth_indep _ [] (slice results 0 (0 + ps)))
        by (rewrite length_map; exact Hk').
      rewrite (map_nth (fun i => slice results i (i + ps))).
      rewrite nth_range_from by exact Hk'.
      reflexivity. }
  rewrite E. split; [exact Ec|]. split; [exact Hcat|exact Hall].
Qed.

Lemma pages_are_the_chunks_witness :
  0 < 10 /\ map Z.of_nat (seq 1 23) <> []
  /\ List.concat
       (map (fun k => page_rows (paginate 10 (map Z.of_nat (seq 1 23))
                                   (Z.of_nat k)))
          (seq 0 (Z.to_nat
                    (total_pages (paginate 10 (map Z.of_nat (seq 1 23)) 0)))))
     = map Z.of_nat (seq 1 23).
Proof.
  split; [reflexivity|]. split; [discriminate|].
  exact (proj1 (proj2 (pages_are_the_chunks Z (map Z.of_nat (seq 1 23)) 10
                         eq_refl ltac:(discriminate)))).
Defined.

End PageClaims.

Section SearchPageFacts.

Import IndividualSearch Pagination SearchUI.
Local Open Scope Z_scope.

Lemma total_pages_any (T : Type) (results : list T) (p p' : Z) :
  total_pages (paginate PAGE_SIZE results p)
  = total_pages (paginate PAGE_SIZE results p').
Proof. reflexivity. Qed.

Lemma page_in_range (T : Type) (results : list T) (p : Z) :
  0 <= page (paginate PAGE_SIZE results p)
       <= total_pages (paginate PAGE_SIZE results p) - 1.
Proof.
  destruct (paginate_bounds results p (page_size := PAGE_SIZE) eq_refl)
    as (_ & _ & H).
  exact H.
Qed.

Lemma page_kept (T : Type) (results : list T) (p : Z) :
  0 <= p <= total_pages (paginate PAGE_SIZE results p) - 1 ->
  page (paginate PAGE_SIZE results p) = p.
Proof. cbn [paginate page total_pages]. lia. Qed.

(** The first page holds the first [PAGE_SIZE] rows. *)
Lemma first_page_rows (T : Type) (results : list T) :
  page (paginate PAGE_SIZE results 0) = 0
  /\ page_rows (paginate PAGE_SIZE results 0)
     = firstn (Z.to_nat PAGE_SIZE) results.
Proof.
  assert (E0 : page (paginate PAGE_SIZE results 0) = 0)
    by (apply page_kept; pose proof (page_in_range T results 0); lia).
  split; [exact E0|].
  destruct (paginate_bounds results 0 (page_size := PAGE_SIZE) eq_refl)
    as (H1 & H2 & _).
  change (page_rows (paginate PAGE_SIZE results 0))
    with (PyList.slice results (start (paginate PAGE_SIZE results 0))
            (end_ (paginate PAGE_SIZE results 0))).
  rewrite slice_in_range by lia.
  assert (Es : start (paginate PAGE_SIZE results 0) = 0).
  { change (start (paginate PAGE_SIZE results 0))
      with (page (paginate PAGE_SIZE results 0) * PAGE_SIZE).
    rewrite E0. reflexivity. }
  assert (Ee : end_ (paginate PAGE_SIZE results 0)
               = Z.min PAGE_SIZE (PyList.len results)).
  { change (end_ (paginate PAGE_SIZE results 0))
      with (Z.min (start (paginate PAGE_SIZE results 0) + PAGE_SIZE)
              (PyList.len results)).
    rewrite Es. reflexivity. }
  rewrite Es, Ee. cbn [Z.to_nat skipn]. rewrite Z.sub_0_r.
  destruct (Z.le_ge_cases PAGE_SIZE (PyList.len results)) as [H|H].
  - now rewrite Z.min_l by lia.
  - rewrite Z.min_r by lia. unfold PyList.len in *.
    rewrite !firstn_all2 by lia. reflexivity.
Qed.

(** An idle run on a session whose page index is in range shows that page
    and changes nothing. *)
Lemma idle_run (client : Store) (results : list org) (p : Z) (qy : string)
    (pick : option string) (q : string) :
  results <> [] ->
  0 <= p <= total_pages (paginate PAGE_SIZE results p) - 1 ->
  run client {| org_results := results; org_page := p;
                searched_query := qy; org_pick := pick |} q Idle
  = ({| org_results := results; org_page := p;
        searched_query := qy; org_pick := pick |},
     Results (paginate PAGE_SIZE results p)).
Proof.
  intros Hne Hp. unfold run. cbn [org_results org_page searched_query org_pick].
  destruct results as [|o results]; [congruence|].
  rewrite page_kept by exact Hp. reflexivity.
Qed.

(** What a run leaves behind, by the screen it ends on. *)
Lemma run_outcome (client : Store) (s : session) (q : string) (a : action) :
  let s' := fst (run client s q a) in
  match snd (run client s q a) with
  | Results v =>
      org_results s' <> []
      /\ v = paginate PAGE_SIZE (org_results s') (org_page s')
      /\ 0 <= org_page s'
           <= total_pages (paginate PAGE_SIZE (org_results s') (org_page s')) - 1
      /\ forall q', run client s' q' Idle = (s', Results v)
  | Reran =>
      org_results s' <> []
      /\ (a = Prev \/ a = Next)
      /\ org_pick s' = Some placeholder
      /\ 0 <= org_page s'
           <= total_pages (paginate PAGE_SIZE (org_results s') (org_page s')) - 1
      /\ forall q',
           run client s' q' Idle
           = (s', Results (paginate PAGE_SIZE (org_results s') (org_page s')))
  | NoOrgsFound => org_results s' = [] /\ searched_query s' <> EmptyString
  | TypeAQuery => org_results s' = [] /\ searched_query s' = EmptyString
  | Failed e =>
      a = Search
      /\ fetch_org_candidates client (Some (PyStr.strip q)) = Raised e
      /\ org_results s' = org_results s /\ org_page s' = org_page s
      /\ searched_query s' = PyStr.strip q
  end.
Proof.
  unfold run.
  set (first :=
         match a with
         | Search => do_search client s q
         | _ => (s, None)
         end).
  assert (Hfirst :
            (snd first = None \/
             exists e, snd first = Some e /\ a = Search
                       /\ fetch_org_candidates client (Some (PyStr.strip q))
                          = Raised e
                       /\ org_results (fst first) = org_results s
                       /\ org_page (fst first) = org_page s
                       /\ searched_query (fst first) = PyStr.strip q)).
  { unfold first. destruct a; try (left; reflexivity).
    unfold do_search.
    destruct (fetch_org_candidates client (Some (PyStr.strip q)))
      as [rows| |e]; [left; reflexivity|left; reflexivity|].
    right. exists e. repeat split. }
  destruct first as [s1 failure]. cbn [fst snd] in Hfirst.
  destruct Hfirst as [->|(e & -> & Ha & Hf & H1 & H2 & H3)].
  - destruct (org_results s1) as [|o results] eqn:Er.
    + destruct (PyStr.truthy (searched_query s1)) eqn:Et; cbn [fst snd].
      * split; [exact Er|]. intros E. rewrite E in Et. discriminate.
      * split; [exact Er|]. destruct (searched_query s1); [reflexivity|discriminate].
    + set (results' := o :: results).
      assert (Hne : results' <> []) by discriminate.
      pose proof (page_in_range org results' (org_page s1)) as Hp.
      set (v := paginate PAGE_SIZE results' (org_page s1)) in *.
      assert (Hshown :
                let s' := {| org_results := results'; org_page := page v;
                             searched_query := searched_query s1;
                             org_pick := org_pick s1 |} in
                org_results s' <> []
                /\ v = paginate PAGE_SIZE (org_results s') (org_page s')
                /\ 0 <= org_page s'
                     <= total_pages
                          (paginate PAGE_SIZE (org_results s') (org_page s')) - 1
                /\ forall q', run client s' q' Idle = (s', Results v)).
      { cbv zeta. cbn [org_results org_page].
        assert (Ev : v = paginate PAGE_SIZE results' (page v)).
        { unfold v at 1. unfold paginate.
          fold (paginate PAGE_SIZE results' (org_page s1)). fold v.
          cbn [paginate page total_pages] in *.
          replace (Z.max 0 (Z.min (page v)
                              (Z.max 1 ((PyList.len results' + PAGE_SIZE - 1)
                                          / PAGE_SIZE) - 1)))
            with (page v); [reflexivity|].
          unfold v. cbn [paginate page]. lia. }
        split; [exact Hne|]. split; [exact Ev|]. split; [exact Hp|].
        intros q'. rewrite (idle_run client results' (page v) _ _ q' Hne Hp).
        rewrite <- Ev. reflexivity. }
      assert (Hmoved :
                forall p, 0 <= p <= total_pages v - 1 ->
                let s' := {| org_results := results'; org_page := p;
                             searched_query := searched_query s1;
                             org_pick := Some placeholder |} in
                org_results s' <> []
                /\ org_pick s' = Some placeholder
                /\ 0 <= org_page s'
                     <= total_pages
                          (paginate PAGE_SIZE (org_results s') (org_page s')) - 1
                /\ forall q',
                     run client s' q' Idle
                     = (s', Results (paginate PAGE_SIZE (org_results s')
                                       (org_page s')))).
      { intros p Hpp. cbv zeta. cbn [org_results org_page org_pick].
        split; [exact Hne|]. split; [reflexivity|]. split; [exact Hpp|].
        intros q'. apply idle_run; [exact Hne|exact Hpp]. }
      destruct a; cbn [fst snd]; try exact Hshown.
      * destruct (Z.eqb_spec (page v) 0) as [E|E]; cbn [negb fst snd];
          [exact Hshown|].
        destruct (Hmoved (Z.max 0 (page v - 1)) ltac:(lia)) as (M1 & M2 & M3 & M4).
        split; [exact M1|]. split; [now left|]. split; [exact M2|].
        split; [exact M3|exact M4].
      * destruct (Z.leb_spec (total_pages v - 1) (page v)) as [E|E];
          cbn [negb fst snd]; [exact Hshown|].
        destruct (Hmoved (Z.min (total_pages v - 1) (page v + 1)) ltac:(lia))
          as (M1 & M2 & M3 & M4).
        split; [exact M1|]. split; [now right|]. split; [exact M2|].
        split; [exact M3|exact M4].
  - cbn [fst snd]. repeat split; assumption.
Qed.

(** A run without a search, on stored results. *)
Lemma run_no_search (client : Store) (s : session) (q : string) (a : action) :
  a <> Search -> org_results s <> [] ->
  let v := paginate PAGE_SIZE (org_results s) (org_page s) in
  let moved p := {| org_results := org_results s; org_page := p;
                    searched_query := searched_query s;
                    org_pick := Some placeholder |} in
  let shown := ({| org_results := org_results s; org_page := page v;
                   searched_query := searched_query s;
                   org_pick := org_pick s |}, Results v) in
  run client s q a
  = match a with
    | Prev =>
        if negb (page v =? 0)
        then (moved (Z.max 0 (page v - 1)), Reran) else shown
    | Next =>
        if negb (total_pages v - 1 <=? page v)
        then (moved (Z.min (total_pages v - 1) (page v + 1)), Reran)
        else shown
    | _ => shown
    end.
Proof.
  intros Ha Hne. unfold run. destruct a; try congruence;
    destruct (org_results s) eqn:Er; try congruence; reflexivity.
Qed.

End SearchPageFacts.


Section SearchPageClaims.

Import IndividualSearch Pagination SearchUI Sample.
Local Open Scope Z_scope.

(** X11. Whenever a run of the search page shows a page of candidates, or
    reruns after Prev or Next, the page index it leaves in the session is
    inside [0, total_pages - 1] for the results it leaves there; and a
    further run without a click shows exactly that page and leaves the
    session as it is. *)
Theorem stored_page_is_in_range :
  forall (client : Store) (s : session) (q : string) (a : action),
    let s' := fst (run client s q a) in
    let v' := paginate PAGE_SIZE (org_results s') (org_page s') in
    match snd (run client s q a) with
    | Results v =>
        v = v' /\ org_results s' <> []
        /\ 0 <= org_page s' <= total_pages v' - 1
        /\ forall q', run client s' q' Idle = (s', Results v')
    | Reran =>
        org_results s' <> []
        /\ org_pick s' = Some placeholder
        /\ 0 <= org_page s' <= total_pages v' - 1
        /\ forall q', run client s' q' Idle = (s', Results v')
    | _ => True
    end.
Proof.
  intros client s q a. pose proof (run_outcome client s q a) as H.
  cbv zeta in *.
  destruct (snd (run client s q a)); try exact I.
  - destruct H as (H1 & H2 & H3 & H4).
    split; [exact H2|]. split; [exact H1|]. split; [exact H3|].
    intros q'. rewrite <- H2. apply H4.
  - destruct H as (H1 & _ & H2 & H3 & H4). repeat split; try assumption; apply H3.
Qed.

(** X12. In a run without a search the screen follows from the session: the
    warning "No orgs found" shows exactly when the stored results are empty
    and the stored query is not, the hint to type a query exactly when both
    are empty; with stored results a page is shown or the page is turned. *)
Theorem empty_results_screens :
  forall (client : Store) (s : session) (q : string) (a : action),
    a <> Search ->
    (snd (run client s q a) = NoOrgsFound
     <-> org_results s = [] /\ searched_query s <> EmptyString)
    /\ (snd (run client s q a) = TypeAQuery
        <-> org_results s = [] /\ searched_query s = EmptyString)
    /\ (org_results s = [] -> fst (run client s q a) = s).
Proof.
  intros client s q a Ha.
  assert (E : run client s q a
              = match org_results s with
                | [] => if PyStr.truthy (searched_query s)
                        then (s, NoOrgsFound) else (s, TypeAQuery)
                | _ => run client s q a
                end).
  { unfold run. destruct a; try congruence; destruct (org_results s);
      reflexivity. }
  pose proof (run_outcome client s q a) as H. cbv zeta in H.
  destruct (org_results s) as [|o results] eqn:Er.
  - rewrite E. destruct (searched_query s) as [|c r] eqn:Eq; cbn [PyStr.truthy snd fst].
    + split; [|split].
      * split; [discriminate|]. intros [_ N]. congruence.
      * split; [intros _; split; reflexivity|reflexivity].
      * reflexivity.
    + split; [|split].
      * split; [intros _; split; [reflexivity|discriminate]|reflexivity].
      * split; [discriminate|]. intros [_ N]. discriminate.
      * reflexivity.
  - assert (Hs : org_results (fst (run client s q a)) <> []
                 \/ exists e, snd (run client s q a) = Failed e).
    { destruct (snd (run client s q a)) eqn:Es.
      - left. unfold run in H |- *. destruct a; try congruence;
          rewrite Er in *; cbn [fst]; try discriminate;
          repeat match goal with
                 | |- context [if ?c then _ else _] => destruct c
                 end; cbn [fst org_results]; discriminate.
      - left. unfold run in H |- *. destruct a; try congruence;
          rewrite Er in *; cbn [fst]; try discriminate;
          repeat match goal with
                 | |- context [if ?c then _ else _] => destruct c
                 end; cbn [fst org_results]; discriminate.
      - left. tauto.
      - left. tauto.
      - right. eauto. }
    split; [|split].
    + split; [|intros [N _]; discriminate].
      intros Es. rewrite Es in H. destruct Hs as [Hs|(e & He)]; [tauto|congruence].
    + split; [|intros [N _]; discriminate].
      intros Es. rewrite Es in H. destruct Hs as [Hs|(e & He)]; [tauto|congruence].
    + discriminate.
Qed.

Lemma empty_results_screens_witness :
  Idle <> Search
  /\ (snd (run store_down init EmptyString Idle) = TypeAQuery
      <-> org_results init = [] /\ searched_query init = EmptyString).
Proof.
  assert (H : Idle <> Search) by discriminate.
  split; [exact H|].
  exact (proj1 (proj2 (empty_results_screens store_down init EmptyString Idle H))).
Defined.

(** The Search button, up to the caption of line 261. When the store
    answers, the session holds the stripped query, the rows found and page
    0, and a selection made before is reset; the first page is shown, or,
    with no row, the warning (the hint when the query was blank). When the
    store raises, the run fails with that exception: the stripped query is
    already stored, the results and the page of the session are the old
    ones. *)
Lemma search_to_the_caption :
  forall (client : Store) (s : session) (q : string),
    let query := PyStr.strip q in
    let reset := match org_pick s with
                 | Some _ => Some placeholder
                 | None => None
                 end in
    (forall rows : list org,
        fetch_org_candidates client (Some q) = Ok rows ->
        run client s q Search
        = ({| org_results := rows; org_page := 0; searched_query := query;
              org_pick := reset |},
           match rows with
           | [] => if PyStr.truthy query then NoOrgsFound else TypeAQuery
           | _ => Results (paginate PAGE_SIZE rows 0)
           end)
        /\ page (paginate PAGE_SIZE rows 0) = 0
        /\ page_rows (paginate PAGE_SIZE rows 0)
           = firstn (Z.to_nat PAGE_SIZE) rows)
    /\ (forall e : exn,
           fetch_org_candidates client (Some q) = Raised e ->
           run client s q Search
           = ({| org_results := org_results s; org_page := org_page s;
                 searched_query := query; org_pick := org_pick s |},
              Failed e))
    /\ (Spec.blank q -> snd (run client s q Search) = TypeAQuery).
Proof.
  intros client s q query reset.
  assert (Es : fetch_org_candidates client (Some query)
               = fetch_org_candidates client (Some q)).
  { unfold fetch_org_candidates. cbn [PyStr.or_empty]. unfold query.
    now rewrite strip_idem. }
  assert (Hrows : forall rows : list org,
             fetch_org_candidates client (Some q) = Ok rows ->
             run client s q Search
             = ({| org_results := rows; org_page := 0;
                   searched_query := query; org_pick := reset |},
                match rows with
                | [] => if PyStr.truthy query then NoOrgsFound else TypeAQuery
                | _ => Results (paginate PAGE_SIZE rows 0)
                end)).
  { intros rows Hr. unfold run, do_search. fold query. rewrite Es, Hr.
    cbn [org_results org_page searched_query org_pick]. fold reset.
    destruct rows as [|o rows];
      [destruct (PyStr.truthy query); reflexivity|].
    assert (E0 : page (paginate PAGE_SIZE (o :: rows) 0) = 0)
      by (apply page_kept; pose proof (page_in_range org (o :: rows) 0); lia).
    rewrite E0. reflexivity. }
  split; [|split].
  - intros rows Hr. split; [now apply Hrows|]. apply first_page_rows.
  - intros e He. unfold run, do_search. fold query. rewrite Es, He. reflexivity.
  - intros Hb.
    assert (Hq : query = EmptyString) by (apply strip_blank, Hb).
    assert (Hf : fetch_org_candidates client (Some q) = Ok []).
    { unfold fetch_org_candidates. cbn [PyStr.or_empty]. fold query.
      rewrite Hq. reflexivity. }
    rewrite (Hrows [] Hf), Hq. reflexivity.
Qed.


(** X14. Prev and Next. On the first page Prev is disabled and on the last
    page Next is: the run then is the run without a click. Otherwise the
    click stores the neighbouring page, resets the selection and reruns;
    and Prev after Next comes back to the page one left. *)
Theorem prev_and_next :
  forall (client : Store) (s : session) (q q' : string),
    org_results s <> [] ->
    let v := paginate PAGE_SIZE (org_results s) (org_page s) in
    let moved p := {| org_results := org_results s; org_page := p;
                      searched_query := searched_query s;
                      org_pick := Some placeholder |} in
    (page v = 0 -> run client s q Prev = run client s q Idle)
    /\ (page v = total_pages v - 1 ->
        run client s q Next = run client s q Idle)
    /\ (0 < page v -> run client s q Prev = (moved (page v - 1), Reran))
    /\ (page v < total_pages v - 1 ->
        run client s q Next = (moved (page v + 1), Reran)
        /\ run client (moved (page v + 1)) q' Prev = (moved (page v), Reran)).
Proof.
  intros client s q q' Hne v moved.
  pose proof (page_in_range org (org_results s) (org_page s)) as Hp.
  fold v in Hp.
  pose proof (fun a Ha => run_no_search client s q a Ha Hne) as Hrun.
  cbv zeta in Hrun. fold v in Hrun.
  split; [|split; [|split]].
  - intros E. rewrite (Hrun Prev), (Hrun Idle) by discriminate.
    rewrite E. reflexivity.
  - intros E. rewrite (Hrun Next), (Hrun Idle) by discriminate.
    destruct (Z.leb_spec (total_pages v - 1) (page v)); [reflexivity|lia].
  - intros E. rewrite (Hrun Prev) by discriminate.
    destruct (Z.eqb_spec (page v) 0); [lia|]. cbn [negb].
    now rewrite Z.max_r by lia.
  - intros E. split.
    + rewrite (Hrun Next) by discriminate.
      destruct (Z.leb_spec (total_pages v - 1) (page v)); [lia|]. cbn [negb].
      now rewrite Z.min_r by lia.
    + rewrite (run_no_search client (moved (page v + 1)) q' Prev)
        by (try discriminate; exact Hne).
      cbv zeta. unfold moved.
      cbn [org_results org_page searched_query org_pick].
      assert (Ev : page (paginate PAGE_SIZE (org_results s) (page v + 1))
                   = page v + 1).
      { apply page_kept. change (0 <= page v + 1 <= total_pages v - 1). lia. }
      rewrite Ev. destruct (Z.eqb_spec (page v + 1) 0); [lia|]. cbn [negb].
      replace (Z.max 0 (page v + 1 - 1)) with (page v) by lia. reflexivity.
Qed.

Lemma prev_and_next_witness :
  let s := {| org_results := map (fun n => named (Z.of_nat n) "Canes"%string) (seq 1 23);
              org_page := 1; searched_query := "Canes"%string; org_pick := None |} in
  org_results s <> []
  /\ org_page (fst (run store_down s "Canes"%string Next)) = 2
  /\ org_page (fst (run store_down s "Canes"%string Prev)) = 0.
Proof.
  cbv zeta.
  set (s := {| org_results := map (fun n => named (Z.of_nat n) "Canes"%string) (seq 1 23);
               org_page := 1; searched_query := "Canes"%string; org_pick := None |}).
  assert (H : org_results s <> []) by discriminate.
  split; [exact H|]. split.
  - rewrite (proj1 (proj2 (proj2 (proj2
               (prev_and_next store_down s "Canes"%string "Canes"%string H))) eq_refl)).
    reflexivity.
  - rewrite (proj1 (proj2 (proj2
               (prev_and_next store_down s "Canes"%string "Canes"%string H))) eq_refl).
    reflexivity.
Defined.

End SearchPageClaims.

(** ** The password gate *)

Section GateClaims.

Import Gate.
Local Open Scope string_scope.

Lemma truthy_spec (s : string) : PyStr.truthy s = true <-> s <> "".
Proof. destruct s; cbn; split; congruence. Qed.

Lemma gate_step (pwd : string) (authed : option bool) (pw : string)
    (login : bool) :
  pwd <> "" ->
  (fst (gate pwd authed pw login) = Some true
   <-> authed = Some true \/ (login = true /\ pw = pwd))
  /\ (snd (gate pwd authed pw login) = Proceed <-> authed = Some true)
  /\ snd (gate pwd authed pw login) <> NotSet.
Proof.
  intros Hne. apply truthy_spec in Hne. unfold gate, auth_ui. rewrite Hne.
  destruct authed as [[|]|]; cbn [negb fst snd];
    try (split; [|split]; [split; auto|split; auto|discriminate]).
  all: destruct login; cbn [fst snd];
    [destruct (String.eqb_spec pw pwd) as [E|E]|]; cbn [fst snd];
    (split; [|split];
     [split; [intros H; try discriminate; tauto
             |intros [H|[H1 H2]]; try discriminate; try congruence]
     |split; discriminate|discriminate]).
Qed.

(** X15. With a password configured, a run gets past the gate exactly when
    the session is already signed in, and a run signs the session in
    exactly when Login is pressed with the very text of the password; a
    run shows "Wrong password." exactly when Login is pressed with another
    text in a session that is not signed in, and the message about a
    missing password is never shown. With no password configured there is
    no gate: every run goes on and the session is not touched. *)
Theorem gate_opens_only_for_the_password :
  forall (APP_PASSWORD : string) (authed : option bool) (pw : string)
         (login : bool),
    (APP_PASSWORD <> "" ->
     (snd (gate APP_PASSWORD authed pw login) = Proceed
      <-> authed = Some true)
     /\ (fst (gate APP_PASSWORD authed pw login) = Some true
         <-> authed = Some true \/ (login = true /\ pw = APP_PASSWORD))
     /\ (snd (gate APP_PASSWORD authed pw login) = WrongPassword
         <-> authed <> Some true /\ login = true /\ pw <> APP_PASSWORD)
     /\ snd (gate APP_PASSWORD authed pw login) <> NotSet)
    /\ gate "" authed pw login = (authed, Proceed).
Proof.
  intros pwd authed pw login. split; [|reflexivity].
  intros Hne. destruct (gate_step pwd authed pw login Hne) as (H1 & H2 & H3).
  split; [exact H2|]. split; [exact H1|]. split; [|exact H3].
  apply truthy_spec in Hne. unfold gate, auth_ui. rewrite Hne.
  destruct authed as [[|]|]; cbn [negb fst snd].
  - split; [discriminate|]. intros [N _]. congruence.
  - destruct login; cbn [fst snd];
      [destruct (String.eqb_spec pw pwd) as [E|E]|]; cbn [fst snd].
    + split; [discriminate|]. intros (_ & _ & N). contradiction.
    + split; [intros _|reflexivity]. repeat split; [discriminate|exact E].
    + split; [discriminate|]. intros (_ & N & _). discriminate.
  - destruct login; cbn [fst snd];
      [destruct (String.eqb_spec pw pwd) as [E|E]|]; cbn [fst snd].
    + split; [discriminate|]. intros (_ & _ & N). contradiction.
    + split; [intros _|reflexivity]. repeat split; [discriminate|exact E].
    + split; [discriminate|]. intros (_ & N & _). discriminate.
Qed.

Lemma gate_opens_only_for_the_password_witness :
  "s3cret" <> ""
  /\ (snd (gate "s3cret" None "S3cret" true) = WrongPassword
      <-> None <> Some true /\ true = true /\ "S3cret" <> "s3cret").
Proof.
  assert (H : "s3cret" <> "") by discriminate.
  split; [exact H|].
  exact (proj1 (proj2 (proj2
           (proj1 (gate_opens_only_for_the_password "s3cret" None "S3cret" true)
              H)))).
Defined.

Lemma after_runs_spec (pwd : string) (visits : list visit) :
  pwd <> "" ->
  forall authed : option bool,
    after_runs pwd authed visits = Some true
    <-> authed = Some true \/ In (pwd, true) visits.
Proof.
  intros Hne. induction visits as [|[pw login] visits IH]; intros authed;
    cbn [after_runs In].
  - tauto.
  - rewrite IH. destruct (gate_step pwd authed pw login Hne) as (H1 & _ & _).
    rewrite H1. split.
    + intros [[H|[-> ->]]|H]; auto.
    + intros [H|[H|H]]; auto. injection H as -> ->. auto.
Qed.

(** X16. Over any sequence of visits to a page with a password configured,
    a session that starts signed out is signed in at the end exactly when
    one of the visits pressed Login with the password; and a session that
    is signed in stays so, for the script never signs out. *)
Theorem signed_in_only_by_the_password :
  forall (APP_PASSWORD : string) (visits : list visit),
    APP_PASSWORD <> "" ->
    (after_runs APP_PASSWORD None visits = Some true
     <-> In (APP_PASSWORD, true) visits)
    /\ (after_runs APP_PASSWORD (Some false) visits = Some true
        <-> In (APP_PASSWORD, true) visits)
    /\ after_runs APP_PASSWORD (Some true) visits = Some true.
Proof.
  intros pwd visits Hne. split; [|split].
  - rewrite (after_runs_spec pwd visits Hne). split; [|auto].
    intros [H|H]; [discriminate|exact H].
  - rewrite (after_runs_spec pwd visits Hne). split; [|auto].
    intros [H|H]; [discriminate|exact H].
  - apply (after_runs_spec pwd visits Hne). now left.
Qed.

Lemma signed_in_only_by_the_password_witness :
  "s3cret" <> ""
  /\ after_runs "s3cret" None
       [("guess", true); ("s3cret", false); ("s3cret ", true)] <> Some true
  /\ after_runs "s3cret" None [("guess", true); ("s3cret", true); ("", false)]
     = Some true.
Proof.
  assert (H : "s3cret" <> "") by discriminate.
  split; [exact H|]. split.
  - intros E.
    apply (proj1 (signed_in_only_by_the_password "s3cret" _ H)) in E.
    destruct E as [E|[E|[E|[]]]]; discriminate.
  - apply (proj1 (signed_in_only_by_the_password "s3cret" _ H)).
    right. left. reflexivity.
Defined.

End GateClaims.

(** ** More on the numbers and the tabs of [render_org_insights] *)

Section CountFacts.

Import Helpers App Spec.
Local Open Scope Z_scope.

Lemma count_where_bounds (T : Type) (p : T -> bool) (l : list T) :
  0 <= count_where p l <= PyList.len l.
Proof.
  unfold PyList.len.
  induction l as [|r l IH]; cbn [count_where List.length]; [lia|].
  destruct (p r); lia.
Qed.

Lemma count_where_mono (T : Type) (p q : T -> bool) (l : list T) :
  (forall r, In r l -> p r = true -> q r = true) ->
  count_where p l <= count_where q l.
Proof.
  induction l as [|r l IH]; intros H; cbn [count_where]; [lia|].
  assert (IH' : count_where p l <= count_where q l).
  { apply IH. intros r' Hin. apply H. now right. }
  specialize (H r (or_introl eq_refl)).
  destruct (p r); destruct (q r); try lia.
  all: specialize (H eq_refl); discriminate.
Qed.

Lemma count_where_disjoint (T : Type) (p q : T -> bool) (l : list T) :
  (forall r, p r = true -> q r = false) ->
  count_where p l + count_where q l <= PyList.len l.
Proof.
  intros H. unfold PyList.len.
  induction l as [|r l IH]; cbn [count_where List.length]; [lia|].
  specialize (H r). destruct (p r); destruct (q r); try lia.
  all: specialize (H eq_refl); discriminate.
Qed.

Lemma years_apart (r : coerced_request) :
  year_is 2025 r = true -> year_is 2026 r = false.
Proof.
  intros H. destruct (year_is 2026 r) eqn:E; [|reflexivity].
  apply year_is_spec in H as (q & Hq & H1).
  apply year_is_spec in E as (q' & Hq' & H2).
  rewrite Hq in Hq'. injection Hq' as <-.
  rewrite H1 in H2. discriminate H2.
Qed.

Lemma date_le_trans (d1 d2 d3 : date) :
  date_le d1 d2 -> date_le d2 d3 -> date_le d1 d3.
Proof. unfold date_le. lia. Qed.

Lemma requested_by_mono (c c' : date) (r : coerced_request) :
  date_le c c' -> requested_by c r = true -> requested_by c' r = true.
Proof.
  intros Hc H. apply requested_by_spec in H as (d & E & H).
  apply requested_by_spec. exists d. split; [exact E|].
  exact (date_le_trans _ _ _ H Hc).
Qed.

Lemma aggregate_ok (df : list coerced_request) (today : date) (m : metrics) :
  aggregate df today = Ok m ->
  let c := {| year := 2025; month := month today; day := day today |} in
  m = {| count_2025 := count_where (year_is 2025) df;
         count_2026 := count_where (year_is 2026) df;
         yoy_delta :=
           count_where (year_is 2026) df - count_where (year_is 2025) df;
         cutoff_2025 := c;
         ytd_2025 :=
           count_where (fun r => year_is 2025 r && requested_by c r) df;
         ytd_2026 :=
           count_where (fun r => year_is 2026 r && requested_by today r) df;
         ytd_delta :=
           count_where (fun r => year_is 2026 r && requested_by today r) df
           - count_where (fun r => year_is 2025 r && requested_by c r) df |}.
Proof.
  unfold aggregate, mk_date.
  destruct (valid_date 2025 (month today) (day today)); cbn [bind];
    [|discriminate].
  intros H. injection H as <-. unfold year_rows.
  rewrite !filter_filter, !len_filter. reflexivity.
Qed.

End CountFacts.

Section InsightClaims.

Import Helpers App Spec Sample.
Local Open Scope Z_scope.

(** X17. Whenever the aggregation of [app.py] returns, its numbers are
    consistent: a year-to-date count is between 0 and the full-year count of
    its year, the two full-year counts together do not exceed the number of
    rows left by the filters (a row is of one year at most), so each delta
    lies between minus the count of 2025 and the count of 2026, and the
    cutoff is the day and month of [today] in 2025. *)
Theorem aggregate_numbers_are_consistent :
  forall (df : list coerced_request) (today : date) (m : metrics),
    aggregate df today = Ok m ->
    0 <= ytd_2025 m <= count_2025 m
    /\ 0 <= ytd_2026 m <= count_2026 m
    /\ count_2025 m + count_2026 m <= PyList.len df
    /\ - count_2025 m <= yoy_delta m <= count_2026 m
    /\ - ytd_2025 m <= ytd_delta m <= ytd_2026 m
    /\ cutoff_2025 m = {| year := 2025; month := month today;
                          day := day today |}.
Proof.
  intros df today m H. apply aggregate_ok in H. subst m.
  cbn [count_2025 count_2026 yoy_delta cutoff_2025 ytd_2025 ytd_2026
       ytd_delta].
  set (c := {| year := 2025; month := month today; day := day today |}).
  pose proof (count_where_bounds _
                (fun r => year_is 2025 r && requested_by c r) df) as B1.
  pose proof (count_where_bounds _
                (fun r => year_is 2026 r && requested_by today r) df) as B2.
  pose proof (count_where_mono _
                (fun r => year_is 2025 r && requested_by c r)
                (year_is 2025) df) as M1.
  pose proof (count_where_mono _
                (fun r => year_is 2026 r && requested_by today r)
                (year_is 2026) df) as M2.
  pose proof (count_where_disjoint _ (year_is 2025) (year_is 2026) df
                years_apart) as D.
  pose proof (count_where_bounds _ (year_is 2025) df) as B3.
  pose proof (count_where_bounds _ (year_is 2026) df) as B4.
  assert (M1' := M1 (fun r _ E => proj1 (proj1 (andb_true_iff _ _) E))).
  assert (M2' := M2 (fun r _ E => proj1 (proj1 (andb_true_iff _ _) E))).
  repeat split; try lia.
Qed.

Lemma aggregate_numbers_are_consistent_witness :
  aggregate scenario (ymd 2026 3 15)
  = Ok {| count_2025 := 2; count_2026 := 1; yoy_delta := -1;
          cutoff_2025 := ymd 2025 3 15;
          ytd_2025 := 1; ytd_2026 := 1; ytd_delta := 0 |}
  /\ 2 + 1 <= PyList.len scenario.
Proof.
  split; [reflexivity|].
  exact (proj1 (proj2 (proj2
           (aggregate_numbers_are_consistent scenario (ymd 2026 3 15) _
              eq_refl)))).
Defined.

(** X18. On the same rows, moving [today] changes neither full-year count;
    a later [today] never lowers the year-to-date count of 2026, and a
    [today] that is not earlier in the calendar (month, then day) never
    lowers the year-to-date count of 2025. *)
Theorem year_to_date_grows_with_today :
  forall (df : list coerced_request) (today today' : date) (m m' : metrics),
    aggregate df today = Ok m ->
    aggregate df today' = Ok m' ->
    count_2025 m' = count_2025 m
    /\ count_2026 m' = count_2026 m
    /\ (date_le today today' -> ytd_2026 m <= ytd_2026 m')
    /\ (month today < month today'
        \/ (month today = month today' /\ day today <= day today') ->
        ytd_2025 m <= ytd_2025 m').
Proof.
  intros df today today' m m' H H'.
  apply aggregate_ok in H, H'. subst m m'.
  cbn [count_2025 count_2026 ytd_2025 ytd_2026].
  split; [reflexivity|]. split; [reflexivity|]. split.
  - intros Hle. apply count_where_mono. intros r _ E.
    apply andb_true_iff in E as [E1 E2]. apply andb_true_iff. split.
    + exact E1.
    + exact (requested_by_mono _ _ r Hle E2).
  - intros Hle. apply count_where_mono. intros r _ E.
    apply andb_true_iff in E as [E1 E2]. apply andb_true_iff. split.
    + exact E1.
    + refine (requested_by_mono _ _ r _ E2).
      unfold date_le. cbn [year month day]. lia.
Qed.

Lemma year_to_date_grows_with_today_witness :
  date_le (ymd 2026 1 15) (ymd 2026 3 15)
  /\ 0 <= 1.
Proof.
  assert (H : date_le (ymd 2026 1 15) (ymd 2026 3 15)).
  { unfold date_le. cbn. lia. }
  split; [exact H|].
  exact (proj1 (proj2 (proj2
           (year_to_date_grows_with_today scenario (ymd 2026 1 15)
              (ymd 2026 3 15) _ _ eq_refl eq_refl))) H).
Defined.

(** X19. The two scripts compute the same thing from the same answer of
    the store and the same two choices: whenever [app.py] renders, so does
    [individual_search.py], with the same option lists, the same filtered
    table, the same rows of 2025 and of 2026 (which it only counts) and, as
    its delta, the year-over-year delta of [app.py]. The rows of a year are
    the rows of the filtered table whose year is that one, in their order,
    so no row is in both year tables. *)
Theorem both_scripts_show_the_same :
  forall (numeric_of_text : string -> option Q)
         (date_of_text : string -> option date)
         (data : list raw_request) (status_choice event_choice : string)
         (today : date) (out : App.insights),
    App.render_org_insights numeric_of_text date_of_text data
      status_choice event_choice today = Ok out ->
    exists out' : IndividualSearch.insights,
      IndividualSearch.render_org_insights numeric_of_text date_of_text data
        status_choice event_choice = Ok out'
      /\ IndividualSearch.status_options out' = App.status_options out
      /\ IndividualSearch.event_options out' = App.event_options out
      /\ IndividualSearch.df out' = taball out
      /\ IndividualSearch.df_2025 out' = tab25 out
      /\ IndividualSearch.df_2026 out' = tab26 out
      /\ IndividualSearch.delta out' = yoy_delta (shown_metrics out)
      /\ tab25 out = filter (year_is 2025) (taball out)
      /\ tab26 out = filter (year_is 2026) (taball out)
      /\ (forall r, In r (tab25 out) -> ~ In r (tab26 out)).
Proof.
  intros nt dt data sc ec today out H.
  unfold App.render_org_insights in H.
  destruct data as [|r0 data]; [discriminate|].
  cbv zeta in H.
  destruct (aggregate _ today) as [m| |e] eqn:Em; cbn [bind] in H;
    try discriminate.
  injection H as <-.
  eexists. split; [reflexivity|].
  cbn [IndividualSearch.status_options IndividualSearch.event_options
       IndividualSearch.df IndividualSearch.df_2025 IndividualSearch.df_2026
       IndividualSearch.delta App.status_options App.event_options
       taball tab25 tab26 shown_metrics].
  repeat (split; [reflexivity|]).
  split.
  - apply aggregate_ok in Em. subst m. cbn [yoy_delta].
    unfold year_rows. rewrite !len_filter. reflexivity.
  - repeat (split; [reflexivity|]).
    intros r H25 H26. unfold year_rows in *.
    apply filter_In in H25 as [_ H25]. apply filter_In in H26 as [_ H26].
    apply years_apart in H25. congruence.
Qed.

Lemma both_scripts_show_the_same_witness :
  exists out' : IndividualSearch.insights,
    IndividualSearch.render_org_insights no_number march_first
      [raw "Confirmed" (JNumber (inject_Z 2025))] "All" "All" = Ok out'
    /\ IndividualSearch.delta out' = -1.
Proof.
  destruct (both_scripts_show_the_same no_number march_first
              [raw "Confirmed" (JNumber (inject_Z 2025))] "All" "All"
              (ymd 2026 3 15) _ eq_refl)
    as (out' & E & _ & _ & _ & _ & _ & D & _).
  exists out'. split; [exact E|exact D].
Defined.

End InsightClaims.

(** ** Laws of the two drop-down filters *)

Section FilterClaims.

Import Helpers Spec Sample.
Local Open Scope string_scope.

Lemma filter_idem (T : Type) (p : T -> bool) (l : list T) :
  filter p (filter p l) = filter p l.
Proof.
  rewrite filter_filter. apply filter_ext. intros r. now destruct (p r).
Qed.

Lemma passes_split (Y D : Type) (sc ec : string) (r : request Y D) :
  passes sc ec r = passes sc "All" r && passes "All" ec r.
Proof.
  unfold passes. change ("All" =? "All") with true. cbn [orb andb].
  now rewrite andb_true_r.
Qed.

(** X20. The two filters select rows and do nothing else: the result holds
    the rows that pass both choices, in their order; filtering again with
    the same choices changes nothing; filtering by the status and then by
    the event, or the other way round, is filtering by both at once; and the
    result of a batch put together from two is the two results put
    together. *)
Theorem filters_select_and_compose :
  forall (Y D : Type) (d d' : list (request Y D))
         (status_choice event_choice : string),
    let apply := @apply_dropdown_filters Y D in
    apply d status_choice event_choice
    = filter (passes status_choice event_choice) d
    /\ (forall r, In r (apply d status_choice event_choice)
                  <-> In r d /\ passes status_choice event_choice r = true)
    /\ apply (apply d status_choice event_choice) status_choice event_choice
       = apply d status_choice event_choice
    /\ apply (apply d status_choice "All") "All" event_choice
       = apply d status_choice event_choice
    /\ apply (apply d "All" event_choice) status_choice "All"
       = apply d status_choice event_choice
    /\ apply (d ++ d')%list status_choice event_choice
       = (apply d status_choice event_choice
          ++ apply d' status_choice event_choice)%list
    /\ apply d "All" "All" = d.
Proof.
  intros Y D d d' sc ec apply. unfold apply.
  rewrite !filters_are_passes.
  split; [reflexivity|]. split; [intros r; apply filter_In|].
  split; [apply filter_idem|]. split; [|split; [|split]].
  - rewrite filter_filter. apply filter_ext. intros r.
    symmetry. apply passes_split.
  - rewrite filter_filter. apply filter_ext. intros r.
    rewrite andb_comm. symmetry. apply passes_split.
  - apply filter_app.
  - induction d as [|r d IH]; cbn [filter]; [reflexivity|].
    change (passes "All" "All" r) with true. cbv iota. now rewrite IH.
Qed.

Lemma offered_is_a_value (col : list (option string)) (s : string) :
  In s (with_all (unique (dropna col))) -> s <> "All" ->
  In (Some s) col /\ s <> "" /\ s <> "nan".
Proof.
  intros Hin Hne.
  destruct (options_of_column col) as (l & E & _ & Hl).
  rewrite E in Hin. destruct Hin as [Hin|Hin]; [congruence|].
  apply Hl in Hin. tauto.
Qed.

(** X21. Every option of a select box other than ["All"] selects
    something: it is the status (the event name) of a request of the batch,
    choosing it leaves at least one row, and every row it leaves has that
    status (that event name). *)
Theorem offered_option_selects_rows :
  forall (df : list coerced_request) (s : string),
    s <> "All" ->
    (In s (status_options_of df) ->
     apply_dropdown_filters df s "All" <> []
     /\ forall r, In r (apply_dropdown_filters df s "All") ->
                  In r df /\ registration_status r = Some s)
    /\ (In s (event_options_of df) ->
        apply_dropdown_filters df "All" s <> []
        /\ forall r, In r (apply_dropdown_filters df "All" s) ->
                     In r df /\ event_name r = Some s).
Proof.
  intros df s Hne.
  assert (Hs : (s =? "All") = false) by now apply String.eqb_neq.
  split; intros Hin.
  - apply offered_is_a_value in Hin as (Hin & _); [|exact Hne].
    apply in_map_iff in Hin as (r & Er & Hr).
    rewrite filter_all_event, Hs. split.
    + intros E. assert (Hf : In r (filter (fun r => cell_is s (registration_status r)) df)).
      { apply filter_In. split; [exact Hr|]. now apply cell_is_spec. }
      rewrite E in Hf. exact Hf.
    + intros r' Hr'. apply filter_In in Hr' as [H1 H2].
      split; [exact H1|]. now apply cell_is_spec.
  - apply offered_is_a_value in Hin as (Hin & _); [|exact Hne].
    apply in_map_iff in Hin as (r & Er & Hr).
    rewrite filter_all_status, Hs. split.
    + intros E. assert (Hf : In r (filter (fun r => cell_is s (event_name r)) df)).
      { apply filter_In. split; [exact Hr|]. now apply cell_is_spec. }
      rewrite E in Hf. exact Hf.
    + intros r' Hr'. apply filter_In in Hr' as [H1 H2].
      split; [exact H1|]. now apply cell_is_spec.
Qed.

Lemma offered_option_selects_rows_witness :
  "Confirmed" <> "All"
  /\ apply_dropdown_filters [with_status "Confirmed"; with_status "Waitlist"]
       "Confirmed" "All" <> [].
Proof.
  assert (H : "Confirmed" <> "All") by discriminate.
  split; [exact H|].
  apply (proj1 (offered_option_selects_rows
                  [with_status "Confirmed"; with_status "Waitlist"]
                  "Confirmed" H)).
  vm_compute. right. left. reflexivity.
Defined.

End FilterClaims.

(** ** Choosing a row by its label *)

Section PickFacts.

Import PyStr PyFormat IndividualSearch Pick.
Local Open Scope string_scope.

Lemma str_inj (n m : Z) : str n = str m -> n = m.
Proof.
  intros E. pose proof (int_str n) as Hn. rewrite E, int_str in Hn.
  congruence.
Qed.

Lemma in_append (a b : string) (c : ascii) :
  In c (list_ascii_of_string (a ++ b))
  <-> In c (list_ascii_of_string a) \/ In c (list_ascii_of_string b).
Proof.
  induction a as [|x a IH]; cbn [append list_ascii_of_string In].
  - tauto.
  - rewrite IH. tauto.
Qed.

(** Two texts that end in number characters after a character that is not
    one end in the same number characters when they are equal. *)
Lemma number_suffix_unique (P : ascii -> bool) (x y s t : string)
    (q q' : ascii) :
  (forall c, In c (list_ascii_of_string s) -> P c = true) ->
  (forall c, In c (list_ascii_of_string t) -> P c = true) ->
  P q = false -> P q' = false ->
  x ++ String q s = y ++ String q' t -> s = t.
Proof.
  intros Hs Ht Hq Hq'. revert y.
  induction x as [|c x IH]; intros [|d y] E; cbn [append] in E.
  - now injection E.
  - injection E as _ E. exfalso.
    assert (Hin : In q' (list_ascii_of_string s)).
    { rewrite E. apply in_append. right. now left. }
    rewrite (Hs _ Hin) in Hq'. discriminate.
  - injection E as _ E. exfalso.
    assert (Hin : In q (list_ascii_of_string t)).
    { rewrite <- E. apply in_append. right. now left. }
    rewrite (Ht _ Hin) in Hq. discriminate.
  - injection E as _ E. exact (IH y E).
Qed.

Lemma append_last (x y : string) (q q' : ascii) :
  x ++ String q "" = y ++ String q' "" -> q = q'.
Proof.
  revert y. induction x as [|c x IH]; intros [|d y] E; cbn [append] in E.
  - now injection E.
  - injection E as _ E. destruct y; discriminate.
  - injection E as _ E. destruct x; discriminate.
  - injection E as _ E. exact (IH y E).
Qed.

Lemma at_label_cons (T : Type) (f : T -> string) (r : T) (rows : list T)
    (choice : string) :
  at_label (r :: rows) (map f (r :: rows)) choice
  = if f r =? choice then Shown r
    else at_label rows (map f rows) choice.
Proof.
  unfold at_label. cbn [map index].
  destruct (f r =? choice); [reflexivity|].
  destruct (index (map f rows) choice) as [i|]; reflexivity.
Qed.

(** [rows[labels.index(choice)]] is the first row with the label [choice]. *)
Lemma at_label_first (T : Type) (f : T -> string) (rows : list T)
    (choice : string) :
  In choice (map f rows) ->
  exists (row : T) (before after : list T),
    at_label rows (map f rows) choice = Shown row
    /\ rows = (before ++ row :: after)%list
    /\ f row = choice
    /\ forall r, In r before -> f r <> choice.
Proof.
  induction rows as [|r rows IH]; intros Hin; [destruct Hin|].
  rewrite at_label_cons. destruct (String.eqb_spec (f r) choice) as [E|N].
  - exists r, [], rows. repeat split; [exact E|]. intros r' [].
  - destruct Hin as [Hin|Hin]; [contradiction|].
    destruct (IH Hin) as (row & before & after & H1 & H2 & H3 & H4).
    exists row, (r :: before), after. split; [exact H1|].
    split; [now rewrite H2|]. split; [exact H3|].
    intros r' [<-|Hr']; [exact N|now apply H4].
Qed.

Lemma at_label_absent (T : Type) (f : T -> string) (rows : list T)
    (choice : string) :
  ~ In choice (map f rows) ->
  at_label rows (map f rows) choice = Faulted (Exn ValueError).
Proof.
  induction rows as [|r rows IH]; intros Hin; [reflexivity|].
  rewrite at_label_cons. destruct (String.eqb_spec (f r) choice) as [E|N].
  - exfalso. apply Hin. left. exact E.
  - apply IH. intros H. apply Hin. right. exact H.
Qed.

Lemma at_label_inside (T : Type) (f : T -> string) (rows : list T)
    (choice : string) :
  at_label rows (map f rows) choice <> Faulted IndexError.
Proof.
  induction rows as [|r rows IH]; [discriminate|].
  rewrite at_label_cons. destruct (f r =? choice); [discriminate|exact IH].
Qed.

Lemma org_label_id (dash : string) (o o' : org) :
  org_label dash o = org_label dash o' ->
  organization_id o = organization_id o'.
Proof.
  unfold org_label. intros H. apply str_inj.
  eapply (number_prefix_unique (fun c => isdigit c || Ascii.eqb c "-"%char));
    [apply str_chars|apply str_chars| | |exact H]; reflexivity.
Qed.

(** No label is a placeholder: a placeholder starts with two hyphens. *)
Lemma org_label_not_placeholder (dash : string) (o : org) (r : string) :
  org_label dash o <> "-- " ++ r.
Proof.
  unfold org_label. intros H.
  assert (E : str (organization_id o) = "--").
  { eapply (number_prefix_unique
              (fun c => isdigit c || Ascii.eqb c "-"%char)
              (str (organization_id o)) "--");
      [apply str_chars| | | |exact H]; try reflexivity.
    intros c [<-|[<-|[]]]; reflexivity. }
  pose proof (int_str (organization_id o)) as Hi. rewrite E in Hi.
  discriminate Hi.
Qed.

Lemma rep_label_id (r r' : rep) :
  rep_label r = rep_label r' -> rep_id r = rep_id r'.
Proof.
  unfold rep_label. intros H. apply str_inj.
  set (P := fun c => isdigit c || Ascii.eqb c "-"%char).
  assert (Hc : forall n c, In c (list_ascii_of_string (str n ++ ")")) ->
                           P c || Ascii.eqb c ")"%char = true).
  { intros n c Hc. apply in_append in Hc as [Hc|[<-|[]]]; [|reflexivity].
    unfold P. now rewrite (str_chars n c Hc). }
  assert (E : str (rep_id r) ++ ")" = str (rep_id r') ++ ")").
  { change (shown (rep_name r) ++ " (ID" ++ String " " (str (rep_id r) ++ ")")
            = shown (rep_name r') ++ " (ID"
              ++ String " " (str (rep_id r') ++ ")")) in H.
    rewrite <- !append_assoc' in H.
    eapply (number_suffix_unique
              (fun c => P c || Ascii.eqb c ")"%char));
      [apply Hc|apply Hc| | |exact H]; reflexivity. }
  eapply (number_prefix_unique P);
    [apply str_chars|apply str_chars| | |exact E]; reflexivity.
Qed.

Lemma rep_label_not_placeholder (r : rep) : rep_label r <> no_person.
Proof.
  unfold rep_label, no_person. intros H.
  change "-- Select --" with ("-- Select -" ++ String "-" "") in H.
  change (shown (rep_name r) ++ " (ID " ++ str (rep_id r) ++ ")")
    with (shown (rep_name r) ++ (" (ID " ++ (str (rep_id r) ++ String ")" "")))
    in H.
  rewrite <- !append_assoc' in H. apply append_last in H. discriminate H.
Qed.

Lemma pick_org_chosen (dash placeholder : string) (rows : list org)
    (choice : string) :
  (exists r, placeholder = "-- " ++ r) ->
  In choice (map (org_label dash) rows) ->
  exists (o : org) (before after : list org),
    pick_org dash placeholder rows choice = Shown (o, organization_id o)
    /\ rows = (before ++ o :: after)%list
    /\ org_label dash o = choice
    /\ (forall o', In o' before -> org_label dash o' <> choice)
    /\ (forall o', In o' rows -> org_label dash o' = choice ->
                   organization_id o' = organization_id o).
Proof.
  intros (r & ->) Hin.
  destruct (at_label_first _ (org_label dash) rows choice Hin)
    as (o & before & after & H1 & H2 & H3 & H4).
  exists o, before, after. unfold pick_org. cbv zeta.
  destruct (String.eqb_spec choice ("-- " ++ r)) as [E|N].
  - exfalso. rewrite <- H3 in E.
    exact (org_label_not_placeholder dash o r E).
  - rewrite H1. cbn [and_then]. repeat split; try assumption.
    intros o' _ E. apply (org_label_id dash). congruence.
Qed.

Lemma pick_rep_chosen (reps : list rep) (rep_choice : string) :
  In rep_choice (map rep_label reps) ->
  exists (r : rep) (before after : list rep),
    pick_rep reps rep_choice = Shown (r, rep_id r)
    /\ reps = (before ++ r :: after)%list
    /\ rep_label r = rep_choice
    /\ (forall r', In r' before -> rep_label r' <> rep_choice)
    /\ (forall r', In r' reps -> rep_label r' = rep_choice ->
                   rep_id r' = rep_id r).
Proof.
  intros Hin.
  destruct (at_label_first _ rep_label reps rep_choice Hin)
    as (r & before & after & H1 & H2 & H3 & H4).
  exists r, before, after. unfold pick_rep.
  destruct reps as [|r0 reps']; [destruct Hin|]. cbv zeta.
  destruct (String.eqb_spec rep_choice no_person) as [E|N].
  - exfalso. rewrite <- H3 in E. exact (rep_label_not_placeholder r E).
  - rewrite H1. cbn [and_then]. repeat split; try assumption.
    intros r' _ E. apply rep_label_id. congruence.
Qed.

Lemma pick_org_shown (dash placeholder : string) (rows : list org)
    (choice : string) (o : org) (id : Z) :
  pick_org dash placeholder rows choice = Shown (o, id) ->
  In o rows /\ org_label dash o = choice /\ id = organization_id o.
Proof.
  unfold pick_org. cbv zeta. destruct (choice =? placeholder); [discriminate|].
  destruct (in_dec string_dec choice (map (org_label dash) rows)) as [Hin|Hn].
  - destruct (at_label_first _ (org_label dash) rows choice Hin)
      as (o' & before & after & H1 & H2 & H3 & _).
    rewrite H1. cbn [and_then]. intros H. injection H as <- <-.
    split; [|split; [exact H3|reflexivity]].
    rewrite H2. apply in_elt.
  - rewrite (at_label_absent _ (org_label dash) rows choice Hn). discriminate.
Qed.

Lemma pick_rep_shown (reps : list rep) (rep_choice : string) (r : rep)
    (id : Z) :
  pick_rep reps rep_choice = Shown (r, id) ->
  In r reps /\ rep_label r = rep_choice /\ id = rep_id r.
Proof.
  unfold pick_rep. destruct reps as [|r0 reps']; [discriminate|].
  set (reps := r0 :: reps'). cbv zeta.
  destruct (rep_choice =? no_person); [discriminate|].
  destruct (in_dec string_dec rep_choice (map rep_label reps)) as [Hin|Hn].
  - destruct (at_label_first _ rep_label reps rep_choice Hin)
      as (r' & before & after & H1 & H2 & H3 & _).
    rewrite H1. cbn [and_then]. intros H. injection H as <- <-.
    split; [|split; [exact H3|reflexivity]].
    rewrite H2. apply in_elt.
  - rewrite (at_label_absent _ rep_label reps rep_choice Hn). discriminate.
Qed.

Lemma cells_name_some (cells : list (option Z)) :
  (exists n : Z, In (Some n) cells) \/ (forall n : Z, ~ In (Some n) cells).
Proof.
  induction cells as [|[m|] cells [(n & Hn)|Hno]].
  - right. intros n [].
  - left. exists n. now right.
  - left. exists m. now left.
  - left. exists n. now right.
  - right. intros n [H|H]; [discriminate|exact (Hno n H)].
Qed.

End PickFacts.

Section PickClaims.

Import PyStr PyFormat AppQueries IndividualSearch Pick.
Local Open Scope string_scope.

(** X22. The select box of organisations, in both scripts. The placeholder
    stops the run. A label of the list picks the first row that has it,
    with the identifier of that row as [org_id]; labels of rows with
    different identifiers differ, so the identifier is the one written at
    the head of the chosen label, whichever row has it. No label is the
    placeholder. A text that is neither raises [ValueError], and the
    subscript never leaves the list. *)
Theorem chosen_label_picks_its_organisation :
  forall (dash placeholder : string) (rows : list org) (choice : string),
    placeholder = no_person \/ placeholder = SearchUI.placeholder ->
    (choice = placeholder ->
     pick_org dash placeholder rows choice = Halted)
    /\ (In choice (map (org_label dash) rows) ->
        exists (o : org) (before after : list org),
          pick_org dash placeholder rows choice
          = Shown (o, organization_id o)
          /\ rows = (before ++ o :: after)%list
          /\ org_label dash o = choice
          /\ (forall o', In o' before -> org_label dash o' <> choice)
          /\ (forall o', In o' rows -> org_label dash o' = choice ->
                         organization_id o' = organization_id o))
    /\ (choice <> placeholder ->
        ~ In choice (map (org_label dash) rows) ->
        pick_org dash placeholder rows choice = Faulted (Exn ValueError))
    /\ pick_org dash placeholder rows choice <> Faulted IndexError
    /\ (forall o o' : org,
           org_label dash o = org_label dash o' ->
           organization_id o = organization_id o')
    /\ (forall o : org, org_label dash o <> placeholder).
Proof.
  intros dash placeholder rows choice Hp.
  assert (Hp' : exists r, placeholder = "-- " ++ r).
  { destruct Hp as [->| ->]; eexists; reflexivity. }
  split; [|split; [|split; [|split; [|split]]]].
  - intros ->. unfold pick_org. now rewrite String.eqb_refl.
  - apply pick_org_chosen. exact Hp'.
  - intros Hne Hn. unfold pick_org. cbv zeta.
    apply String.eqb_neq in Hne. rewrite Hne.
    now rewrite (at_label_absent _ (org_label dash) rows choice Hn).
  - unfold pick_org. cbv zeta. destruct (choice =? placeholder);
      [discriminate|].
    pose proof (at_label_inside _ (org_label dash) rows choice) as H.
    match goal with
    | |- context [and_then ?m _] => destruct m as [x| |f]
    end; cbn [and_then]; [discriminate|discriminate|].
    intros E. apply H. injection E as ->. reflexivity.
  - apply org_label_id.
  - destruct Hp' as (r & ->). intros o. apply org_label_not_placeholder.
Qed.

Lemma chosen_label_picks_its_organisation_witness :
  In "30 - Bats (None, GA)"
    (map (org_label "-")
       [Sample.named 12 "Canes";
        {| organization_id := 30; organization_name := Some "Bats";
           org_city := None; org_state := Some "GA" |}])
  /\ exists (o : org) (before after : list org),
       pick_org "-" SearchUI.placeholder
         [Sample.named 12 "Canes";
          {| organization_id := 30; organization_name := Some "Bats";
             org_city := None; org_state := Some "GA" |}]
         "30 - Bats (None, GA)"
       = Shown (o, organization_id o)
       /\ org_label "-" o = "30 - Bats (None, GA)".
Proof.
  assert (H : In "30 - Bats (None, GA)"
                (map (org_label "-")
                   [Sample.named 12 "Canes";
                    {| organization_id := 30; organization_name := Some "Bats";
                       org_city := None; org_state := Some "GA" |}])).
  { right. left. reflexivity. }
  split; [exact H|].
  destruct (proj1 (proj2 (chosen_label_picks_its_organisation "-"
                            SearchUI.placeholder _ _ (or_intror eq_refl))) H)
    as (o & before & after & E & _ & El & _).
  exists o, before, after. split; [exact E|exact El].
Defined.

(** X23. The select box of people in [app.py]. With no people, or with the
    placeholder selected, the run stops. A label of the list picks the
    first person who has it, with that person's identifier as [rep_id];
    people with different identifiers have different labels, and no label
    is the placeholder. A text that is neither raises [ValueError], and the
    subscript never leaves the list. *)
Theorem chosen_label_picks_its_person :
  forall (reps : list rep) (rep_choice : string),
    (reps = [] \/ rep_choice = no_person ->
     pick_rep reps rep_choice = Halted)
    /\ (In rep_choice (map rep_label reps) ->
        exists (r : rep) (before after : list rep),
          pick_rep reps rep_choice = Shown (r, rep_id r)
          /\ reps = (before ++ r :: after)%list
          /\ rep_label r = rep_choice
          /\ (forall r', In r' before -> rep_label r' <> rep_choice)
          /\ (forall r', In r' reps -> rep_label r' = rep_choice ->
                         rep_id r' = rep_id r))
    /\ (reps <> [] -> rep_choice <> no_person ->
        ~ In rep_choice (map rep_label reps) ->
        pick_rep reps rep_choice = Faulted (Exn ValueError))
    /\ pick_rep reps rep_choice <> Faulted IndexError
    /\ (forall r r' : rep,
           rep_label r = rep_label r' -> rep_id r = rep_id r')
    /\ (forall r : rep, rep_label r <> no_person).
Proof.
  intros reps rep_choice.
  split; [|split; [|split; [|split; [|split]]]].
  - intros [-> | ->]; [reflexivity|]. unfold pick_rep.
    destruct reps; [reflexivity|]. cbv zeta. now rewrite String.eqb_refl.
  - apply pick_rep_chosen.
  - intros Hne Hc Hn. unfold pick_rep.
    destruct reps as [|r0 reps']; [congruence|]. cbv zeta.
    apply String.eqb_neq in Hc. rewrite Hc.
    now rewrite (at_label_absent _ rep_label (r0 :: reps') rep_choice Hn).
  - unfold pick_rep. destruct reps as [|r0 reps']; [discriminate|].
    cbv zeta. destruct (rep_choice =? no_person); [discriminate|].
    pose proof (at_label_inside _ rep_label (r0 :: reps') rep_choice) as H.
    match goal with
    | |- context [and_then ?m _] => destruct m as [x| |f]
    end; cbn [and_then]; [discriminate|discriminate|].
    intros E. apply H. injection E as ->. reflexivity.
  - apply rep_label_id.
  - apply rep_label_not_placeholder.
Qed.

Lemma chosen_label_picks_its_person_witness :
  In "Ann (ID 7)"
    (map rep_label [{| rep_id := 3; rep_name := None |};
                    {| rep_id := 7; rep_name := Some "Ann" |}])
  /\ exists (r : rep) (before after : list rep),
       pick_rep [{| rep_id := 3; rep_name := None |};
                 {| rep_id := 7; rep_name := Some "Ann" |}] "Ann (ID 7)"
       = Shown (r, rep_id r)
       /\ rep_label r = "Ann (ID 7)".
Proof.
  assert (H : In "Ann (ID 7)"
                (map rep_label [{| rep_id := 3; rep_name := None |};
                                {| rep_id := 7; rep_name := Some "Ann" |}])).
  { right. left. reflexivity. }
  split; [exact H|].
  destruct (proj1 (proj2 (chosen_label_picks_its_person _ _)) H)
    as (r & before & after & E & _ & El & _).
  exists r, before, after. split; [exact E|exact El].
Defined.

(** X24. The page of [app.py] from the list of people to the call of
    [render_org_insights], over a store that answers from a table of
    organisations and the assignment rows of each person. When the page
    gets to the insights of an organisation, the people query returned a
    person whose label is the person chosen, the organisation is in the
    table, its label is the one chosen and its identifier, the [org_id]
    passed on, is named by an assignment row of that person. And choosing
    the label of a person and then the label of one of the person's
    organisations gets to the insights of the organisation with that
    identifier. *)
Theorem app_page_shows_an_assigned_organisation :
  forall (dash : string) (client : AppQueries.Store) (orgs : list org)
         (cells : Z -> list (option Z))
         (reps_answer : outcome (option (list rep))),
    (forall rep_id : Z,
        assignments client rep_id = Ok (Some (cells rep_id))) ->
    (forall batch : list Z,
        orgs_in client batch
        = Ok (Some (filter
                      (fun o => existsb (Z.eqb (organization_id o)) batch)
                      orgs))) ->
    (forall (rep_choice choice : string) (o : org) (org_id : Z),
        app_page dash client reps_answer rep_choice choice
        = Shown (o, org_id) ->
        exists (reps : list rep) (r : rep),
          reps_answer = Ok (Some reps)
          /\ In r reps /\ rep_label r = rep_choice
          /\ In o orgs /\ org_label dash o = choice
          /\ org_id = organization_id o
          /\ In (Some org_id) (cells (rep_id r)))
    /\ (forall (reps : list rep) (r : rep) (o : org),
           reps_answer = Ok (Some reps) ->
           In r reps -> In o orgs ->
           In (Some (organization_id o)) (cells (rep_id r)) ->
           exists o' : org,
             app_page dash client reps_answer (rep_label r)
               (org_label dash o)
             = Shown (o', organization_id o)
             /\ In o' orgs
             /\ org_label dash o' = org_label dash o).
Proof.
  intros dash client orgs cells reps_answer Ha Ho. split.
  - intros rep_choice choice o org_id H. unfold app_page in H.
    destruct reps_answer as [data| |e]; cbn [lift and_then] in H;
      try discriminate.
    destruct (pick_rep (data_or_empty data) rep_choice) as [[r id]| |f] eqn:Er;
      cbn [and_then] in H; try discriminate.
    apply pick_rep_shown in Er as (Hr & Hl & ->).
    destruct data as [reps|]; [|destruct Hr]. cbn [data_or_empty] in Hr.
    destruct (assigned_orgs client (rep_id r)) as [rows| |e] eqn:Erows;
      cbn [lift and_then] in H; try discriminate.
    apply pick_org_shown in H as (Hin & Hlo & ->).
    exists reps, r. split; [reflexivity|]. split; [exact Hr|].
    split; [exact Hl|].
    destruct (assigned_orgs_rows client orgs (cells (rep_id r)) (rep_id r)
                (Ha _) Ho) as [Hnone Hsome].
    destruct (cells_name_some (cells (rep_id r))) as [Hex|Hno].
    + destruct (Hsome Hex) as (rows' & Er' & _ & Hperm).
      rewrite Erows in Er'. injection Er' as <-.
      apply (Permutation_in _ Hperm), named_by_cells in Hin as [H1 H2].
      repeat split; assumption.
    + rewrite (Hnone Hno) in Erows. discriminate.
  - intros reps r o -> Hr Hin Hcell. unfold app_page.
    cbn [lift and_then data_or_empty].
    destruct (pick_rep_chosen reps (rep_label r) (in_map rep_label _ _ Hr))
      as (r' & _ & _ & Er & _ & _ & _ & Hid).
    rewrite Er. cbn [and_then]. rewrite <- (Hid r Hr eq_refl).
    destruct (assigned_orgs_rows client orgs (cells (rep_id r)) (rep_id r)
                (Ha _) Ho) as [_ Hsome].
    destruct (Hsome (ex_intro (fun n => In (Some n) _) _ Hcell))
      as (rows & Erows & _ & Hperm).
    rewrite Erows. cbn [lift and_then].
    assert (Hrows : forall x, In x rows
                              <-> In x orgs
                                  /\ In (Some (organization_id x))
                                       (cells (rep_id r))).
    { intros x. rewrite <- named_by_cells. split; intros Hi.
      - exact (Permutation_in _ Hperm Hi).
      - exact (Permutation_in _ (Permutation_sym Hperm) Hi). }
    assert (Ho' : In o rows) by (apply Hrows; split; assumption).
    destruct (pick_org_chosen dash no_person rows (org_label dash o)
                (ex_intro _ "Select --" eq_refl)
                (in_map (org_label dash) _ _ Ho'))
      as (o' & before & after & Eo & Hrows' & El & _ & Hido).
    rewrite Eo, (Hido o Ho' eq_refl).
    exists o'. split; [reflexivity|]. split; [|exact El].
    apply (Hrows o'). rewrite Hrows'. apply in_elt.
Qed.

Lemma app_page_shows_an_assigned_organisation_witness :
  exists o' : org,
    app_page "-"
      (table_store [Sample.named 12 "Canes"; Sample.named 30 "Bats"]
         [(7, Some 30); (7, None); (8, Some 12)]%Z)
      (Ok (Some [{| rep_id := 3; rep_name := None |};
                 {| rep_id := 7; rep_name := Some "Ann" |}]))
      "Ann (ID 7)" (org_label "-" (Sample.named 30 "Bats"))
    = Shown (o', 30%Z)
    /\ In o' [Sample.named 12 "Canes"; Sample.named 30 "Bats"].
Proof.
  destruct (proj2 (app_page_shows_an_assigned_organisation "-"
                     (table_store
                        [Sample.named 12 "Canes"; Sample.named 30 "Bats"]
                        [(7, Some 30); (7, None); (8, Some 12)]%Z)
                     [Sample.named 12 "Canes"; Sample.named 30 "Bats"]
                     (fun rep =>
                        map snd
                          (filter (fun a => (fst a =? rep)%Z)
                             [(7, Some 30); (7, None); (8, Some 12)]%Z))
                     (Ok (Some [{| rep_id := 3; rep_name := None |};
                                {| rep_id := 7; rep_name := Some "Ann" |}]))
                     (fun _ => eq_refl) (fun _ => eq_refl))
              _ {| rep_id := 7; rep_name := Some "Ann" |}
              (Sample.named 30 "Bats") eq_refl
              (or_intror (or_introl eq_refl))
              (or_intror (or_introl eq_refl))
              (or_introl eq_refl))
    as (o' & E & Hin & _).
  exists o'. split; [exact E|exact Hin].
Defined.

End PickClaims.

(** ** More on the ranking of candidates *)

Section RankFacts.

Import Helpers IndividualSearch Spec.

Lemma lower_char_idem (c : ascii) :
  PyStr.lower_char (PyStr.lower_char c) = PyStr.lower_char c.
Proof. destruct c as [[] [] [] [] [] [] [] []]; reflexivity. Qed.

Lemma lower_idem (s : string) : PyStr.lower (PyStr.lower s) = PyStr.lower s.
Proof.
  induction s as [|c s IH]; cbn [PyStr.lower]; [reflexivity|].
  now rewrite lower_char_idem, IH.
Qed.

Lemma similarity_lower (a a' b b' : string) :
  PyStr.lower a = PyStr.lower a' -> PyStr.lower b = PyStr.lower b' ->
  similarity a b = similarity a' b'.
Proof. intros Ea Eb. unfold similarity. now rewrite Ea, Eb. Qed.

Lemma sort_ext (A : Type) (f g : A -> A -> bool) (l : list A) :
  (forall x y, f x y = g x y) -> PySort.sort f l = PySort.sort g l.
Proof.
  intros H. induction l as [|x l IH]; cbn [PySort.sort]; [reflexivity|].
  rewrite IH. generalize (PySort.sort g l). intros s.
  induction s as [|y s IHs]; cbn [PySort.insert]; [reflexivity|].
  now rewrite H, IHs.
Qed.

Lemma sorted_tail (A : Type) (R : A -> A -> Prop) (l1 l2 : list A) (x : A) :
  StronglySorted R (l1 ++ x :: l2) -> forall y, In y l2 -> R x y.
Proof.
  induction l1 as [|z l1 IH]; cbn [app]; intros H y Hy.
  - apply StronglySorted_inv in H as [_ H].
    rewrite Forall_forall in H. now apply H.
  - apply StronglySorted_inv in H as [H _]. now apply IH.
Qed.

Lemma before_exact_match (q : string) (x o : org) :
  PyStr.lower (name_of o) = PyStr.lower q ->
  ranked_before q x o ->
  (similarity q (name_of x) == 1)%Q
  /\ (String.length (name_of x) <= String.length (name_of o))%nat.
Proof.
  intros E H.
  assert (Ho : (similarity q (name_of o) == 1)%Q)
    by (apply similarity_same; now symmetry).
  pose proof (similarity_bounds q (name_of x)) as [_ Hx].
  unfold ranked_before in H. cbv zeta in H.
  destruct H as [H|[H1 H2]]; [lra|]. split; [lra|exact H2].
Qed.

Lemma org_eq_dec (x y : org) : {x = y} + {x <> y}.
Proof.
  decide equality; try apply Z.eq_dec;
    decide equality; apply string_dec.
Qed.

End RankFacts.

Section RankClaims.

Import Helpers IndividualSearch Spec Sample.
Local Open Scope string_scope.

(** X25. A candidate whose name is the query, letter case apart, is ranked
    at the top: whatever stands before it in the ranked list has similarity
    1 as well and a name no longer than its name; and when every other
    candidate has a similarity below 1, it is the first of the list. *)
Theorem exact_match_is_ranked_first :
  forall (q : string) (rows : list org) (o : org),
    In o rows ->
    PyStr.lower (name_of o) = PyStr.lower q ->
    (forall (before after : list org) (x : org),
        sort_rows q rows = (before ++ x :: after)%list -> In o after ->
        (similarity q (name_of x) == 1)%Q
        /\ (String.length (name_of x) <= String.length (name_of o))%nat)
    /\ ((forall x : org, In x rows -> x <> o ->
                         (similarity q (name_of x) < 1)%Q) ->
        exists rest : list org, sort_rows q rows = o :: rest).
Proof.
  intros q rows o Hin E.
  destruct (sort_rows_ranked q rows) as [Hperm Hsorted].
  split.
  - intros before after x Hs Ho. rewrite Hs in Hsorted.
    apply (before_exact_match q x o E).
    exact (sorted_tail _ _ before after x Hsorted o Ho).
  - intros Hothers.
    destruct (sort_rows q rows) as [|h rest] eqn:Es.
    + apply Permutation_sym, Permutation_nil in Hperm. subst rows.
      destruct Hin.
    + assert (Hh : In h rows).
      { apply (Permutation_in _ (Permutation_sym Hperm)). now left. }
      assert (Ho : In o (h :: rest)) by exact (Permutation_in _ Hperm Hin).
      destruct Ho as [->|Ho]; [now exists rest|].
      destruct (org_eq_dec h o) as [->|Hne]; [now exists rest|].
      exfalso.
      pose proof (Hothers h Hh Hne) as Hlt.
      destruct (before_exact_match q h o E
                  (sorted_tail _ _ [] rest h Hsorted o Ho)) as [H1 _].
      lra.
Qed.

Lemma exact_match_is_ranked_first_witness :
  In (named 2 "CANES") [named 1 "Canes Baseball"; named 2 "CANES"]
  /\ PyStr.lower (name_of (named 2 "CANES")) = PyStr.lower "canes"
  /\ exists rest : list org,
       sort_rows "canes" [named 1 "Canes Baseball"; named 2 "CANES"]
       = named 2 "CANES" :: rest.
Proof.
  assert (H1 : In (named 2 "CANES")
                 [named 1 "Canes Baseball"; named 2 "CANES"])
    by (right; left; reflexivity).
  assert (H2 : PyStr.lower (name_of (named 2 "CANES")) = PyStr.lower "canes")
    by reflexivity.
  split; [exact H1|]. split; [exact H2|].
  apply (proj2 (exact_match_is_ranked_first "canes" _ _ H1 H2)).
  intros x [<-|[<-|[]]] Hne; [|congruence].
  vm_compute. reflexivity.
Defined.

(** X26. The ranking does not look at the letter case of the query: two
    queries that are the same once lower-cased give every name the same
    similarity and rank every list of candidates the same way, and so does
    the lower-cased query itself. *)
Theorem ranking_ignores_the_case_of_the_query :
  forall (q q' : string),
    PyStr.lower q = PyStr.lower q' ->
    (forall name : string, similarity q name = similarity q' name)
    /\ (forall name : string,
           similarity name q = similarity name q')
    /\ (forall rows : list org, sort_rows q rows = sort_rows q' rows)
    /\ (forall rows : list org,
           sort_rows (PyStr.lower q) rows = sort_rows q rows).
Proof.
  intros q q' E.
  assert (Hs : forall a a' : string,
             PyStr.lower a = PyStr.lower a' ->
             forall rows, sort_rows a rows = sort_rows a' rows).
  { intros a a' Ea rows. unfold sort_rows. apply sort_ext.
    intros x y. unfold sort_key.
    now rewrite (similarity_lower a a' (name_of x) (name_of x) Ea eq_refl),
      (similarity_lower a a' (name_of y) (name_of y) Ea eq_refl). }
  split; [|split; [|split]].
  - intros name. now apply similarity_lower.
  - intros name. now apply similarity_lower.
  - apply (Hs q q'). exact E.
  - apply (Hs (PyStr.lower q) q). apply lower_idem.
Qed.

Lemma ranking_ignores_the_case_of_the_query_witness :
  PyStr.lower "CANES" = PyStr.lower "canes"
  /\ sort_rows "CANES" [named 1 "Canes Baseball"; named 2 "Canes"]
     = sort_rows "canes" [named 1 "Canes Baseball"; named 2 "Canes"].
Proof.
  split; [reflexivity|].
  exact (proj1 (proj2 (proj2
           (ranking_ignores_the_case_of_the_query "CANES" "canes" eq_refl)))
           _).
Defined.

End RankClaims.

(** ** The caption of a page, and the contact block *)

Section CaptionClaims.

Import PyList Pagination IndividualSearch SearchUI.
Local Open Scope Z_scope.

(** X27. The caption of a page of candidates tells what is shown. With at
    least one candidate, "Showing a-b of n (Page p / m)" has
    [1 <= a <= b <= n] and [1 <= p <= m], [n] is the number of candidates,
    [a] is the first position of page [p] at ten a page, the page holds the
    [b - a + 1] candidates from the [a]-th to the [b]-th, at least one and
    at most ten, and [b = n] exactly on the last page. *)
Theorem caption_tells_what_is_shown :
  forall (results : list org) (page0 : Z),
    results <> [] ->
    let v := search_page results page0 in
    let '(a, b, n, (p, m)) := caption v in
    1 <= a <= b /\ b <= n /\ n = len results
    /\ 1 <= p <= m
    /\ a = (p - 1) * PAGE_SIZE + 1
    /\ len (page_rows v) = b - a + 1
    /\ b - a + 1 <= PAGE_SIZE
    /\ (b = n <-> p = m)
    /\ forall i : nat,
         Z.of_nat i < b - a + 1 ->
         nth_error (page_rows v) i = nth_error results (Z.to_nat (a - 1) + i).
Proof.
  intros results page0 Hne. unfold search_page, caption, paginate.
  cbn [start end_ total page total_pages page_rows]. unfold PAGE_SIZE.
  set (n := len results).
  assert (Hn : 1 <= n).
  { unfold n, len. destruct results; [congruence|cbn [List.length]; lia]. }
  set (q := (n + 10 - 1) / 10).
  pose proof (Z.div_mod (n + 10 - 1) 10 ltac:(lia)) as E.
  pose proof (Z.mod_pos_bound (n + 10 - 1) 10 ltac:(lia)) as B.
  fold q in E.
  set (m := Z.max 1 q).
  set (p0 := Z.max 0 (Z.min page0 (m - 1))).
  set (s := p0 * 10).
  set (e := Z.min (s + 10) n).
  assert (Hm : 1 <= m /\ 10 * (m - 1) < n /\ n <= 10 * m) by (unfold m; lia).
  assert (Hp : 0 <= p0 <= m - 1) by (unfold p0; lia).
  assert (Hs : 0 <= s < n) by (unfold s; lia).
  assert (He : s < e <= n /\ e <= s + 10) by (unfold e; lia).
  assert (Hslice : slice results s e
                   = firstn (Z.to_nat (e - s)) (skipn (Z.to_nat s) results)).
  { apply slice_in_range; fold n; lia. }
  assert (Hlen : len (slice results s e) = e - s).
  { rewrite Hslice. unfold len. rewrite length_firstn, length_skipn.
    assert (Hl : Z.of_nat (List.length results) = n) by reflexivity. lia. }
  assert (Hlast : e = n <-> p0 + 1 = m) by (unfold e, s in *; lia).
  split; [lia|]. split; [lia|]. split; [reflexivity|]. split; [lia|].
  split; [lia|]. split; [lia|]. split; [lia|]. split; [exact Hlast|].
  intros i Hi. rewrite Hslice.
  replace (s + 1 - 1) with s by lia.
  apply nth_error_firstn_skipn. lia.
Qed.

Lemma caption_tells_what_is_shown_witness :
  map (fun n => Sample.named (Z.of_nat n) "Canes") (seq 1 23) <> []
  /\ caption
       (search_page
          (map (fun n => Sample.named (Z.of_nat n) "Canes") (seq 1 23)) 5)
     = (21, 23, 23, (3, 3))
  /\ 1 <= 21 <= 23 /\ 23 <= 23.
Proof.
  assert (H : map (fun n => Sample.named (Z.of_nat n) "Canes") (seq 1 23)
              <> []) by discriminate.
  split; [exact H|]. split; [reflexivity|].
  pose proof (caption_tells_what_is_shown _ 5 H) as C.
  split; [exact (proj1 C)|exact (proj1 (proj2 C))].
Defined.

End CaptionClaims.

Section ContactClaims.

Import Contact.
Local Open Scope string_scope.

Lemma contact_row_first (col before after : list (option string))
    (s : string) :
  col = (before ++ Some s :: after)%list ->
  (forall c, In c before -> c = None) ->
  exists rest, filter notna col = Some s :: rest.
Proof.
  intros -> Hb. induction before as [|c before IH]; cbn [app filter notna].
  - eauto.
  - rewrite (Hb c (or_introl eq_refl)). cbn [notna]. apply IH.
    intros c' Hc'. apply Hb. now right.
Qed.

Lemma contact_row_none (col : list (option string)) :
  filter notna col = [] <-> forall c, In c col -> c = None.
Proof.
  induction col as [|[s|] col IH]; cbn [filter notna In].
  - split; [intros _ c []|reflexivity].
  - split; [discriminate|]. intros H.
    specialize (H (Some s) (or_introl eq_refl)). discriminate.
  - rewrite IH. split.
    + intros H c [<-|Hc]; [reflexivity|now apply H].
    + intros H c Hc. apply H. now right.
Qed.

(** X28. The contact shown is the first contact name of the answer that is
    not null, in the order of the rows. Both scripts show "No contact info"
    exactly when every cell is null. Otherwise [individual_search.py]
    writes that first name, and [app.py] writes it unless it is the empty
    text, in which case it writes nothing: this is the one case in which
    the two scripts differ. *)
Theorem contact_is_the_first_name :
  forall col : list (option string),
    (search_contact col = NoContactInfo
     <-> forall c, In c col -> c = None)
    /\ (app_contact col = NoContactInfo
        <-> forall c, In c col -> c = None)
    /\ (forall (before after : list (option string)) (s : string),
           col = (before ++ Some s :: after)%list ->
           (forall c, In c before -> c = None) ->
           search_contact col = Written (Some s)
           /\ app_contact col
              = if String.eqb s "" then Nothing else Written (Some s))
    /\ (app_contact col = search_contact col
        \/ (app_contact col = Nothing
            /\ search_contact col = Written (Some ""))).
Proof.
  intros col. unfold search_contact, app_contact, contact_row.
  rewrite <- contact_row_none.
  destruct (filter notna col) as [|c rest] eqn:Ef; cbn [firstn].
  - split; [tauto|]. split; [tauto|]. split; [|now left].
    intros before after s E Hb.
    destruct (contact_row_first col before after s E Hb) as (r & Er).
    congruence.
  - assert (Hc : notna c = true).
    { assert (Hin : In c (filter notna col)) by (rewrite Ef; now left).
      now apply filter_In in Hin. }
    destruct c as [s|]; [|discriminate]. cbn [truthy_cell].
    split; [split; [discriminate|intros H; discriminate H]|].
    split.
    { split; [destruct (PyStr.truthy s); discriminate|].
      intros H; discriminate H. }
    split.
    + intros before after s' E Hb.
      destruct (contact_row_first col before after s' E Hb) as (r & Er).
      rewrite Ef in Er. injection Er as -> _. split; [reflexivity|].
      destruct s' as [|ch s']; reflexivity.
    + destruct s as [|ch s]; cbn [PyStr.truthy]; [right|left]; auto.
Qed.

Lemma contact_is_the_first_name_witness :
  [None; Some ""; Some "Ann"] = ([None] ++ Some "" :: [Some "Ann"])%list
  /\ (forall c : option string, In c [None] -> c = None)
  /\ search_contact [None; Some ""; Some "Ann"] = Written (Some "")
  /\ app_contact [None; Some ""; Some "Ann"] = Nothing.
Proof.
  assert (H : forall c : option string, In c [None] -> c = None).
  { intros c [<-|[]]. reflexivity. }
  split; [reflexivity|]. split; [exact H|].
  exact (proj1 (proj2 (proj2
           (contact_is_the_first_name [None; Some ""; Some "Ann"])))
           [None] [Some "Ann"] "" eq_refl H).
Defined.

End ContactClaims.

(** ** The frame as pandas builds it *)

Section FrameFacts.

Import Helpers App Spec.
Local Open Scope Z_scope.

Lemma coerce_returns (nt : string -> option Q)
    (td : list (option string) -> outcome (string -> option date))
    (data : list raw_request) (ps pr : string -> option date) :
  td (map (fun x => start_date x) data) = Ok ps ->
  td (map (fun x => date_requested x) data) = Ok pr ->
  Frame.coerce nt td data = Ok (map (Frame.coerce_row nt ps pr) data).
Proof. intros Hs Hr. unfold Frame.coerce. now rewrite Hs, Hr. Qed.

Lemma date_dtype_spec (col : list (option date)) :
  (Frame.date_dtype col = Frame.Datetime64
   <-> forall cell, In cell col -> cell = None)
  /\ (Frame.date_dtype col = Frame.ObjectDtype
      <-> exists d, In (Some d) col).
Proof.
  unfold Frame.date_dtype.
  destruct (forallb (fun cell => negb (notna cell)) col) eqn:E.
  - rewrite forallb_forall in E.
    assert (H : forall cell, In cell col -> cell = None).
    { intros [d|] Hc; [|reflexivity]. apply E in Hc. discriminate. }
    split; split; try discriminate; try (intros _; exact H);
      try (intros _; reflexivity).
    intros (d & Hd). apply H in Hd. discriminate.
  - assert (H : exists d, In (Some d) col).
    { clear -E. induction col as [|[d|] col IH]; cbn in E; [discriminate| |].
      - exists d. now left.
      - destruct (IH E) as (d & Hd). exists d. now right. }
    split; split; try discriminate; try (intros _; exact H);
      try (intros _; reflexivity).
    intros Hall. destruct H as (d & Hd). apply Hall in Hd. discriminate.
Qed.

(** On an [object] column the aggregation is the cell-by-cell one. *)
Lemma aggregate_object (df : list coerced_request) (today : date) :
  Frame.aggregate Frame.ObjectDtype df today = App.aggregate df today.
Proof.
  unfold Frame.aggregate, App.aggregate.
  destruct (mk_date 2025 (month today) (day today)); reflexivity.
Qed.

(** On a [datetime64] column it raises as soon as the cutoff is built. *)
Lemma aggregate_datetime64 (df : list coerced_request) (today : date) :
  Frame.aggregate Frame.Datetime64 df today
  = (cutoff <- mk_date 2025 (month today) (day today) ;; Raised TypeError).
Proof.
  unfold Frame.aggregate.
  destruct (mk_date 2025 (month today) (day today)); reflexivity.
Qed.

Lemma frame_render_unfold (nt : string -> option Q)
    (td : list (option string) -> outcome (string -> option date))
    (data : list raw_request) (sc ec : string) (today : date) :
  data <> [] ->
  Frame.render_org_insights nt td data sc ec today
  = (df0 <- Frame.coerce nt td data ;;
     m <- Frame.aggregate
            (Frame.date_dtype (map (fun r => date_requested r) df0))
            (apply_dropdown_filters df0 sc ec) today ;;
     Ok {| status_options := status_options_of df0;
           event_options := event_options_of df0;
           shown_metrics := m;
           tab25 := year_rows 2025 (apply_dropdown_filters df0 sc ec);
           tab26 := year_rows 2026 (apply_dropdown_filters df0 sc ec);
           taball := apply_dropdown_filters df0 sc ec |}).
Proof. destruct data; [congruence|reflexivity]. Qed.

(** With a reading that is the same for every column and never raises, and
    at least one request date read, the frame is the one the cell-by-cell
    coercion gives. *)
Lemma frame_render_cell_by_cell (nt : string -> option Q)
    (dt : string -> option date) (data : list raw_request) (sc ec : string)
    (today : date) :
  (exists r d, In r data /\ to_date dt (date_requested r) = Some d) ->
  Frame.render_org_insights nt (fun _ => Ok dt) data sc ec today
  = App.render_org_insights nt dt data sc ec today.
Proof.
  intros (r & d & Hin & Hd).
  assert (Hne : data <> []) by (intros ->; destruct Hin).
  rewrite (frame_render_unfold nt _ data sc ec today Hne).
  rewrite (render_unfold nt dt sc ec today Hne).
  unfold Frame.coerce. cbn [bind].
  change (map (Frame.coerce_row nt dt dt) data) with (coerce nt dt data).
  assert (E : Frame.date_dtype
                (map (fun r => date_requested r) (coerce nt dt data))
              = Frame.ObjectDtype).
  { apply date_dtype_spec. exists d. unfold coerce. rewrite map_map.
    apply in_map_iff. exists r. split; [exact Hd|exact Hin]. }
  rewrite E, aggregate_object. reflexivity.
Qed.

End FrameFacts.

Section FrameClaims.

Import Helpers App Spec Sample FrameSample.
Local Open Scope Z_scope.

(** C2, what the code does. When not one request of the answer has a
    request date that is read (all are null or do not parse), pandas holds
    the column as [datetime64], and line 181 of [app.py] compares it with a
    [date]: for every valid [today] but 29 February, on which line 179
    raises first, [render_org_insights] raises [TypeError], whatever the
    years of the requests and the two choices, and no count is shown. The
    claim asks for full-year counts from the years alone and for a
    year-to-date count of 0 there. As soon as one request date is read the
    column holds objects, and the numbers are the claimed ones. *)
Theorem year_to_date_raises_without_a_request_date :
  forall (numeric_of_text : string -> option Q)
         (to_datetime : list (option string)
                        -> outcome (string -> option date))
         (data : list raw_request) (status_choice event_choice : string)
         (today : date) (start_of_text requested_of_text : string -> option date),
    data <> [] ->
    to_datetime (map (fun r => start_date r) data) = Ok start_of_text ->
    to_datetime (map (fun r => date_requested r) data)
    = Ok requested_of_text ->
    (forall r, In r data ->
               to_date requested_of_text (date_requested r) = None) ->
    valid_date (year today) (month today) (day today) = true ->
    ~ (month today = 2 /\ day today = 29) ->
    Frame.render_org_insights numeric_of_text to_datetime data
      status_choice event_choice today = Raised TypeError
    /\ (forall df : list coerced_request,
           Frame.aggregate Frame.Datetime64 df today = Raised TypeError)
    /\ (forall df : list coerced_request,
           let full y := count_where (year_is y) df in
           let cutoff := {| year := 2025; month := month today;
                            day := day today |} in
           let ytd y c :=
             count_where (fun r => year_is y r && requested_by c r) df in
           Frame.aggregate Frame.ObjectDtype df today
           = Ok {| count_2025 := full 2025; count_2026 := full 2026;
                   yoy_delta := full 2026 - full 2025;
                   cutoff_2025 := cutoff;
                   ytd_2025 := ytd 2025 cutoff; ytd_2026 := ytd 2026 today;
                   ytd_delta := ytd 2026 today - ytd 2025 cutoff |}).
Proof.
  intros nt td data sc ec today ps pr Hne Hs Hr Hnull Hv Hf.
  pose proof (cutoff_exists today Hv Hf) as Hc.
  assert (Hraise : forall df,
             Frame.aggregate Frame.Datetime64 df today = Raised TypeError).
  { intros df. rewrite aggregate_datetime64, Hc. reflexivity. }
  split; [|split; [exact Hraise|]].
  - rewrite (frame_render_unfold nt td data sc ec today Hne).
    rewrite (coerce_returns nt td data ps pr Hs Hr). cbn [bind].
    assert (E : Frame.date_dtype
                  (map (fun r => date_requested r)
                     (map (Frame.coerce_row nt ps pr) data))
                = Frame.Datetime64).
    { apply date_dtype_spec. intros cell Hcell.
      rewrite map_map in Hcell. apply in_map_iff in Hcell as (r & <- & Hin).
      exact (Hnull r Hin). }
    rewrite E, Hraise. reflexivity.
  - intros df full cutoff ytd. rewrite aggregate_object.
    destruct (aggregate_counts df today) as (E & _). cbv zeta in E.
    rewrite E, Hc. reflexivity.
Qed.

Lemma year_to_date_raises_without_a_request_date_witness :
  [undated] <> []
  /\ valid_date 2026 3 15 = true
  /\ Frame.render_org_insights no_number as_march_first [undated]
       "All"%string "All"%string (ymd 2026 3 15) = Raised TypeError.
Proof.
  assert (H1 : [undated] <> []) by discriminate.
  assert (H2 : valid_date 2026 3 15 = true) by reflexivity.
  split; [exact H1|]. split; [exact H2|].
  refine (proj1 (year_to_date_raises_without_a_request_date no_number
                   as_march_first [undated] "All"%string "All"%string
                   (ymd 2026 3 15) march_first march_first H1 eq_refl eq_refl
                   _ H2 _)).
  - intros r [<-|[]]. reflexivity.
  - cbn. lia.
Defined.

(** C8. A request whose year cell fails the numeric coercion gets the
    missing value as its year, and nothing stops on it. The call ends as it
    does with a null in that cell. Whenever the two date columns of the
    batch are read, the three coercions return the whole batch, every other
    row with the number its year cell holds; the row is in no table of a
    year and in none of the counts, which are those of the rows before it
    and after it; it is in the filtered table, at its place, when it passes
    the two choices; and every other row that passes them is in the table
    of the year its cell holds. *)
Theorem malformed_year_keeps_the_batch :
  forall (numeric_of_text : string -> option Q)
         (to_datetime : list (option string)
                        -> outcome (string -> option date))
         (pre post : list raw_request) (r : raw_request)
         (status_choice event_choice : string) (today : date),
    to_numeric numeric_of_text (start_date_calendar_year r) = None ->
    let data := pre ++ r :: post in
    Frame.render_org_insights numeric_of_text to_datetime data
      status_choice event_choice today
    = Frame.render_org_insights numeric_of_text to_datetime
        (pre ++ Frame.with_year JNull r :: post)
        status_choice event_choice today
    /\ forall start_of_text requested_of_text : string -> option date,
         to_datetime (map (fun x => start_date x) data) = Ok start_of_text ->
         to_datetime (map (fun x => date_requested x) data)
         = Ok requested_of_text ->
         let row :=
           Frame.coerce_row numeric_of_text start_of_text requested_of_text in
         let view l :=
           apply_dropdown_filters (map row l) status_choice event_choice in
         let requested_dtype :=
           Frame.date_dtype
             (map (fun x => date_requested x) (map row data)) in
         Frame.coerce numeric_of_text to_datetime data
         = Ok (map row pre ++ row r :: map row post)
         /\ start_date_calendar_year (row r) = None
         /\ (forall (y : Z) (l : list coerced_request),
                ~ In (row r) (year_rows y l))
         /\ (forall (x : raw_request) (q : Q),
                start_date_calendar_year x = JNumber q ->
                start_date_calendar_year (row x) = Some q)
         /\ Frame.render_org_insights numeric_of_text to_datetime data
              status_choice event_choice today
            = (m <- Frame.aggregate requested_dtype (view pre ++ view post)
                      today ;;
               Ok {| status_options := status_options_of (map row data);
                     event_options := event_options_of (map row data);
                     shown_metrics := m;
                     tab25 := year_rows 2025 (view pre ++ view post);
                     tab26 := year_rows 2026 (view pre ++ view post);
                     taball :=
                       view pre
                       ++ (if passes status_choice event_choice (row r)
                           then [row r] else [])
                       ++ view post |})
         /\ (forall (x : raw_request) (y : Z),
                In x (pre ++ post) ->
                start_date_calendar_year x = JNumber (inject_Z y) ->
                passes status_choice event_choice (row x) = true ->
                In (row x) (year_rows y (view pre ++ view post))).
Proof.
  intros nt td pre post r sc ec today Hbad data.
  assert (Hne : data <> []) by (unfold data; destruct pre; discriminate).
  split.
  - assert (Hne' : pre ++ Frame.with_year JNull r :: post <> [])
      by (destruct pre; discriminate).
    rewrite (frame_render_unfold nt td data sc ec today Hne).
    rewrite (frame_render_unfold nt td _ sc ec today Hne').
    assert (E : Frame.coerce nt td (pre ++ Frame.with_year JNull r :: post)
                = Frame.coerce nt td data).
    { assert (Hrow : forall ps pr,
                 Frame.coerce_row nt ps pr (Frame.with_year JNull r)
                 = Frame.coerce_row nt ps pr r).
      { intros ps pr. unfold Frame.coerce_row, Frame.with_year.
        cbn [team_name date_requested event_name start_date_calendar_year
             start_date registration_status to_numeric].
        now rewrite Hbad. }
      assert (Es : map (fun x => start_date x)
                     (pre ++ Frame.with_year JNull r :: post)
                   = map (fun x => start_date x) data)
        by (unfold data; rewrite !map_app; reflexivity).
      assert (Er : map (fun x => date_requested x)
                     (pre ++ Frame.with_year JNull r :: post)
                   = map (fun x => date_requested x) data)
        by (unfold data; rewrite !map_app; reflexivity).
      unfold Frame.coerce. rewrite Es, Er.
      destruct (td (map (fun x => start_date x) data)) as [ps| |e];
        cbn [bind]; try reflexivity.
      destruct (td (map (fun x => date_requested x) data)) as [pr| |e];
        cbn [bind]; try reflexivity.
      f_equal. unfold data. rewrite !map_app. cbn [map]. now rewrite Hrow. }
    now rewrite E.
  - intros ps pr Hs Hr row view dt.
    assert (Hc : Frame.coerce nt td data
                 = Ok (map row pre ++ row r :: map row post)).
    { rewrite (coerce_returns nt td data ps pr Hs Hr). unfold data.
      now rewrite map_app. }
    assert (Hy : start_date_calendar_year (row r) = None) by exact Hbad.
    assert (Hno : forall y, year_is y (row r) = false).
    { intros y. unfold year_is. now rewrite Hy. }
    assert (Hv : apply_dropdown_filters (map row data) sc ec
                 = view pre
                   ++ (if passes sc ec (row r) then [row r] else [])
                   ++ view post).
    { unfold view, data. rewrite map_app, !filters_are_passes, filter_app.
      cbn [map filter]. destruct (passes sc ec (row r)); reflexivity. }
    assert (Hpart : forall y,
               year_rows y (apply_dropdown_filters (map row data) sc ec)
               = year_rows y (view pre ++ view post)).
    { intros y. rewrite Hv. unfold year_rows. rewrite !filter_app.
      destruct (passes sc ec (row r)); cbn [filter app]; [rewrite Hno|];
        reflexivity. }
    assert (Hagg : Frame.aggregate dt
                     (apply_dropdown_filters (map row data) sc ec) today
                   = Frame.aggregate dt (view pre ++ view post) today).
    { unfold Frame.aggregate. now rewrite !Hpart. }
    split; [exact Hc|]. split; [exact Hy|]. split.
    { intros y l Hin. unfold year_rows in Hin.
      apply filter_In in Hin as [_ Hin]. rewrite Hno in Hin. discriminate. }
    split; [|split].
    + intros x q Hx. unfold row, Frame.coerce_row.
      cbn [start_date_calendar_year]. now rewrite Hx.
    + rewrite (frame_render_unfold nt td data sc ec today Hne).
      rewrite (coerce_returns nt td data ps pr Hs Hr). cbn [bind].
      fold row. fold dt. rewrite Hagg, !Hpart, Hv. reflexivity.
    + intros x y Hin Hx Hp. unfold year_rows, view.
      rewrite !filters_are_passes, <- filter_app, <- map_app.
      apply filter_In. split.
      * apply filter_In. split; [now apply in_map|exact Hp].
      * unfold year_is, row, Frame.coerce_row.
        cbn [start_date_calendar_year]. rewrite Hx. cbn [to_numeric].
        apply Qeq_bool_iff. reflexivity.
Qed.

Lemma malformed_year_keeps_the_batch_witness :
  to_numeric no_number (start_date_calendar_year (raw "pending" (JString "n/a")))
  = None
  /\ Frame.render_org_insights no_number as_march_first
       [nan_row; raw "pending" (JString "n/a"); undated]
       "All"%string "All"%string (ymd 2026 3 15)
     = Frame.render_org_insights no_number as_march_first
         [nan_row; Frame.with_year JNull (raw "pending" (JString "n/a"));
          undated]
         "All"%string "All"%string (ymd 2026 3 15)
  /\ exists out : insights,
       Frame.render_org_insights no_number as_march_first
         [nan_row; raw "pending" (JString "n/a"); undated]
         "All"%string "All"%string (ymd 2026 3 15) = Ok out
       /\ count_2025 (shown_metrics out) = 2
       /\ PyList.len (taball out) = 3.
Proof.
  assert (H : to_numeric no_number
                (start_date_calendar_year (raw "pending" (JString "n/a")))
              = None) by reflexivity.
  split; [exact H|]. split.
  - exact (proj1 (malformed_year_keeps_the_batch no_number as_march_first
                    [nan_row] [undated] (raw "pending" (JString "n/a"))
                    "All"%string "All"%string (ymd 2026 3 15) H)).
  - eexists. split; [vm_compute; reflexivity|]. split; reflexivity.
Defined.

End FrameClaims.

(** ** A whole run of the search page *)

Section RunPageClaims.

Import IndividualSearch Pagination SearchUI Pick SearchRun Sample.
Local Open Scope Z_scope.

Lemma strict_radio_follows : radio_follows_the_session strict_radio.
Proof.
  split; [reflexivity|]. intros options v Hin. unfold strict_radio.
  assert (E : existsb (String.eqb v) options = true).
  { apply existsb_exists. exists v. split; [exact Hin|apply String.eqb_refl]. }
  now rewrite E.
Qed.

(** X13. What the Search button does, over the whole run. When the store
    answers with rows, the session holds the stripped query, the rows and
    page 0; the first page is shown with the radio on its placeholder,
    whatever was selected before and also in a session that never showed
    the radio, so that the run stops there and shows no insights. With no
    row the run stops at the warning (at the hint when the query was blank)
    before the radio, and a selection made before is reset. When the store
    raises, the run fails with that exception: the stripped query is
    already stored, the results and the page of the session are the old
    ones. *)
Theorem search_button :
  forall (dash : string)
         (st_radio : list string -> option string -> outcome string)
         (client : Store) (s : session) (q : string),
    radio_follows_the_session st_radio ->
    let query := PyStr.strip q in
    let reset := match org_pick s with
                 | Some _ => Some placeholder
                 | None => None
                 end in
    (forall (o : org) (rows : list org),
        fetch_org_candidates client (Some q) = Ok (o :: rows) ->
        run_page dash st_radio client s q Search
        = ({| org_results := o :: rows; org_page := 0;
              searched_query := query; org_pick := Some placeholder |},
           Results (paginate PAGE_SIZE (o :: rows) 0), Some Halted)
        /\ page (paginate PAGE_SIZE (o :: rows) 0) = 0
        /\ page_rows (paginate PAGE_SIZE (o :: rows) 0)
           = firstn (Z.to_nat PAGE_SIZE) (o :: rows))
    /\ (fetch_org_candidates client (Some q) = Ok [] ->
        run_page dash st_radio client s q Search
        = ({| org_results := []; org_page := 0; searched_query := query;
              org_pick := reset |},
           if PyStr.truthy query then NoOrgsFound else TypeAQuery, None))
    /\ (forall e : exn,
           fetch_org_candidates client (Some q) = Raised e ->
           run_page dash st_radio client s q Search
           = ({| org_results := org_results s; org_page := org_page s;
                 searched_query := query; org_pick := org_pick s |},
              Failed e, None))
    /\ (Spec.blank q ->
        snd (fst (run_page dash st_radio client s q Search)) = TypeAQuery).
Proof.
  intros dash st_radio client s q [Hdefault Hstored] query reset.
  destruct (search_to_the_caption client s q) as (Hrows & Hraise & Hblank).
  fold query in Hrows, Hraise. fold reset in Hrows.
  split; [|split; [|split]].
  - intros o rows Hf. destruct (Hrows (o :: rows) Hf) as (Hrun & Hp & Hr).
    split; [|split; [exact Hp|exact Hr]].
    unfold run_page. rewrite Hrun.
    cbn [org_results org_page searched_query org_pick].
    assert (E : st_radio
                  (placeholder
                   :: map (org_label dash)
                        (page_rows (paginate PAGE_SIZE (o :: rows) 0)))
                  reset = Ok placeholder).
    { unfold reset. destruct (org_pick s).
      - apply Hstored. now left.
      - apply Hdefault. }
    rewrite E. unfold pick_org. cbv zeta. now rewrite String.eqb_refl.
  - intros Hf. destruct (Hrows [] Hf) as (Hrun & _).
    unfold run_page. rewrite Hrun.
    destruct (PyStr.truthy query); reflexivity.
  - intros e He. unfold run_page. now rewrite (Hraise e He).
  - intros Hb. specialize (Hblank Hb). unfold run_page.
    destruct (run client s q Search) as [s1 shown]. cbn [snd] in Hblank.
    subst shown. reflexivity.
Qed.

Lemma search_button_witness :
  radio_follows_the_session strict_radio
  /\ run_page "-" strict_radio
       (store_of [named 1 "Canes Baseball"; named 2 "Canes"]) init
       "Canes"%string Search
     = ({| org_results := [named 2 "Canes"; named 1 "Canes Baseball"];
           org_page := 0; searched_query := "Canes"%string;
           org_pick := Some placeholder |},
        Results (paginate PAGE_SIZE
                   [named 2 "Canes"; named 1 "Canes Baseball"] 0),
        Some Halted).
Proof.
  split; [exact strict_radio_follows|].
  exact (proj1 (proj1 (search_button "-" strict_radio
                         (store_of [named 1 "Canes Baseball"; named 2 "Canes"])
                         init "Canes"%string strict_radio_follows)
                  (named 2 "Canes") [named 1 "Canes Baseball"] eq_refl)).
Defined.

End RunPageClaims.
